(** * The chart validation, repair and theming pipeline of [visualizer/validators.py]

    A shallow embedding of [VisualizationValidator.validate_config],
    [VisualizationValidator.fix_common_issues] and [apply_visualization_rules],
    together with the part of Python's object model and of the [jsonschema]
    library these three functions rely on.

    Around them, the code that calls them or feeds them: the check
    [VisualizationGenerator.validate_chart_config], the cleaning of the
    response in [OllamaService.generate_with_json] and
    [OllamaService.set_active_model] of [services.py]; the [try] statement
    of [ConversationViewSet.chat] and the file type that
    [FileUploadViewSet.create] gives to an upload, of [views.py]; and
    [FileParser.parse_file] of [parsers.py].  What these reach outside the
    program is a parameter or a trace: [json.loads] and the parsers of the
    files are functions given to the definitions, the rows of a table are a
    list, and the writes of [chat] are recorded in their order, each one
    taken or refused by a database that is a parameter: a refused write
    raises, as [Visualization.objects.create] does on a chart configuration
    that holds NaN. *)

From Stdlib Require Import ZArith List String Ascii Bool Lia PeanoNat.
From Stdlib Require Import Floats.SpecFloat.
From Stdlib Require Import DecimalString.
From Stdlib Require Import Sorting.Permutation.
Import ListNotations.

Local Open Scope string_scope.
Local Open Scope list_scope.

(** ** Python values and exceptions *)

Module Py.

(** A Python float is an IEEE 754 binary64 number. *)
Definition float := spec_float.
Definition prec : Z := 53.
Definition emax : Z := 1024.

(** The values [json.loads] builds, which is what the pipeline receives.
    A [dict] keeps its items in insertion order and its keys are [str];
    a [str] is a sequence of characters, one [ascii] each (the 7-bit range). *)
#[local] Unset Elimination Schemes.
Inductive pyval : Type :=
| PNone
| PBool (b : bool)
| PInt (z : Z)
| PFloat (f : float)
| PStr (s : string)
| PList (l : list pyval)
| PDict (d : list (string * pyval)).
#[local] Set Elimination Schemes.

(** Induction on a value gives the property for the items of a list and for
    the values stored in a dict. *)
Fixpoint pyval_ind (P : pyval -> Prop)
    (HNone : P PNone)
    (HBool : forall b, P (PBool b))
    (HInt : forall z, P (PInt z))
    (HFloat : forall f, P (PFloat f))
    (HStr : forall s, P (PStr s))
    (HList : forall l, Forall P l -> P (PList l))
    (HDict : forall d, Forall (fun kv => P (snd kv)) d -> P (PDict d))
    (v : pyval) {struct v} : P v :=
  let rec := pyval_ind P HNone HBool HInt HFloat HStr HList HDict in
  match v with
  | PNone => HNone
  | PBool b => HBool b
  | PInt z => HInt z
  | PFloat f => HFloat f
  | PStr s => HStr s
  | PList l =>
      HList l ((fix items (l : list pyval) : Forall P l :=
                  match l with
                  | [] => Forall_nil P
                  | x :: l' => Forall_cons x (rec x) (items l')
                  end) l)
  | PDict d =>
      HDict d ((fix items (d : list (string * pyval))
                  : Forall (fun kv => P (snd kv)) d :=
                  match d with
                  | [] => Forall_nil _
                  | kv :: d' => Forall_cons kv (rec (snd kv)) (items d')
                  end) d)
  end.

(** The exception classes that the three functions can meet. *)
Inductive exn : Type :=
| ValidationError
| TypeError
| KeyError
| AttributeError
| ValueError
| OverflowError.

(** A computation either returns a value or raises. *)
Inductive result (A : Type) : Type :=
| Ok (a : A)
| Raise (e : exn).
Arguments Ok {A} a.
Arguments Raise {A} e.

Definition bind {A B : Type} (c : result A) (k : A -> result B) : result B :=
  match c with
  | Ok a => k a
  | Raise e => Raise e
  end.

(** [try: body / except Exception as e: handler e] *)
Definition try_except {A : Type} (body : result A) (handler : exn -> A) : result A :=
  match body with
  | Ok a => Ok a
  | Raise e => Ok (handler e)
  end.

(** Runs [f] on every item of a list, in order, stopping at the first raise. *)
Fixpoint mapM {A B : Type} (f : A -> result B) (l : list A) : result (list B) :=
  match l with
  | [] => Ok []
  | x :: l' =>
      bind (f x) (fun y => bind (mapM f l') (fun ys => Ok (y :: ys)))
  end.

(** *** [isinstance] *)

Definition is_dict (v : pyval) : bool :=
  match v with PDict _ => true | _ => false end.

(** [isinstance(x, (int, float))]: [bool] is a subclass of [int]. *)
Definition is_int_or_float (v : pyval) : bool :=
  match v with
  | PBool _ | PInt _ | PFloat _ => true
  | _ => false
  end.

(** *** Dictionaries *)

Fixpoint dict_lookup (k : string) (d : list (string * pyval)) : option pyval :=
  match d with
  | [] => None
  | (k', v) :: d' => if String.eqb k k' then Some v else dict_lookup k d'
  end.

Definition dict_mem (k : string) (d : list (string * pyval)) : bool :=
  match dict_lookup k d with Some _ => true | None => false end.

(** [d[k] = v]: an existing key keeps its place, a new one goes last. *)
Fixpoint dict_set (k : string) (v : pyval) (d : list (string * pyval))
  : list (string * pyval) :=
  match d with
  | [] => [(k, v)]
  | (k', v') :: d' =>
      if String.eqb k k' then (k', v) :: d' else (k', v') :: dict_set k v d'
  end.

(** *** Strings *)

(** [k in s] for two strings: [k] occurs in [s]. *)
Fixpoint substring_in (k s : string) : bool :=
  String.prefix k s ||
  match s with
  | EmptyString => false
  | String _ s' => substring_in k s'
  end.

Definition is_upper (c : ascii) : bool :=
  (65 <=? nat_of_ascii c)%nat && (nat_of_ascii c <=? 90)%nat.
Definition is_lower (c : ascii) : bool :=
  (97 <=? nat_of_ascii c)%nat && (nat_of_ascii c <=? 122)%nat.
Definition to_upper (c : ascii) : ascii :=
  if is_lower c then ascii_of_nat (nat_of_ascii c - 32) else c.
Definition to_lower (c : ascii) : ascii :=
  if is_upper c then ascii_of_nat (nat_of_ascii c + 32) else c.

(** [str.title]: the first letter of every run of letters in upper case,
    the others in lower case. *)
Fixpoint title_from (previous_is_cased : bool) (s : string) : string :=
  match s with
  | EmptyString => EmptyString
  | String c s' =>
      if is_upper c || is_lower c
      then String (if previous_is_cased then to_lower c else to_upper c)
                  (title_from true s')
      else String c (title_from false s')
  end.

Definition str_title (s : string) : string := title_from false s.

(** [format(v)], as an f-string inserts it, for the values whose text is
    modelled: a [str] is inserted as it is, an [int] in decimal. *)
Definition py_format (v : pyval) : option string :=
  match v with
  | PStr s => Some s
  | PInt z => Some (NilZero.string_of_int (Z.to_int z))
  | PBool b => Some (if b then "True" else "False")
  | PNone => Some "None"
  | PFloat _ | PList _ | PDict _ => None
  end.

(** *** Operators and methods on arbitrary values *)

(** [k in v] for a [str] key [k]. *)
Definition py_in (k : string) (v : pyval) : result bool :=
  match v with
  | PDict d => Ok (dict_mem k d)
  | PList l =>
      Ok (existsb (fun x => match x with
                            | PStr s => String.eqb s k
                            | _ => false
                            end) l)
  | PStr s => Ok (substring_in k s)
  | _ => Raise TypeError
  end.

(** [v[k]] for a [str] key [k]. *)
Definition py_getitem (v : pyval) (k : string) : result pyval :=
  match v with
  | PDict d =>
      match dict_lookup k d with
      | Some x => Ok x
      | None => Raise KeyError
      end
  | _ => Raise TypeError
  end.

(** [v[k] = x] for a [str] key [k]; the result is the updated [v]. *)
Definition py_setitem (v : pyval) (k : string) (x : pyval) : result pyval :=
  match v with
  | PDict d => Ok (PDict (dict_set k x d))
  | _ => Raise TypeError
  end.

(** [v.get(k, default)] *)
Definition py_get (v : pyval) (k : string) (default : pyval) : result pyval :=
  match v with
  | PDict d =>
      match dict_lookup k d with
      | Some x => Ok x
      | None => Ok default
      end
  | _ => Raise AttributeError
  end.

(** [len(v)] *)
Definition py_len (v : pyval) : result nat :=
  match v with
  | PList l => Ok (List.length l)
  | PStr s => Ok (String.length s)
  | PDict d => Ok (List.length d)
  | _ => Raise TypeError
  end.

(** The items [for x in v] runs through. *)
Definition py_iter (v : pyval) : result (list pyval) :=
  match v with
  | PList l => Ok l
  | PStr s => Ok (map (fun c => PStr (String c EmptyString)) (list_ascii_of_string s))
  | PDict d => Ok (map (fun kv => PStr (fst kv)) d)
  | _ => Raise TypeError
  end.

(** [v.title()] *)
Definition py_title (v : pyval) : result string :=
  match v with
  | PStr s => Ok (str_title s)
  | _ => Raise AttributeError
  end.

(** *** The [float] constructor *)

(** [float(n)] for an [int]: the nearest float, ties to even; an [int] beyond
    the range of floats raises [OverflowError]. *)
Definition float_of_int (z : Z) : result float :=
  match binary_normalize prec emax z 0 false with
  | S754_infinity _ => Raise OverflowError
  | f => Ok f
  end.

Definition is_space (c : ascii) : bool :=
  (nat_of_ascii c =? 32)%nat ||
  ((9 <=? nat_of_ascii c)%nat && (nat_of_ascii c <=? 13)%nat).
Definition is_digit (c : ascii) : bool :=
  (48 <=? nat_of_ascii c)%nat && (nat_of_ascii c <=? 57)%nat.
Definition digit_val (c : ascii) : Z := Z.of_nat (nat_of_ascii c - 48).
Definition is_char (c : ascii) (o : option ascii) : bool :=
  match o with Some c' => Ascii.eqb c c' | None => false end.

Fixpoint lstrip (s : list ascii) : list ascii :=
  match s with
  | c :: s' => if is_space c then lstrip s' else s
  | [] => []
  end.
Definition strip (s : list ascii) : list ascii := rev (lstrip (rev (lstrip s))).

(** An underscore is accepted between two digits only, and is dropped. *)
Fixpoint drop_underscores (prev : option ascii) (s : list ascii)
  : option (list ascii) :=
  match s with
  | [] => if is_char "_" prev then None else Some []
  | c :: s' =>
      if Ascii.eqb c "_"
      then match prev with
           | Some p => if is_digit p then drop_underscores (Some c) s' else None
           | None => None
           end
      else if is_char "_" prev && negb (is_digit c) then None
      else option_map (cons c) (drop_underscores (Some c) s')
  end.

Fixpoint take_digits (s : list ascii) : list ascii * list ascii :=
  match s with
  | c :: s' =>
      if is_digit c
      then let '(ds, r) := take_digits s' in (c :: ds, r)
      else ([], s)
  | [] => ([], [])
  end.

Definition digits_value (ds : list ascii) : Z :=
  fold_left (fun a c => 10 * a + digit_val c)%Z ds 0%Z.

Definition take_sign (s : list ascii) : bool * list ascii :=
  match s with
  | c :: s' =>
      if Ascii.eqb c "-" then (true, s')
      else if Ascii.eqb c "+" then (false, s')
      else (false, s)
  | [] => (false, [])
  end.

(** The float nearest to [m * 10 ^ k], ties to even, for [0 <= m]. *)
Definition float_of_decimal (neg : bool) (m k : Z) : float :=
  let sgn (x : Z) := if neg then Z.opp x else x in
  if (m =? 0)%Z then S754_zero neg
  else if (0 <=? k)%Z then binary_normalize prec emax (sgn (m * 10 ^ k)%Z) 0 neg
  else
    let d := (10 ^ (- k))%Z in
    let s := Z.max 0 (Z.log2 d - Z.log2 m + 64) in
    let n := (m * 2 ^ s)%Z in
    let sticky := if (n mod d =? 0)%Z then 0%Z else 1%Z in
    binary_normalize prec emax (sgn (2 * (n / d) + sticky)%Z) (- s - 1) neg.

(** digits [. digits] [e [sign] digits], with a digit before the exponent *)
Definition parse_decimal (neg : bool) (s : list ascii) : option float :=
  let '(ip, r1) := take_digits s in
  let '(fp, r2) :=
    match r1 with
    | c :: r => if Ascii.eqb c "." then take_digits r else ([], r1)
    | [] => ([], r1)
    end in
  let m := digits_value (ip ++ fp) in
  let shift := Z.of_nat (List.length fp) in
  match ip ++ fp with
  | [] => None
  | _ :: _ =>
      match r2 with
      | [] => Some (float_of_decimal neg m (- shift))
      | c :: r =>
          if Ascii.eqb c "e" || Ascii.eqb c "E"
          then let '(eneg, r') := take_sign r in
               match take_digits r' with
               | (d1 :: ds, []) =>
                   let e := digits_value (d1 :: ds) in
                   Some (float_of_decimal neg m ((if eneg then - e else e) - shift))
               | _ => None
               end
          else None
      end
  end.

(** [float(s)] for a [str]: surrounding white space is ignored, then comes an
    optional sign and [inf], [infinity], [nan] (in any case) or a decimal
    number; [None] stands for [ValueError]. *)
Definition float_of_str (s : string) : option float :=
  match drop_underscores None (list_ascii_of_string s) with
  | None => None
  | Some cs =>
      let '(neg, body) := take_sign (strip cs) in
      let word := string_of_list_ascii (map to_lower body) in
      if String.eqb word "inf" || String.eqb word "infinity"
      then Some (S754_infinity neg)
      else if String.eqb word "nan" then Some S754_nan
      else parse_decimal neg body
  end.

(** [float(v)] *)
Definition py_float (v : pyval) : result float :=
  match v with
  | PFloat f => Ok f
  | PInt z => float_of_int z
  | PBool b => float_of_int (if b then 1 else 0)
  | PStr s =>
      match float_of_str s with
      | Some f => Ok f
      | None => Raise ValueError
      end
  | PNone | PList _ | PDict _ => Raise TypeError
  end.

(** *** Equality of values, [==] *)

(** An [int] and a float are equal when they denote the same number. *)
Definition int_eq_float (z : Z) (f : float) : bool :=
  match f with
  | S754_zero _ => (z =? 0)%Z
  | S754_finite s m e =>
      let sm := if s then Zneg m else Zpos m in
      if (0 <=? e)%Z then (z =? sm * 2 ^ e)%Z else (z * 2 ^ (- e) =? sm)%Z
  | S754_infinity _ | S754_nan => false
  end.

(** Two floats met as items of a list or as values of a dict: the items are
    compared with [is] before [==], so that a nan left in place compares
    equal to itself. *)
Definition float_eq (f g : float) : bool :=
  match f, g with
  | S754_nan, S754_nan => true
  | _, _ => SFeqb f g
  end.

Inductive number : Type :=
| NInt (z : Z)
| NFloat (f : float).

Definition as_number (v : pyval) : option number :=
  match v with
  | PBool b => Some (NInt (if b then 1 else 0))
  | PInt z => Some (NInt z)
  | PFloat f => Some (NFloat f)
  | _ => None
  end.

Definition number_eq (a b : number) : bool :=
  match a, b with
  | NInt x, NInt y => (x =? y)%Z
  | NInt x, NFloat g => int_eq_float x g
  | NFloat f, NInt y => int_eq_float y f
  | NFloat f, NFloat g => float_eq f g
  end.

(** [x == y] on documents.  Numbers are compared by value whatever their
    type ([0 == 0.0], [True == 1]); lists item by item; dicts item by item
    in the order of their keys, so that two values related here are equal
    for Python, whose dict comparison ignores the order. *)
Fixpoint py_eq (x y : pyval) {struct x} : bool :=
  match x, y with
  | PNone, PNone => true
  | PStr s, PStr t => String.eqb s t
  | PList l, PList m =>
      (fix items (l m : list pyval) : bool :=
         match l, m with
         | [], [] => true
         | a :: l', b :: m' => py_eq a b && items l' m'
         | _, _ => false
         end) l m
  | PDict d, PDict e =>
      (fix items (d e : list (string * pyval)) : bool :=
         match d, e with
         | [], [] => true
         | (k, a) :: d', (k', b) :: e' =>
             String.eqb k k' && py_eq a b && items d' e'
         | _, _ => false
         end) d e
  | _, _ =>
      match as_number x, as_number y with
      | Some a, Some b => number_eq a b
      | _, _ => false
      end
  end.

End Py.

Module PyNotations.
  Notation "x <- c ;; k" := (Py.bind c (fun x => k))
    (at level 61, c at next level, right associativity).
End PyNotations.

(** ** The part of the [jsonschema] library the validator uses *)

Module JsonSchema.
Import Py.

Inductive jtype : Type := TObject | TArray | TString | TNumber.

(** A schema is a dict of keywords; these are the keywords that occur in
    [CHART_CONFIG_SCHEMA].  The values of its one [enum] are strings. *)
#[local] Unset Elimination Schemes.
Inductive keyword : Type :=
| KType (ts : list jtype)
| KRequired (names : list string)
| KProperties (props : list (string * list keyword))
| KMinLength (n : nat)
| KMinItems (n : nat)
| KMaxItems (n : nat)
| KItems (sub : list keyword)
| KEnum (vs : list string)
| KOneOf (subs : list (list keyword)).
#[local] Set Elimination Schemes.

Definition schema : Type := list keyword.

(** A [bool] is not a ["number"] for the library. *)
Definition is_type (v : pyval) (t : jtype) : bool :=
  match t, v with
  | TObject, PDict _ => true
  | TArray, PList _ => true
  | TString, PStr _ => true
  | TNumber, (PInt _ | PFloat _) => true
  | _, _ => false
  end.

(** A keyword constrains the instances of the type it is about and accepts
    all the others. *)
Fixpoint check (k : keyword) (v : pyval) {struct k} : bool :=
  match k with
  | KType ts => existsb (is_type v) ts
  | KRequired names =>
      match v with
      | PDict d => forallb (fun name => dict_mem name d) names
      | _ => true
      end
  | KProperties props =>
      match v with
      | PDict d =>
          forallb (fun p : string * list keyword =>
                     match dict_lookup (fst p) d with
                     | Some x => forallb (fun k' => check k' x) (snd p)
                     | None => true
                     end) props
      | _ => true
      end
  | KMinLength n =>
      match v with
      | PStr s => (n <=? String.length s)%nat
      | _ => true
      end
  | KMinItems n =>
      match v with
      | PList l => (n <=? List.length l)%nat
      | _ => true
      end
  | KMaxItems n =>
      match v with
      | PList l => (List.length l <=? n)%nat
      | _ => true
      end
  | KItems sub =>
      match v with
      | PList l => forallb (fun x => forallb (fun k' => check k' x) sub) l
      | _ => true
      end
  | KEnum vs =>
      match v with
      | PStr s => existsb (String.eqb s) vs
      | _ => false
      end
  | KOneOf subs =>
      (List.length
         (filter (fun sub => forallb (fun k' => check k' v) sub) subs) =? 1)%nat
  end.

(** The instance satisfies every keyword of the schema. *)
Definition valid (s : schema) (v : pyval) : bool :=
  forallb (fun k => check k v) s.

(** [validate(instance, schema)]: returns [None], or raises
    [ValidationError] for an instance that is not valid. *)
Definition validate (instance : pyval) (s : schema) : result unit :=
  if valid s instance then Ok tt else Raise ValidationError.

End JsonSchema.

Import Py PyNotations JsonSchema.

(** ** [validators.py] *)

Definition CHART_CONFIG_SCHEMA : schema :=
  [ KType [TObject];
    KRequired ["explanation"; "charts"];
    KProperties
      [ ("explanation", [KType [TString]; KMinLength 1]);
        ("charts",
          [ KType [TArray];
            KMinItems 1;
            KMaxItems 10;
            KItems
              [ KType [TObject];
                KRequired ["type"; "title"; "data"];
                KProperties
                  [ ("type",
                      [ KType [TString];
                        KEnum ["bar"; "line"; "pie"; "doughnut"; "radar";
                               "polarArea"; "scatter"; "bubble"] ]);
                    ("title", [KType [TString]; KMinLength 1]);
                    ("data",
                      [ KType [TObject];
                        KRequired ["labels"; "datasets"];
                        KProperties
                          [ ("labels",
                              [ KType [TArray];
                                KMinItems 1;
                                KItems [KType [TString; TNumber]] ]);
                            ("datasets",
                              [ KType [TArray];
                                KMinItems 1;
                                KItems
                                  [ KType [TObject];
                                    KRequired ["label"; "data"];
                                    KProperties
                                      [ ("label", [KType [TString]]);
                                        ("data",
                                          [ KType [TArray];
                                            KItems [KType [TNumber]] ]);
                                        ("backgroundColor",
                                          [ KOneOf
                                              [ [KType [TString]];
                                                [ KType [TArray];
                                                  KItems [KType [TString]] ] ] ]);
                                        ("borderColor", [KType [TString]]);
                                        ("borderWidth", [KType [TNumber]]) ] ] ]) ] ]);
                    ("options", [KType [TObject]]) ] ] ]) ] ].

(** An f-string: literal text and formatted values, in order. *)
Inductive fpart : Type :=
| Lit (s : string)
| Fmt (v : pyval).

(** The error message [validate_config] returns: a string literal, an
    f-string, or [str(e)] for a caught exception [e], whose wording belongs
    to the library that raised it. *)
Inductive message : Type :=
| Text (s : string)
| FString (parts : list fpart)
| StrOfExn (e : exn).

Fixpoint fstring_text (parts : list fpart) : option string :=
  match parts with
  | [] => Some EmptyString
  | Lit s :: parts' => option_map (String.append s) (fstring_text parts')
  | Fmt v :: parts' =>
      match py_format v, fstring_text parts' with
      | Some s, Some t => Some (String.append s t)
      | _, _ => None
      end
  end.

Definition message_text (m : message) : option string :=
  match m with
  | Text s => Some s
  | FString parts => fstring_text parts
  | StrOfExn _ => None
  end.

Definition py_int_of_nat (n : nat) : pyval := PInt (Z.of_nat n).

(** The loop over [chart['data']['datasets']] of [validate_config];
    [Some r] is an early [return r], [None] the end of the loop. *)
Fixpoint validate_datasets (chart : pyval) (labels_length : nat)
    (datasets : list pyval) : result (option (bool * message)) :=
  match datasets with
  | [] => Ok None
  | dataset :: rest =>
      d <- py_getitem dataset "data" ;;
      data_length <- py_len d ;;
      if negb (data_length =? labels_length)%nat then
        title <- py_getitem chart "title" ;;
        Ok (Some (false,
                  FString [Lit "Data length ("; Fmt (py_int_of_nat data_length);
                           Lit ") doesn't match labels length (";
                           Fmt (py_int_of_nat labels_length);
                           Lit ") in chart '"; Fmt title; Lit "'"]))
      else
        d <- py_getitem dataset "data" ;;
        xs <- py_iter d ;;
        if negb (forallb is_int_or_float xs) then
          title <- py_getitem chart "title" ;;
          Ok (Some (false,
                    FString [Lit "Invalid data values in chart '"; Fmt title;
                             Lit "' - must be numeric"]))
        else validate_datasets chart labels_length rest
  end.

(** The loop over [config.get('charts', [])] of [validate_config]. *)
Fixpoint validate_charts (charts : list pyval) : result (option (bool * message)) :=
  match charts with
  | [] => Ok None
  | chart :: rest =>
      d <- py_getitem chart "data" ;;
      labels <- py_getitem d "labels" ;;
      labels_length <- py_len labels ;;
      d <- py_getitem chart "data" ;;
      datasets <- py_getitem d "datasets" ;;
      items <- py_iter datasets ;;
      r <- validate_datasets chart labels_length items ;;
      match r with
      | Some ret => Ok (Some ret)
      | None => validate_charts rest
      end
  end.

(** The body of the [try] statement of [validate_config]. *)
Definition validate_config_body (config : pyval) : result (bool * message) :=
  _ <- validate config CHART_CONFIG_SCHEMA ;;
  charts <- py_get config "charts" (PList []) ;;
  items <- py_iter charts ;;
  r <- validate_charts items ;;
  match r with
  | Some ret => Ok ret
  | None => Ok (true, Text "")
  end.

(** [VisualizationValidator.validate_config]: both [except] clauses return
    [(False, str(e))]. *)
Definition validate_config (config : pyval) : result (bool * message) :=
  try_except (validate_config_body config) (fun e => (false, StrOfExn e)).

(** A loop that appends to a list the items it keeps; [f x = Ok None] is a
    [continue] that drops [x]. *)
Fixpoint collectM {A B : Type} (f : A -> result (option B)) (l : list A)
  : result (list B) :=
  match l with
  | [] => Ok []
  | x :: l' =>
      r <- f x ;;
      rs <- collectM f l' ;;
      Ok (match r with Some y => y :: rs | None => rs end)
  end.

(** [float(x) if x is not None else 0] *)
Definition to_number (x : pyval) : result pyval :=
  match x with
  | PNone => Ok (PInt 0)
  | _ => f <- py_float x ;; Ok (PFloat f)
  end.

(** One turn of the loop over the datasets in [fix_common_issues]; [data] is
    the chart's [data] object.  The conversion of the data points stands in
    a [try] statement whose bare [except] is a [continue]: whatever [float]
    raises drops the dataset.  A dataset without a list of data is not
    appended either. *)
Definition fix_dataset (data dataset : pyval) : result (option pyval) :=
  if negb (is_dict dataset) then Ok None else
  has_label <- py_in "label" dataset ;;
  dataset <- (if negb has_label
              then py_setitem dataset "label" (PStr "Dataset")
              else Ok dataset) ;;
  has_data <- py_in "data" dataset ;;
  if negb has_data then Ok None else
  d <- py_getitem dataset "data" ;;
  match d with
  | PList xs =>
      match mapM to_number xs with
      | Raise _ => Ok None
      | Ok ys =>
          dataset <- py_setitem dataset "data" (PList ys) ;;
          labels <- py_get data "labels" (PList []) ;;
          labels_len <- py_len labels ;;
          dataset <-
            (if negb (List.length ys =? labels_len)%nat then
               if (labels_len <? List.length ys)%nat
               then py_setitem dataset "data" (PList (firstn labels_len ys))
               else py_setitem dataset "data"
                      (PList (ys ++ repeat (PInt 0) (labels_len - List.length ys)))
             else Ok dataset) ;;
          Ok (Some dataset)
      end
  | _ => Ok None
  end.

Definition default_options (title : pyval) : pyval :=
  PDict [ ("responsive", PBool true);
          ("plugins",
            PDict [("title", PDict [("display", PBool true); ("text", title)])]) ].

(** One turn of the loop over the charts in [fix_common_issues]. *)
Definition fix_chart (chart : pyval) : result (option pyval) :=
  if negb (is_dict chart) then Ok None else
  has_type <- py_in "type" chart ;;
  missing <- (if negb has_type then Ok true
              else has_data <- py_in "data" chart ;; Ok (negb has_data)) ;;
  if (missing : bool) then Ok None else
  has_title <- py_in "title" chart ;;
  chart <- (if negb has_title then
              t <- py_getitem chart "type" ;;
              s <- py_title t ;;
              py_setitem chart "title" (PStr (String.append s " Chart"))
            else Ok chart) ;;
  data <- py_get chart "data" (PDict []) ;;
  has_labels <- py_in "labels" data ;;
  missing <- (if negb has_labels then Ok true
              else has_datasets <- py_in "datasets" data ;;
                   Ok (negb has_datasets)) ;;
  if (missing : bool) then Ok None else
  datasets <- py_get data "datasets" (PList []) ;;
  items <- py_iter datasets ;;
  fixed_datasets <- collectM (fix_dataset data) items ;;
  match fixed_datasets with
  | [] => Ok None
  | _ :: _ =>
      data <- py_setitem data "datasets" (PList fixed_datasets) ;;
      chart <- py_setitem chart "data" data ;;
      has_options <- py_in "options" chart ;;
      chart <- (if negb has_options then
                  title <- py_getitem chart "title" ;;
                  py_setitem chart "options" (default_options title)
                else Ok chart) ;;
      Ok (Some chart)
  end.

(** [VisualizationValidator.fix_common_issues].  The function changes
    [config] in place and returns it; the model returns the value [config]
    holds at the end. *)
Definition fix_common_issues (config : pyval) : result pyval :=
  if negb (is_dict config) then Ok config else
  charts <- py_get config "charts" (PList []) ;;
  items <- py_iter charts ;;
  fixed_charts <- collectM fix_chart items ;;
  py_setitem config "charts" (PList fixed_charts).

(** *** Theming *)

Definition colors : list pyval :=
  [ PStr "rgba(212, 175, 55, 0.8)";
    PStr "rgba(255, 215, 0, 0.8)";
    PStr "rgba(212, 175, 55, 0.6)";
    PStr "rgba(255, 215, 0, 0.6)";
    PStr "rgba(212, 175, 55, 0.4)";
    PStr "rgba(255, 215, 0, 0.4)" ].

(** [chart_type in ['pie', 'doughnut']] *)
Definition is_pie_or_doughnut (chart_type : pyval) : bool :=
  match chart_type with
  | PStr s => String.eqb s "pie" || String.eqb s "doughnut"
  | _ => false
  end.

(** [(colors * ((num_items // len(colors)) + 1))[:num_items]] *)
Definition segment_colors (num_items : nat) : list pyval :=
  firstn num_items
    (List.concat (repeat colors (num_items / List.length colors + 1))).

(** One turn of the loop over the datasets in [apply_visualization_rules];
    the result is the dataset as the turn leaves it. *)
Definition theme_dataset (chart_type dataset : pyval) : result pyval :=
  has_background <- py_in "backgroundColor" dataset ;;
  dataset <-
    (if negb has_background then
       if is_pie_or_doughnut chart_type then
         d <- py_get dataset "data" (PList []) ;;
         num_items <- py_len d ;;
         py_setitem dataset "backgroundColor" (PList (segment_colors num_items))
       else py_setitem dataset "backgroundColor" (PStr "rgba(212, 175, 55, 0.6)")
     else Ok dataset) ;;
  has_border <- py_in "borderColor" dataset ;;
  dataset <- (if negb has_border
              then py_setitem dataset "borderColor" (PStr "#d4af37")
              else Ok dataset) ;;
  has_width <- py_in "borderWidth" dataset ;;
  if negb has_width
  then py_setitem dataset "borderWidth" (PInt 2)
  else Ok dataset.

Definition title_plugin (text : pyval) : pyval :=
  PDict [ ("display", PBool true);
          ("text", text);
          ("color", PStr "#d4af37");
          ("font", PDict [("size", PInt 16); ("weight", PStr "300")]) ].

Definition legend_plugin : pyval :=
  PDict [ ("display", PBool true);
          ("labels",
            PDict [("color", PStr "#ffffff"); ("font", PDict [("size", PInt 12)])]) ].

(** The datasets are objects held by the list [chart['data']['datasets']]
    and the loop changes them in place: the chart holds the changed datasets
    afterwards.  When the items of the loop come from a default value, a
    [str] or the keys of a dict, nothing the chart holds has changed. *)
Definition store_datasets (chart : pyval) (datasets : list pyval) : pyval :=
  match chart with
  | PDict c =>
      match dict_lookup "data" c with
      | Some (PDict d) =>
          match dict_lookup "datasets" d with
          | Some (PList _) =>
              PDict (dict_set "data" (PDict (dict_set "datasets" (PList datasets) d)) c)
          | _ => chart
          end
      | _ => chart
      end
  | _ => chart
  end.

(** One turn of the loop over the charts in [apply_visualization_rules].
    [options['plugins'][k] = v] changes the object [options['plugins']]
    in place, which [options] still holds afterwards. *)
Definition theme_chart (chart : pyval) : result pyval :=
  chart_type <- py_get chart "type" (PStr "bar") ;;
  data <- py_get chart "data" (PDict []) ;;
  datasets <- py_get data "datasets" (PList []) ;;
  items <- py_iter datasets ;;
  themed <- mapM (theme_dataset chart_type) items ;;
  let chart := store_datasets chart themed in
  options <- py_get chart "options" (PDict []) ;;
  has_plugins <- py_in "plugins" options ;;
  options <- (if negb has_plugins
              then py_setitem options "plugins" (PDict [])
              else Ok options) ;;
  plugins <- py_getitem options "plugins" ;;
  has_title <- py_in "title" plugins ;;
  options <- (if negb has_title then
                text <- py_get chart "title" (PStr "Chart") ;;
                plugins <- py_getitem options "plugins" ;;
                plugins <- py_setitem plugins "title" (title_plugin text) ;;
                py_setitem options "plugins" plugins
              else Ok options) ;;
  plugins <- py_getitem options "plugins" ;;
  has_legend <- py_in "legend" plugins ;;
  options <- (if negb has_legend then
                plugins <- py_getitem options "plugins" ;;
                plugins <- py_setitem plugins "legend" legend_plugin ;;
                py_setitem options "plugins" plugins
              else Ok options) ;;
  py_setitem chart "options" options.

(** [apply_visualization_rules].  The charts are objects held by the list
    [config['charts']] and are changed in place; the model returns the value
    [config] holds at the end. *)
Definition apply_visualization_rules (config : pyval) : result pyval :=
  match config with
  | PDict c =>
      if negb (dict_mem "charts" c) then Ok config else
      charts <- py_get config "charts" (PList []) ;;
      items <- py_iter charts ;;
      themed <- mapM theme_chart items ;;
      match charts with
      | PList _ => Ok (PDict (dict_set "charts" (PList themed) c))
      | _ => Ok config
      end
  | _ => Ok config
  end.

(** ** Reading a document *)

(** The list of charts of a document, the labels and the datasets of a chart
    and the data of a dataset, when the value has them in the expected place
    and they are lists. *)
Definition as_list (r : result pyval) : option (list pyval) :=
  match r with
  | Ok (PList l) => Some l
  | _ => None
  end.

Definition charts_of (config : pyval) : option (list pyval) :=
  as_list (py_getitem config "charts").

Definition labels_of (chart : pyval) : option (list pyval) :=
  as_list (d <- py_getitem chart "data" ;; py_getitem d "labels").

Definition datasets_of (chart : pyval) : option (list pyval) :=
  as_list (d <- py_getitem chart "data" ;; py_getitem d "datasets").

Definition data_of (dataset : pyval) : option (list pyval) :=
  as_list (py_getitem dataset "data").

(** An [int] or a float that is not a [bool]. *)
Definition is_number (v : pyval) : bool :=
  match v with
  | PInt _ | PFloat _ => true
  | _ => false
  end.

(** What the schema asks of a dataset, of a chart and of a document, as far
    as the cross-field rules read them. *)
Inductive dataset_shape : pyval -> Prop :=
| dataset_shape_intro (x : list (string * pyval)) (xs : list pyval) :
    dict_lookup "data" x = Some (PList xs) ->
    forallb is_number xs = true ->
    dataset_shape (PDict x).

Inductive chart_shape : pyval -> Prop :=
| chart_shape_intro (c d : list (string * pyval)) (title : string)
    (labels datasets : list pyval) :
    dict_lookup "title" c = Some (PStr title) ->
    dict_lookup "data" c = Some (PDict d) ->
    dict_lookup "labels" d = Some (PList labels) ->
    dict_lookup "datasets" d = Some (PList datasets) ->
    Forall dataset_shape datasets ->
    chart_shape (PDict c).

Inductive document_shape : pyval -> Prop :=
| document_shape_intro (c : list (string * pyval)) (charts : list pyval) :
    dict_lookup "charts" c = Some (PList charts) ->
    (1 <= List.length charts <= 10)%nat ->
    Forall chart_shape charts ->
    document_shape (PDict c).

(** The sub-schemas of [CHART_CONFIG_SCHEMA] for one chart and for one
    dataset, read off the schema. *)
Fixpoint items_schema (s : schema) : schema :=
  match s with
  | KItems sub :: _ => sub
  | _ :: s' => items_schema s'
  | [] => []
  end.

Fixpoint property_schema (name : string) (s : schema) : schema :=
  match s with
  | KProperties props :: _ =>
      match find (fun p => String.eqb name (fst p)) props with
      | Some p => snd p
      | None => []
      end
  | _ :: s' => property_schema name s'
  | [] => []
  end.

Definition chart_schema : schema :=
  items_schema (property_schema "charts" CHART_CONFIG_SCHEMA).

Definition dataset_schema : schema :=
  items_schema (property_schema "datasets" (property_schema "data" chart_schema)).

(** Every dataset of the chart has as many data points as the chart has
    labels. *)
Definition lengths_agree (chart : pyval) : Prop :=
  exists labels datasets,
    labels_of chart = Some labels /\
    datasets_of chart = Some datasets /\
    forall dataset, In dataset datasets ->
      exists xs, data_of dataset = Some xs /\ List.length xs = List.length labels.

(** Every data point of every dataset of every chart is an [int] or a float,
    and not a [bool]. *)
Definition data_all_numbers (config : pyval) : Prop :=
  exists charts,
    charts_of config = Some charts /\
    forall chart, In chart charts ->
      exists datasets,
        datasets_of chart = Some datasets /\
        forall dataset, In dataset datasets ->
          exists xs,
            data_of dataset = Some xs /\
            forall x, In x xs -> (exists z, x = PInt z) \/ (exists f, x = PFloat f).

(** ** Scenarios *)

(** A document with one chart, which has the given labels and one dataset
    with the given data points. *)
Definition one_chart_document (explanation chart_type title label : string)
    (labels points : list pyval) : pyval :=
  PDict [ ("explanation", PStr explanation);
          ("charts",
            PList [ PDict [ ("type", PStr chart_type);
                            ("title", PStr title);
                            ("data",
                              PDict [ ("labels", PList labels);
                                      ("datasets",
                                        PList [ PDict [ ("label", PStr label);
                                                        ("data", PList points) ] ]) ]) ] ]) ].

Definition quarters : list pyval := [PStr "Q1"; PStr "Q2"; PStr "Q3"].

(** The floats [10.0] and [20.0]. *)
Definition float_10 : float := S754_finite false 5629499534213120 (-49).
Definition float_20 : float := S754_finite false 5629499534213120 (-48).

(** The names the schema accepts for the type of a chart. *)
Definition chart_types : list string :=
  ["bar"; "line"; "pie"; "doughnut"; "radar"; "polarArea"; "scatter"; "bubble"].

(** ** Theming, step by step *)

(** [if k not in d: d[k] = v] on a dict. *)
Definition ensure (k : string) (v : pyval) (d : list (string * pyval))
  : list (string * pyval) :=
  if dict_mem k d then d else dict_set k v d.

(** The value [theme_dataset] gives to a missing [backgroundColor]. *)
Definition background_for (chart_type : pyval) (x : list (string * pyval))
  : result pyval :=
  if is_pie_or_doughnut chart_type then
    d <- py_get (PDict x) "data" (PList []) ;;
    num_items <- py_len d ;;
    Ok (PList (segment_colors num_items))
  else Ok (PStr "rgba(212, 175, 55, 0.6)").

(** A dataset the theming pass has nothing to add to. *)
Definition themed (dataset : pyval) : Prop :=
  py_in "backgroundColor" dataset = Ok true /\
  py_in "borderColor" dataset = Ok true /\
  py_in "borderWidth" dataset = Ok true.

(** The items the loop over the datasets of a chart runs through. *)
Definition chart_items (chart : pyval) : result (list pyval) :=
  data <- py_get chart "data" (PDict []) ;;
  datasets <- py_get data "datasets" (PList []) ;;
  py_iter datasets.

(** The part of [theme_chart] that follows the loop over the datasets. *)
Definition theme_options (chart : pyval) : result pyval :=
  options <- py_get chart "options" (PDict []) ;;
  has_plugins <- py_in "plugins" options ;;
  options <- (if negb has_plugins
              then py_setitem options "plugins" (PDict [])
              else Ok options) ;;
  plugins <- py_getitem options "plugins" ;;
  has_title <- py_in "title" plugins ;;
  options <- (if negb has_title then
                text <- py_get chart "title" (PStr "Chart") ;;
                plugins <- py_getitem options "plugins" ;;
                plugins <- py_setitem plugins "title" (title_plugin text) ;;
                py_setitem options "plugins" plugins
              else Ok options) ;;
  plugins <- py_getitem options "plugins" ;;
  has_legend <- py_in "legend" plugins ;;
  options <- (if negb has_legend then
                plugins <- py_getitem options "plugins" ;;
                plugins <- py_setitem plugins "legend" legend_plugin ;;
                py_setitem options "plugins" plugins
              else Ok options) ;;
  py_setitem chart "options" options.

(** [chart['options']['plugins'][k]] *)
Definition plugin_of (chart : pyval) (k : string) : result pyval :=
  options <- py_getitem chart "options" ;;
  plugins <- py_getitem options "plugins" ;;
  py_getitem plugins k.

(** A chart whose options the theming pass has nothing to add to. *)
Definition options_themed (chart : pyval) : Prop :=
  exists options plugins,
    py_getitem chart "options" = Ok options /\
    py_getitem options "plugins" = Ok plugins /\
    py_in "title" plugins = Ok true /\
    py_in "legend" plugins = Ok true.

(** The fixed palette, repeated from its first entry, for [n] segments. *)
Definition palette_cycle (n : nat) : list pyval :=
  map (fun i => nth (i mod 6) colors PNone) (seq 0 n).

(** Every item the dataset has, the other has with the same value. *)
Definition dataset_frame (dataset dataset' : pyval) : Prop :=
  forall k v, py_getitem dataset k = Ok v -> py_getitem dataset' k = Ok v.

(** The second chart has the datasets of the first, in the same order and
    with all their items, the plugins the first has, its labels, and its
    items other than [data] and [options]. *)
Definition chart_frame (chart chart' : pyval) : Prop :=
  (exists datasets datasets',
      datasets_of chart = Some datasets /\
      datasets_of chart' = Some datasets' /\
      Forall2 dataset_frame datasets datasets') /\
  (forall k v, plugin_of chart k = Ok v -> plugin_of chart' k = Ok v) /\
  (forall k v, k <> "data" -> k <> "options" ->
     py_getitem chart k = Ok v -> py_getitem chart' k = Ok v) /\
  (forall labels, labels_of chart = Some labels -> labels_of chart' = Some labels).

(** Scenario D: a valid pie chart with four labels and no [backgroundColor]. *)
Definition regions : list pyval :=
  [PStr "North"; PStr "South"; PStr "East"; PStr "West"].

Definition pie_points : list pyval := [PInt 40; PInt 30; PInt 20; PInt 10].

Definition pie_dataset : list (string * pyval) :=
  [("label", PStr "Share"); ("data", PList pie_points)].

Definition pie_chart : pyval :=
  PDict [ ("type", PStr "pie");
          ("title", PStr "Market share");
          ("data", PDict [ ("labels", PList regions);
                           ("datasets", PList [PDict pie_dataset]) ]) ].

Definition pie_document : pyval :=
  one_chart_document "Share by region" "pie" "Market share" "Share"
    regions pie_points.

(** ** What the repair leaves *)

(** A data point after the repair: a float, or the [int] [0] that stands
    for [None] and pads a short dataset. *)
Definition repaired_point (v : pyval) : bool :=
  match v with
  | PFloat _ => true
  | PInt 0 => true
  | _ => false
  end.

(** A data point after a second repair: a float. *)
Definition is_float (v : pyval) : bool :=
  match v with
  | PFloat _ => true
  | _ => false
  end.

(** A dataset the repair keeps, in a chart with [n] labels: it has a label
    and [n] data points, which satisfy [point]. *)
Inductive repaired_dataset (point : pyval -> bool) (n : nat) : pyval -> Prop :=
| repaired_dataset_intro (x : list (string * pyval)) (ys : list pyval) :
    dict_mem "label" x = true ->
    dict_lookup "data" x = Some (PList ys) ->
    List.length ys = n ->
    forallb point ys = true ->
    repaired_dataset point n (PDict x).

(** A chart the repair keeps: it has a type, a title, options, labels and
    at least one dataset, and its datasets are repaired datasets. *)
Inductive repaired_chart (point : pyval -> bool) : pyval -> Prop :=
| repaired_chart_intro (c d : list (string * pyval)) (labels : pyval) (n : nat)
    (datasets : list pyval) :
    dict_mem "type" c = true ->
    dict_mem "title" c = true ->
    dict_mem "options" c = true ->
    dict_lookup "data" c = Some (PDict d) ->
    dict_lookup "labels" d = Some labels ->
    py_len labels = Ok n ->
    dict_lookup "datasets" d = Some (PList datasets) ->
    datasets <> [] ->
    Forall (repaired_dataset point n) datasets ->
    repaired_chart point (PDict c).

(** The data of a dataset cut or padded with [0] to [n] points. *)
Definition fit_length (n : nat) (ys : list pyval) : list pyval :=
  if (List.length ys =? n)%nat then ys
  else if (n <? List.length ys)%nat then firstn n ys
  else ys ++ repeat (PInt 0) (n - List.length ys).

(** ** Inputs the repair goes through *)

(** A value that has a length and can be iterated: a list, a [str] or a
    dict. *)
Definition sized (v : pyval) : bool :=
  match v with
  | PList _ | PStr _ | PDict _ => true
  | _ => false
  end.

(** A chart entry that is a dict with both [type] and [data] has a title or
    a [str] as its type, and its data is a dict whose [labels] and
    [datasets], when it has both, are sized.  Any other entry is skipped by
    the repair. *)
Definition chart_tolerated (chart : pyval) : bool :=
  match chart with
  | PDict c =>
      match dict_lookup "type" c, dict_lookup "data" c with
      | Some t, Some data =>
          (dict_mem "title" c || match t with PStr _ => true | _ => false end) &&
          match data with
          | PDict d =>
              match dict_lookup "labels" d, dict_lookup "datasets" d with
              | Some labels, Some datasets => sized labels && sized datasets
              | _, _ => true
              end
          | _ => false
          end
      | _, _ => true
      end
  | _ => true
  end.

(** A value that is not a dict, or a dict whose [charts], when present, is
    a list of tolerated entries, a [str] or a dict. *)
Definition repairable (config : pyval) : bool :=
  match config with
  | PDict c =>
      match dict_lookup "charts" c with
      | None => true
      | Some (PList l) => forallb chart_tolerated l
      | Some (PStr _) | Some (PDict _) => true
      | Some _ => false
      end
  | _ => true
  end.

(** A chart with a type that is not a [str], with no title, and with data. *)
Definition malformed_document : pyval :=
  PDict [ ("explanation", PStr "Totals");
          ("charts",
            PList [ PDict [ ("type", PInt 5);
                            ("data",
                              PDict [ ("labels", PList [PStr "a"]);
                                      ("datasets",
                                        PList [ PDict [ ("label", PStr "n");
                                                        ("data", PList [PInt 1]) ] ]) ]) ] ]) ].

(** The chart has no [options], or options without [plugins], or plugins
    that are a dict: the charts whose options the theming pass can fill. *)
Definition plugins_mapping (chart : pyval) : bool :=
  match chart with
  | PDict c =>
      match dict_lookup "options" c with
      | None => true
      | Some (PDict o) =>
          match dict_lookup "plugins" o with
          | None | Some (PDict _) => true
          | Some _ => false
          end
      | Some _ => false
      end
  | _ => false
  end.

(** ** The messages of [validate_config] *)

(** The message for a dataset whose length differs from the number of
    labels. *)
Definition length_mismatch_message (data_length labels_length : nat)
    (title : pyval) : message :=
  FString [Lit "Data length ("; Fmt (py_int_of_nat data_length);
           Lit ") doesn't match labels length (";
           Fmt (py_int_of_nat labels_length);
           Lit ") in chart '"; Fmt title; Lit "'"].

(** The message for a dataset with a data point that is not a number. *)
Definition invalid_values_message (title : pyval) : message :=
  FString [Lit "Invalid data values in chart '"; Fmt title;
           Lit "' - must be numeric"].

(** ** What the repair keeps *)

(** [kept R l l']: the list [l'] is made, in order, of items related by [R]
    to items of [l]; the other items of [l] are dropped. *)
Inductive kept {A B : Type} (R : A -> B -> Prop) : list A -> list B -> Prop :=
| kept_nil : kept R [] []
| kept_keep (x : A) (y : B) (l : list A) (l' : list B) :
    R x y -> kept R l l' -> kept R (x :: l) (y :: l')
| kept_drop (x : A) (l : list A) (l' : list B) :
    kept R l l' -> kept R (x :: l) l'.

(** The second dataset has every item of the first other than [data], and
    its data are the data of the first converted to numbers, then cut or
    padded to [n] points. *)
Definition dataset_repair_frame (n : nat) (dataset dataset' : pyval) : Prop :=
  (forall k v, k <> "data" ->
     py_getitem dataset k = Ok v -> py_getitem dataset' k = Ok v) /\
  exists xs ys,
    data_of dataset = Some xs /\
    mapM to_number xs = Ok ys /\
    data_of dataset' = Some (fit_length n ys).

(** [chart['data']['labels']] *)
Definition labels_value (chart : pyval) : result pyval :=
  d <- py_getitem chart "data" ;; py_getitem d "labels".

(** The second chart has every item of the first other than [data], the
    same labels, and datasets kept from the datasets of the first. *)
Definition chart_repair_frame (chart chart' : pyval) : Prop :=
  (forall k v, k <> "data" ->
     py_getitem chart k = Ok v -> py_getitem chart' k = Ok v) /\
  exists labels n datasets datasets',
    labels_value chart = Ok labels /\
    labels_value chart' = Ok labels /\
    py_len labels = Ok n /\
    datasets_of chart = Some datasets /\
    datasets_of chart' = Some datasets' /\
    kept (dataset_repair_frame n) datasets datasets'.

(** ** Setting a key of an instance *)

(** The value [v] satisfies what the [properties] keywords of the schema
    say about the key [k]. *)
Definition property_accepts (s : schema) (k : string) (v : pyval) : bool :=
  forallb (fun kw =>
             match kw with
             | KProperties props =>
                 forallb (fun p : string * list keyword =>
                            negb (String.eqb (fst p) k) || valid (snd p) v) props
             | _ => true
             end) s.

(** A schema for objects made of [type], [required] and [properties] (and
    of keywords that say nothing about an object); no [oneOf]. *)
Definition plain_object_schema (s : schema) : bool :=
  forallb (fun kw => match kw with KOneOf _ => false | _ => true end) s.

Definition is_str (v : pyval) : bool :=
  match v with PStr _ => true | _ => false end.

(** The sub-schema of [CHART_CONFIG_SCHEMA] for the [data] of a chart. *)
Definition data_schema : schema := property_schema "data" chart_schema.

(** ** [services.py]: [VisualizationGenerator.validate_chart_config] *)

(** [all(field in chart for field in fields)]: the generator stops at the
    first field that [chart] does not have. *)
Fixpoint all_in (fields : list string) (chart : pyval) : result bool :=
  match fields with
  | [] => Ok true
  | field :: rest =>
      present <- py_in field chart ;;
      if present then all_in rest chart else Ok false
  end.

Definition valid_types : list string :=
  ["bar"; "line"; "pie"; "doughnut"; "radar"; "polarArea"; "scatter"; "bubble"].

(** [x in l] for a list [l] of [str]: [x == s] for one of its items. *)
Definition in_strings (x : pyval) (l : list string) : bool :=
  match x with
  | PStr s => existsb (String.eqb s) l
  | _ => false
  end.

Definition validate_chart_config (chart : pyval) : result bool :=
  has_fields <- all_in ["type"; "title"; "data"] chart ;;
  if negb has_fields then Ok false else
  chart_type <- py_getitem chart "type" ;;
  if negb (in_strings chart_type valid_types) then Ok false else
  data <- py_get chart "data" (PDict []) ;;
  has_labels <- py_in "labels" data ;;
  if negb has_labels then Ok false else
  has_datasets <- py_in "datasets" data ;;
  if negb has_datasets then Ok false else
  Ok true.

(** ** [views.py]: the [try] statement of [ConversationViewSet.chat] *)

(** [bool(v)], which [if v] and [not v] test. *)
Definition truth (v : pyval) : bool :=
  match v with
  | PNone => false
  | PBool b => b
  | PInt z => negb (z =? 0)%Z
  | PFloat (S754_zero _) => false
  | PFloat _ => true
  | PStr s => negb (String.eqb s "")
  | PList l => negb (Nat.eqb (List.length l) 0)
  | PDict d => negb (Nat.eqb (List.length d) 0)
  end.

(** What [Visualization.objects.create] is given for one chart. *)
Record visualization : Type := {
  viz_title : pyval;
  viz_chart_type : pyval;
  viz_chart_config : pyval;
  viz_explanation : pyval
}.

(** The exceptions of the [try] statement: the two that [chat] raises
    itself, those of the functions it calls, and that of a write that the
    database refuses. *)
Inductive chat_error : Type :=
| Failed_to_generate
| Invalid_config (error_msg : message)
| Raised (e : exn)
| Database_error.

(** What [chat] writes, in the order of the writes. *)
Inductive event : Type :=
| AiMessage (content : pyval) (charts_count : nat)
| VisualizationRow (v : visualization)
| JobCompleted (explanation : pyval) (charts : list visualization)
| JobFailed (e : chat_error)
| ErrorMessage (e : chat_error).

Inductive response : Type :=
| Response200 (explanation : pyval) (visualizations : list visualization)
| Response500 (e : chat_error).

(** A step of [chat]: the writes it has made, and its value or the exception
    that ended it.  The writes made before an exception stay made. *)
Definition chat_step (A : Type) : Type := (list event * (chat_error + A))%type.

Definition chat_ret {A : Type} (a : A) : chat_step A := ([], inr a).

Definition chat_raise {A : Type} (e : chat_error) : chat_step A := ([], inl e).

Definition chat_bind {A B : Type} (c : chat_step A) (k : A -> chat_step B)
    : chat_step B :=
  match c with
  | (written, inl e) => (written, inl e)
  | (written, inr a) =>
      let (written', r) := k a in (written ++ written', r)
  end.

Definition call {A : Type} (c : result A) : chat_step A :=
  match c with
  | Ok a => chat_ret a
  | Raise e => chat_raise (Raised e)
  end.

(** A write.  The database takes the row or refuses it, and the call raises
    when it is refused; [stores] says which rows the database takes. *)
Definition write (stores : event -> bool) (ev : event) : chat_step unit :=
  if stores ev then ([ev], inr tt) else chat_raise Database_error.

Module ChatNotations.
  Notation "x <~ c ;; k" := (chat_bind c (fun x => k))
    (at level 61, c at next level, right associativity).
End ChatNotations.
Import ChatNotations.

(** The loop over [result.get('charts', [])]; its value is [charts_data]. *)
Fixpoint save_visualizations (stores : event -> bool) (result : pyval)
    (charts : list pyval) : chat_step (list visualization) :=
  match charts with
  | [] => chat_ret []
  | chart :: rest =>
      accepted <~ call (validate_chart_config chart) ;;
      if accepted then
        title <~ call (py_get chart "title" (PStr "Untitled Chart")) ;;
        chart_type <~ call (py_get chart "type" (PStr "bar")) ;;
        explanation <~ call (py_get result "explanation" (PStr "")) ;;
        let viz := {| viz_title := title; viz_chart_type := chart_type;
                      viz_chart_config := chart;
                      viz_explanation := explanation |} in
        _ <~ write stores (VisualizationRow viz) ;;
        charts_data <~ save_visualizations stores result rest ;;
        chat_ret (viz :: charts_data)
      else save_visualizations stores result rest
  end.

(** The body of the [try] statement, from the value [result] that
    [generate_visualizations] has returned. *)
Definition chat_body (stores : event -> bool) (result : pyval)
    : chat_step response :=
  if negb (truth result) then chat_raise Failed_to_generate else
  checked <~ call (validate_config result) ;;
  result <~ (if negb (fst checked) then
               result <~ call (fix_common_issues result) ;;
               checked <~ call (validate_config result) ;;
               if negb (fst checked)
               then chat_raise (Invalid_config (snd checked))
               else chat_ret result
             else chat_ret result) ;;
  result <~ call (apply_visualization_rules result) ;;
  content <~ call (py_get result "explanation" (PStr "Generated visualizations")) ;;
  charts <~ call (py_get result "charts" (PList [])) ;;
  charts_count <~ call (py_len charts) ;;
  _ <~ write stores (AiMessage content charts_count) ;;
  charts <~ call (py_get result "charts" (PList [])) ;;
  items <~ call (py_iter charts) ;;
  charts_data <~ save_visualizations stores result items ;;
  explanation <~ call (py_get result "explanation" PNone) ;;
  _ <~ write stores (JobCompleted explanation charts_data) ;;
  explanation <~ call (py_get result "explanation" (PStr "")) ;;
  chat_ret (Response200 explanation charts_data).

(** The [except Exception] clause, which marks the job as failed and saves
    a message with the error. *)
Definition chat_except (stores : event -> bool) (e : chat_error)
    : chat_step response :=
  _ <~ write stores (JobFailed e) ;;
  _ <~ write stores (ErrorMessage e) ;;
  chat_ret (Response500 e).

(** The [try] statement with its [except Exception] clause; [inl] is an
    exception of the clause itself, which leaves the view. *)
Definition chat (stores : event -> bool) (result : pyval)
    : chat_step response :=
  match chat_body stores result with
  | (written, inr r) => (written, inr r)
  | (written, inl e) =>
      let (written', r) := chat_except stores e in (written ++ written', r)
  end.

(** The row saved for a chart of the document [result]. *)
Definition row_of (explanation chart : pyval) (v : visualization) : Prop :=
  viz_chart_config v = chart /\
  py_getitem chart "title" = Ok (viz_title v) /\
  py_getitem chart "type" = Ok (viz_chart_type v) /\
  viz_explanation v = explanation.

(** The document that [chat] themes: [result] when [validate_config]
    accepts it, its repair otherwise. *)
Definition checked_document (result : pyval) : chat_step pyval :=
  checked <~ call (validate_config result) ;;
  if negb (fst checked) then
    result <~ call (fix_common_issues result) ;;
    checked <~ call (validate_config result) ;;
    if negb (fst checked)
    then chat_raise (Invalid_config (snd checked))
    else chat_ret result
  else chat_ret result.

(** The part of [chat_body] that follows theming: the writes for the
    themed document [result]. *)
Definition chat_save (stores : event -> bool) (result : pyval)
    : chat_step response :=
  content <~ call (py_get result "explanation" (PStr "Generated visualizations")) ;;
  charts <~ call (py_get result "charts" (PList [])) ;;
  charts_count <~ call (py_len charts) ;;
  _ <~ write stores (AiMessage content charts_count) ;;
  charts <~ call (py_get result "charts" (PList [])) ;;
  items <~ call (py_iter charts) ;;
  charts_data <~ save_visualizations stores result items ;;
  explanation <~ call (py_get result "explanation" PNone) ;;
  _ <~ write stores (JobCompleted explanation charts_data) ;;
  explanation <~ call (py_get result "explanation" (PStr "")) ;;
  chat_ret (Response200 explanation charts_data).

(** The writes of a [chat] that completes, for the rows [rows]. *)
Definition completed_writes (explanation : pyval) (charts_count : nat)
    (rows : list visualization) : list event :=
  AiMessage explanation charts_count ::
  map VisualizationRow rows ++ [JobCompleted explanation rows].

(** The writes of a list made in order, up to the first that the database
    refuses; the boolean says that none was refused. *)
Fixpoint attempt (stores : event -> bool) (events : list event)
    : list event * bool :=
  match events with
  | [] => ([], true)
  | ev :: rest =>
      if stores ev
      then let (written, all) := attempt stores rest in (ev :: written, all)
      else ([], false)
  end.

(** No NaN and no infinity among the numbers of a value. *)
Fixpoint finite_json (v : pyval) : bool :=
  match v with
  | PFloat S754_nan | PFloat (S754_infinity _) => false
  | PList l =>
      (fix items (l : list pyval) : bool :=
         match l with
         | [] => true
         | x :: l' => finite_json x && items l'
         end) l
  | PDict d =>
      (fix items (d : list (string * pyval)) : bool :=
         match d with
         | [] => true
         | (_, x) :: d' => finite_json x && items d'
         end) d
  | _ => true
  end.

(** A database whose JSON column refuses a chart configuration that holds
    NaN or an infinity, and that takes every other write. *)
Definition refuses_nan (ev : event) : bool :=
  match ev with
  | VisualizationRow v => finite_json (viz_chart_config v)
  | _ => true
  end.

(** ** What theming adds *)

(** A dataset with a background colour, a border colour and a border
    width. *)
Definition dataset_complete (dataset : pyval) : Prop :=
  exists background border width,
    py_getitem dataset "backgroundColor" = Ok background /\
    py_getitem dataset "borderColor" = Ok border /\
    py_getitem dataset "borderWidth" = Ok width.

(** The options of the themed chart [chart'], by the options [chart] had.
    Plugins that were absent or a dict are a dict with a title and a
    legend.  Plugins that were a list or a [str] are not touched: the
    options are what they were, with the name of each plugin found in them
    by [in], as an element or as a part of the text. *)
Definition options_complete (chart chart' : pyval) : Prop :=
  (plugins_mapping chart = true ->
   exists title legend,
     plugin_of chart' "title" = Ok title /\
     plugin_of chart' "legend" = Ok legend) /\
  (plugins_mapping chart = false ->
   py_getitem chart' "options" = py_getitem chart "options" /\
   options_themed chart).

Definition chart_complete (chart chart' : pyval) : Prop :=
  options_complete chart chart' /\
  exists datasets',
    datasets_of chart' = Some datasets' /\ Forall dataset_complete datasets'.

(** The values theming gives to the items a dataset lacks; the background
    is that of the charts other than pies and doughnuts. *)
Definition dataset_defaults (chart_type dataset dataset' : pyval) : Prop :=
  (py_in "backgroundColor" dataset = Ok false ->
   is_pie_or_doughnut chart_type = false ->
   py_getitem dataset' "backgroundColor" = Ok (PStr "rgba(212, 175, 55, 0.6)")) /\
  (py_in "borderColor" dataset = Ok false ->
   py_getitem dataset' "borderColor" = Ok (PStr "#d4af37")) /\
  (py_in "borderWidth" dataset = Ok false ->
   py_getitem dataset' "borderWidth" = Ok (PInt 2)).

(** The chart has no [options['plugins'][k]]. *)
Definition lacks_plugin (chart : pyval) (k : string) : Prop :=
  forall v, plugin_of chart k <> Ok v.

(** The plugins theming gives to a chart that lacks them. *)
Definition options_defaults (chart chart' : pyval) : Prop :=
  (lacks_plugin chart "title" ->
   exists text,
     py_get chart "title" (PStr "Chart") = Ok text /\
     plugin_of chart' "title" = Ok (title_plugin text)) /\
  (lacks_plugin chart "legend" ->
   plugin_of chart' "legend" = Ok legend_plugin).

Definition chart_defaults (chart chart' : pyval) : Prop :=
  exists chart_type datasets datasets',
    py_getitem chart "type" = Ok chart_type /\
    datasets_of chart = Some datasets /\
    datasets_of chart' = Some datasets' /\
    Forall2 (dataset_defaults chart_type) datasets datasets' /\
    (plugins_mapping chart = true -> options_defaults chart chart').

(** The options of the chart let the theming pass through: there are none,
    or they are a dict without [plugins], with plugins that are a dict, or
    with plugins that are a list or a [str] in which [in] finds both
    ['title'] and ['legend']. *)
Definition plugins_tolerated (chart : pyval) : bool :=
  match chart with
  | PDict c =>
      match dict_lookup "options" c with
      | None => true
      | Some (PDict o) =>
          match dict_lookup "plugins" o with
          | None | Some (PDict _) => true
          | Some plugins =>
              match py_in "title" plugins, py_in "legend" plugins with
              | Ok true, Ok true => true
              | _, _ => false
              end
          end
      | Some _ => false
      end
  | _ => false
  end.

(** ** [views.py]: the file type of an upload; [parsers.py]: [parse_file] *)

(** [s.split(sep)] for a separator of one character. *)
Fixpoint str_split (sep : ascii) (s : string) : list string :=
  match s with
  | EmptyString => [EmptyString]
  | String ch rest =>
      if Ascii.eqb ch sep then EmptyString :: str_split sep rest
      else match str_split sep rest with
           | first :: others => String ch first :: others
           | [] => [String ch EmptyString]
           end
  end.

(** [s.lower()] *)
Fixpoint str_lower (s : string) : string :=
  match s with
  | EmptyString => EmptyString
  | String ch rest => String (to_lower ch) (str_lower rest)
  end.

(** [d.get(k)] for a dict literal with [str] keys. *)
Fixpoint literal_get {A : Type} (k : string) (d : list (string * A)) : option A :=
  match d with
  | [] => None
  | (k', v) :: rest => if String.eqb k k' then Some v else literal_get k rest
  end.

(** [file.name.split('.')[-1].lower()] *)
Definition file_extension (name : string) : string :=
  str_lower (last (str_split "." name) EmptyString).

Definition file_type_map : list (string * string) :=
  [ ("csv", "csv"); ("json", "json"); ("yaml", "yaml"); ("yml", "yaml");
    ("xlsx", "xlsx"); ("xls", "xlsx"); ("pdf", "pdf") ].

(** The type [FileUploadViewSet.create] gives to a file; the files with
    [None] are skipped. *)
Definition upload_file_type (name : string) : option string :=
  literal_get (file_extension name) file_type_map.

Inductive parser : Type :=
| parse_csv
| parse_excel
| parse_json
| parse_yaml
| parse_pdf.

Definition parsers : list (string * parser) :=
  [ ("csv", parse_csv); ("xlsx", parse_excel); ("json", parse_json);
    ("yaml", parse_yaml); ("pdf", parse_pdf) ].

(** [FileParser.parse_file], for parsers that read the file at a path as
    [run] says. *)
Definition parse_file (run : parser -> string -> result pyval)
    (file_path file_type : string) : result pyval :=
  match literal_get file_type parsers with
  | None => Raise ValueError
  | Some parser => run parser file_path
  end.

(** The parser for the files with a given extension, in lower case. *)
Definition parser_for : list (string * parser) :=
  [ ("csv", parse_csv); ("json", parse_json); ("yaml", parse_yaml);
    ("yml", parse_yaml); ("xlsx", parse_excel); ("xls", parse_excel);
    ("pdf", parse_pdf) ].

(** No [.] in the string. *)
Fixpoint dotless (s : string) : bool :=
  match s with
  | EmptyString => true
  | String ch rest => negb (Ascii.eqb ch ".") && dotless rest
  end.

(** ** [services.py]: the text that [generate_with_json] parses *)

(** A [str] of the response, as the list of its characters. *)
Definition text : Type := list ascii.

(** The characters [str.strip] removes, in the 7-bit range. *)
Definition is_whitespace (c : ascii) : bool :=
  ((9 <=? nat_of_ascii c)%nat && (nat_of_ascii c <=? 13)%nat) ||
  ((28 <=? nat_of_ascii c)%nat && (nat_of_ascii c <=? 32)%nat).

Fixpoint text_lstrip (s : text) : text :=
  match s with
  | c :: s' => if is_whitespace c then text_lstrip s' else s
  | [] => []
  end.

(** [s.strip()] *)
Definition text_strip (s : text) : text :=
  rev (text_lstrip (rev (text_lstrip s))).

(** [s.startswith(p)] *)
Fixpoint starts_with (p s : text) : bool :=
  match p, s with
  | [], _ => true
  | a :: p', b :: s' => Ascii.eqb a b && starts_with p' s'
  | _ :: _, [] => false
  end.

(** [s.split(sep)] for a separator of one character. *)
Fixpoint text_split (sep : ascii) (s : text) : list text :=
  match s with
  | [] => [[]]
  | c :: s' =>
      if Ascii.eqb c sep then [] :: text_split sep s'
      else match text_split sep s' with
           | first :: others => (c :: first) :: others
           | [] => [[c]]
           end
  end.

(** [sep.join(l)] *)
Fixpoint text_join (sep : text) (l : list text) : text :=
  match l with
  | [] => []
  | x :: rest =>
      match rest with
      | [] => x
      | _ :: _ => x ++ sep ++ text_join sep rest
      end
  end.

(** [s.replace(old, '')] for an [old] that is not empty: the occurrences of
    [old] are removed, from the left and without overlap.  [skip] counts
    the characters of the current occurrence that are still to remove. *)
Fixpoint remove_from (old : text) (skip : nat) (s : text) : text :=
  match s with
  | [] => []
  | c :: s' =>
      match skip with
      | S n => remove_from old n s'
      | O =>
          if starts_with old s
          then remove_from old (List.length old - 1) s'
          else c :: remove_from old 0 s'
      end
  end.

Definition text_remove (old s : text) : text := remove_from old 0 s.

(** [l[1:-1]] *)
Definition middle {A : Type} (l : list A) : list A := removelast (tl l).

Definition newline : ascii := "010"%char.
Definition backtick : ascii := "`"%char.
Definition fence : text := list_ascii_of_string "```".
Definition fence_json : text := list_ascii_of_string "```json".

(** The statements of the [try] block of [generate_with_json] that come
    before [json.loads]. *)
Definition clean_response (response_text : text) : text :=
  let response_text := text_strip response_text in
  if starts_with fence response_text then
    let lines := text_split newline response_text in
    let response_text :=
      if (2 <? List.length lines)%nat
      then text_join [newline] (middle lines)
      else response_text in
    text_strip (text_remove fence (text_remove fence_json response_text))
  else response_text.

(** What [generate_with_json] returns for the text that [generate] has
    returned; [loads] is [json.loads], with [None] for its
    [JSONDecodeError]. *)
Definition parse_response (loads : text -> option pyval)
    (response_text : option text) : pyval :=
  match response_text with
  | None | Some [] => PNone
  | Some response_text =>
      match loads (clean_response response_text) with
      | Some v => v
      | None => PNone
      end
  end.

(** The character does not occur in the text. *)
Definition without (c : ascii) (s : text) : bool :=
  forallb (fun x => negb (Ascii.eqb x c)) s.
Definition json_word : text := list_ascii_of_string "json".

(** ** [services.py]: the active model *)

(** A row of [OllamaConfiguration], with its primary key and the fields
    that [set_active_model] reads or writes. *)
Record configuration : Type := {
  pk : nat;
  model_name : string;
  is_active : bool
}.

Definition with_active (b : bool) (r : configuration) : configuration :=
  {| pk := pk r; model_name := model_name r; is_active := b |}.

(** [OllamaConfiguration.objects.update(is_active=False)] *)
Definition update_inactive (table : list configuration) : list configuration :=
  map (with_active false) table.

Inductive lookup_error : Type :=
| DoesNotExist
| MultipleObjectsReturned.

(** [OllamaConfiguration.objects.get(model_name=name)] *)
Definition get_by_name (name : string) (table : list configuration)
    : lookup_error + configuration :=
  match filter (fun r => String.eqb (model_name r) name) table with
  | [] => inl DoesNotExist
  | [r] => inr r
  | _ :: _ :: _ => inl MultipleObjectsReturned
  end.

(** [config.save()]: the row with the primary key of [config] becomes
    [config]. *)
Definition save (config : configuration) (table : list configuration)
    : list configuration :=
  map (fun r => if Nat.eqb (pk r) (pk config) then config else r) table.

(** [OllamaService.set_active_model]: the table afterwards and the value
    returned; [inl] is the exception that the [except] clause does not
    catch. *)
Definition set_active_model (name : string) (table : list configuration)
    : list configuration * (lookup_error + option configuration) :=
  let table := update_inactive table in
  match get_by_name name table with
  | inr config =>
      let config := with_active true config in
      (save config table, inr (Some config))
  | inl DoesNotExist => (table, inr None)
  | inl MultipleObjectsReturned => (table, inl MultipleObjectsReturned)
  end.

(** [OllamaService.get_active_model]: the first active row, in the order
    [order] that the query gives to the rows. *)
Definition get_active_model (order : list configuration -> list configuration)
    (table : list configuration) : option configuration :=
  hd_error (filter is_active (order table)).

(** ** [models.py]: the choices of [Visualization.chart_type] *)

Definition CHART_TYPES : list (string * string) :=
  [ ("bar", "Bar Chart"); ("line", "Line Chart"); ("pie", "Pie Chart");
    ("doughnut", "Doughnut Chart"); ("radar", "Radar Chart");
    ("polarArea", "Polar Area Chart"); ("scatter", "Scatter Plot");
    ("bubble", "Bubble Chart") ].

(** A row of [Visualization] with a title that is a [str] and is not
    empty, a type among the choices of the field, a chart within the schema
    and the given explanation. *)
Definition row_well_formed (explanation : pyval) (v : visualization) : Prop :=
  exists title chart_type,
    viz_title v = PStr title /\ title <> "" /\
    viz_chart_type v = PStr chart_type /\
    In chart_type (map fst CHART_TYPES) /\
    valid chart_schema (viz_chart_config v) = true /\
    viz_explanation v = explanation.

(** ** What the repair adds *)

(** The label the repair gives to a dataset without one. *)
Definition dataset_repair_defaults (dataset dataset' : pyval) : Prop :=
  py_in "label" dataset = Ok false ->
  py_getitem dataset' "label" = Ok (PStr "Dataset").

(** The title and the options the repair gives to a chart without them,
    and the labels it gives to the datasets it keeps. *)
Definition chart_repair_defaults (chart chart' : pyval) : Prop :=
  (py_in "title" chart = Ok false ->
   exists chart_type,
     py_getitem chart "type" = Ok (PStr chart_type) /\
     py_getitem chart' "title"
     = Ok (PStr (String.append (str_title chart_type) " Chart"))) /\
  (py_in "options" chart = Ok false ->
   exists title,
     py_getitem chart' "title" = Ok title /\
     py_getitem chart' "options" = Ok (default_options title)) /\
  exists datasets datasets',
    datasets_of chart = Some datasets /\
    datasets_of chart' = Some datasets' /\
    kept dataset_repair_defaults datasets datasets'.

(** ** What theming may add *)

(** The dict [d'] is [d] with, at the most, items added under keys of
    [added] that [d] lacks: every item of [d] is in [d'] with its value,
    and under a key outside [added] the two hold the same. *)
Definition fills (added : list string) (d d' : list (string * pyval)) : Prop :=
  (forall k v, dict_lookup k d = Some v -> dict_lookup k d' = Some v) /\
  (forall k, ~ In k added -> dict_lookup k d' = dict_lookup k d).

Definition dataset_filled (dataset dataset' : pyval) : Prop :=
  exists x x',
    dataset = PDict x /\ dataset' = PDict x' /\
    fills ["backgroundColor"; "borderColor"; "borderWidth"] x x'.

(** The options [o'] of a themed chart, against the options [o] the chart
    had, which are [{}] for a chart without options: the items other than
    [plugins] are the same; plugins that were a dict, or absent, are a dict
    to which only [title] and [legend] may have been added; plugins that
    were of another type are what they were. *)
Definition options_filled (o o' : list (string * pyval)) : Prop :=
  (forall k, k <> "plugins" -> dict_lookup k o' = dict_lookup k o) /\
  match dict_lookup "plugins" o with
  | None =>
      exists p', dict_lookup "plugins" o' = Some (PDict p') /\
                 fills ["title"; "legend"] [] p'
  | Some (PDict p) =>
      exists p', dict_lookup "plugins" o' = Some (PDict p') /\
                 fills ["title"; "legend"] p p'
  | Some plugins => dict_lookup "plugins" o' = Some plugins
  end.

(** A chart after theming, against the chart before: the items other than
    [data] and [options] are the same, and no other key has appeared; the
    items of [data] other than [datasets] are the same; the datasets are
    the same in number and order, each one filled; the options are
    filled. *)
Definition chart_filled (chart chart' : pyval) : Prop :=
  exists c c' d d' datasets datasets' o o',
    chart = PDict c /\ chart' = PDict c' /\
    (forall k, k <> "data" -> k <> "options" ->
       dict_lookup k c' = dict_lookup k c) /\
    dict_lookup "data" c = Some (PDict d) /\
    dict_lookup "data" c' = Some (PDict d') /\
    (forall k, k <> "datasets" -> dict_lookup k d' = dict_lookup k d) /\
    dict_lookup "datasets" d = Some (PList datasets) /\
    dict_lookup "datasets" d' = Some (PList datasets') /\
    Forall2 dataset_filled datasets datasets' /\
    py_get chart "options" (PDict []) = Ok (PDict o) /\
    dict_lookup "options" c' = Some (PDict o') /\
    options_filled o o'.

(** A document after theming, against the document before: the items
    other than [charts] are the same, and the charts are the same in number
    and order, each one filled. *)
Definition document_filled (config result : pyval) : Prop :=
  exists c c' charts charts',
    config = PDict c /\ result = PDict c' /\
    (forall k, k <> "charts" -> dict_lookup k c' = dict_lookup k c) /\
    dict_lookup "charts" c = Some (PList charts) /\
    dict_lookup "charts" c' = Some (PList charts') /\
    Forall2 chart_filled charts charts'.

(** A document with two charts that come with settings of their own.  The
    first has a dataset with a background colour and a border width,
    a note beside the datasets, and options with [responsive], [scales]
    and a title plugin.  The second has plugins that are a [str]. *)
Definition styled_dataset : pyval :=
  PDict [ ("label", PStr "Revenue");
          ("data", PList [PInt 10; PInt 20; PInt 30]);
          ("backgroundColor", PStr "#123456");
          ("borderWidth", PInt 5) ].

Definition styled_title : pyval :=
  PDict [ ("display", PBool false); ("text", PStr "Mine") ].

Definition styled_options : pyval :=
  PDict [ ("responsive", PBool true);
          ("scales", PDict [ ("y", PDict [ ("beginAtZero", PBool true) ]) ]);
          ("plugins", PDict [ ("title", styled_title) ]) ].

Definition styled_chart : pyval :=
  PDict [ ("type", PStr "bar");
          ("title", PStr "Sales");
          ("data", PDict [ ("labels", PList quarters);
                           ("datasets", PList [styled_dataset]);
                           ("note", PStr "in thousands") ]);
          ("options", styled_options) ].

Definition named_plugins_chart : pyval :=
  PDict [ ("type", PStr "line");
          ("title", PStr "Trend");
          ("data", PDict [ ("labels", PList quarters);
                           ("datasets",
                             PList [ PDict [ ("label", PStr "Trend");
                                             ("data", PList [PInt 1; PInt 2; PInt 3]) ] ]) ]);
          ("options", PDict [ ("plugins", PStr "subtitle, legend") ]) ].

Definition styled_document : pyval :=
  PDict [ ("explanation", PStr "Sales and trend");
          ("charts", PList [styled_chart; named_plugins_chart]) ].

(** ** [validate_config] with the calls of its handlers *)

(** The two [except] clauses of [validate_config] call [str(e)], which
    belongs to the library that raised [e], and [logger.error], which
    belongs to [logging].  Here the two are parameters that may raise:
    [str_ e] is [str(e)] and [log prefix m] is
    [logger.error(f"{prefix}{m}")].  An exception raised in a handler is
    not caught by the other clause of the [try] statement: it leaves the
    function. *)
Definition validate_config_handled (str_ : exn -> result message)
    (log : string -> message -> result unit) (config : pyval)
    : result (bool * message) :=
  match validate_config_body config with
  | Ok r => Ok r
  | Raise ValidationError =>
      m <- str_ ValidationError ;;
      _ <- log "Validation error: " m ;;
      m <- str_ ValidationError ;;
      Ok (false, m)
  | Raise e =>
      m <- str_ e ;;
      _ <- log "Unexpected validation error: " m ;;
      m <- str_ e ;;
      Ok (false, m)
  end.

(** * Properties *)

Ltac split_andb :=
  repeat match goal with
         | H : _ && _ = true |- _ => apply andb_prop in H; destruct H
         | H : _ || false = true |- _ => rewrite orb_false_r in H
         | H : true = true |- _ => clear H
         end.

(** ** The schema *)

Lemma dict_mem_lookup (k : string) (d : list (string * pyval)) :
  dict_mem k d = true -> exists v, dict_lookup k d = Some v.
Proof.
  unfold dict_mem. destruct (dict_lookup k d) as [v|]; [eauto | discriminate].
Qed.

(** Uses a [required] key: the value is there, and the [properties] entry
    for that key speaks about it. *)
Ltac use_required H v :=
  apply dict_mem_lookup in H; destruct H as [v H];
  repeat match goal with
         | H' : context [dict_lookup ?k ?d], H : dict_lookup ?k ?d = Some _ |- _ =>
             rewrite H in H'
         end.

Lemma forallb_impl {A : Type} (f g : A -> bool) (l : list A) :
  (forall x, f x = true -> g x = true) ->
  forallb f l = true -> forallb g l = true.
Proof.
  intros Hfg. rewrite !forallb_forall. auto.
Qed.

Lemma valid_dataset_shape (x : pyval) :
  valid dataset_schema x = true -> dataset_shape x.
Proof.
  intros H. destruct x; try discriminate H.
  cbn in H. split_andb.
  match goal with H : dict_mem "data" _ = true |- _ => use_required H v end.
  split_andb. destruct v; try discriminate.
  econstructor; [eassumption|].
  match goal with H : forallb _ _ = true |- _ =>
    revert H; apply forallb_impl end.
  intros [] Hx; try discriminate Hx; reflexivity.
Qed.

Lemma valid_chart_shape (x : pyval) :
  valid chart_schema x = true -> chart_shape x.
Proof.
  intros H. destruct x as [| | | | | |c]; try discriminate H.
  cbn in H. split_andb.
  match goal with H : dict_mem "title" _ = true |- _ => use_required H t end.
  match goal with H : dict_mem "data" _ = true |- _ => use_required H dv end.
  split_andb.
  destruct t; try discriminate. destruct dv as [| | | | | |d]; try discriminate.
  split_andb.
  match goal with H : dict_mem "labels" _ = true |- _ => use_required H lv end.
  match goal with H : dict_mem "datasets" _ = true |- _ => use_required H sv end.
  split_andb.
  destruct lv; try discriminate. destruct sv as [| | | | |dss|]; try discriminate.
  econstructor; try eassumption.
  apply Forall_forall. intros y Hy. apply valid_dataset_shape.
  match goal with H : forallb _ dss = true |- _ =>
    rewrite forallb_forall in H; exact (H y Hy) end.
Qed.

Lemma valid_document_shape (config : pyval) :
  valid CHART_CONFIG_SCHEMA config = true -> document_shape config.
Proof.
  intros H. destruct config as [| | | | | |c]; try discriminate H.
  cbn in H. split_andb.
  match goal with H : dict_mem "charts" _ = true |- _ => use_required H cv end.
  split_andb. destruct cv as [| | | | |charts|]; try discriminate.
  econstructor; [eassumption | |].
  - split; apply Nat.leb_le; assumption.
  - apply Forall_forall. intros y Hy. apply valid_chart_shape.
    match goal with H : forallb _ charts = true |- _ =>
      rewrite forallb_forall in H; exact (H y Hy) end.
Qed.

(** ** The result monad *)

Lemma bind_ok {A B : Type} (c : result A) (k : A -> result B) (b : B) :
  bind c k = Ok b -> exists a, c = Ok a /\ k a = Ok b.
Proof.
  destruct c as [a|e]; cbn; [eauto | discriminate].
Qed.

(** Splits a hypothesis [x <- c ;; k = Ok b] into [c = Ok a] and
    [k a = Ok b]. *)
Tactic Notation "inv_bind" hyp(H) "as" ident(a) ident(Ha) :=
  apply bind_ok in H; destruct H as [a [Ha H]].

Tactic Notation "inv_bind" hyp(H) :=
  let a := fresh "a" in
  let Ha := fresh "Ha" in
  inv_bind H as a Ha.

(** The operations on values unfold once the kind of value is known. *)
#[global] Arguments py_in k !v /.
#[global] Arguments py_getitem !v k /.
#[global] Arguments py_setitem !v k x /.
#[global] Arguments py_get !v k default /.
#[global] Arguments py_len !v /.
#[global] Arguments py_iter !v /.
#[global] Arguments py_float !v /.
#[global] Arguments py_title !v /.

(** ** The cross-field rules of [validate_config] *)

Lemma validate_datasets_returns (chart : pyval) (n : nat) (datasets : list pyval)
    (ret : bool * message) :
  validate_datasets chart n datasets = Ok (Some ret) -> fst ret = false.
Proof.
  induction datasets as [|ds rest IH]; cbn; [discriminate|].
  destruct (py_getitem ds "data") as [d|]; cbn; [|discriminate].
  destruct (py_len d) as [m|]; cbn; [|discriminate].
  destruct (m =? n)%nat; cbn.
  - destruct (py_iter d) as [xs|]; cbn; [|discriminate].
    destruct (forallb is_int_or_float xs); cbn; [exact IH|].
    destruct (py_getitem chart "title"); cbn; [|discriminate].
    intros [= <-]. reflexivity.
  - destruct (py_getitem chart "title"); cbn; [|discriminate].
    intros [= <-]. reflexivity.
Qed.

Lemma validate_charts_returns (charts : list pyval) (ret : bool * message) :
  validate_charts charts = Ok (Some ret) -> fst ret = false.
Proof.
  induction charts as [|chart rest IH]; cbn; [discriminate|].
  intros H. repeat inv_bind H.
  match goal with r : option (bool * message) |- _ => destruct r as [ret'|] end.
  - injection H as <-. eapply validate_datasets_returns; eassumption.
  - auto.
Qed.

(** The loop over the datasets ends without a [return] only when every
    dataset has [n] data points. *)
Lemma validate_datasets_none (chart : pyval) (n : nat) (datasets : list pyval) :
  Forall dataset_shape datasets ->
  validate_datasets chart n datasets = Ok None ->
  forall dataset, In dataset datasets ->
    exists xs, data_of dataset = Some xs /\ List.length xs = n.
Proof.
  induction 1 as [|ds rest Hds _ IH]; cbn; [contradiction|].
  destruct Hds as [x xs Hdata Hnum]. cbn.
  rewrite Hdata. cbn.
  destruct (List.length xs =? n)%nat eqn:Hlen; cbn.
  - destruct (forallb is_int_or_float xs); cbn.
    + intros Hrest dataset [<- | Hin]; [|auto].
      exists xs. unfold data_of. cbn. rewrite Hdata.
      split; [reflexivity | now apply Nat.eqb_eq].
    + destruct (py_getitem chart "title"); cbn; discriminate.
  - destruct (py_getitem chart "title"); cbn; discriminate.
Qed.

Lemma validate_charts_none (charts : list pyval) :
  Forall chart_shape charts ->
  validate_charts charts = Ok None ->
  forall chart, In chart charts -> lengths_agree chart.
Proof.
  induction 1 as [|chart rest Hchart _ IH]; cbn; [contradiction|].
  destruct Hchart as [c d title labels datasets Htitle Hdata Hlabels Hdatasets Hshape].
  cbn. rewrite Hdata. cbn. rewrite Hlabels, Hdatasets. cbn.
  destruct (validate_datasets (PDict c) (List.length labels) datasets)
    as [[ret|]|] eqn:Hloop; cbn; try discriminate.
  intros Hrest chart [<- | Hin]; [|auto].
  exists labels, datasets. unfold labels_of, datasets_of. cbn.
  rewrite Hdata. cbn. rewrite Hlabels, Hdatasets.
  repeat split. eapply validate_datasets_none; eassumption.
Qed.

(** [validate_config] accepts only after the schema and the loop did. *)
Lemma validate_config_accepts (config : pyval) :
  validate_config config = Ok (true, Text "") ->
  exists c charts,
    config = PDict c /\
    dict_lookup "charts" c = Some (PList charts) /\
    document_shape config /\
    validate_charts charts = Ok None.
Proof.
  unfold validate_config, try_except.
  destruct (validate_config_body config) as [r|e] eqn:Hbody; [|discriminate].
  intros [= ->]. unfold validate_config_body, validate in Hbody.
  destruct (valid CHART_CONFIG_SCHEMA config) eqn:Hvalid; [|discriminate].
  apply valid_document_shape in Hvalid.
  destruct Hvalid as [c charts Hcharts Hlen Hshape].
  cbn in Hbody. rewrite Hcharts in Hbody. cbn in Hbody.
  exists c, charts. repeat split; try assumption.
  - econstructor; eassumption.
  - destruct (validate_charts charts) as [[ret|]|] eqn:Hloop;
      cbn in Hbody; try discriminate; [|reflexivity].
    apply validate_charts_returns in Hloop.
    injection Hbody as ->. discriminate.
Qed.

(** C1: when [validate_config] returns [(True, "")], the document has
    between 1 and 10 charts, and every dataset of every chart has exactly
    as many data points as its chart has labels. *)
Theorem validate_config_lengths (config : pyval) :
  validate_config config = Ok (true, Text "") ->
  exists charts,
    charts_of config = Some charts /\
    (1 <= List.length charts <= 10)%nat /\
    forall chart, In chart charts -> lengths_agree chart.
Proof.
  intros H. apply validate_config_accepts in H.
  destruct H as (c & charts & -> & Hcharts & Hshape & Hloop).
  inversion Hshape as [c' charts' Hcharts' Hlen Hall]; subst.
  rewrite Hcharts in Hcharts'. injection Hcharts' as <-.
  exists charts. unfold charts_of. cbn. rewrite Hcharts.
  repeat split; try apply Hlen.
  apply validate_charts_none; assumption.
Qed.

(** ** Scenario B: a dataset shorter than the labels *)

Lemma float_10_20 :
  py_float (PInt 10) = Ok float_10 /\ py_float (PInt 20) = Ok float_20.
Proof. split; reflexivity. Qed.

(** C2: for a chart with the labels Q1, Q2, Q3 and one dataset with the data
    [10, 20], [validate_config] returns [False] with a message that gives
    the two lengths and the title of the chart; [fix_common_issues] pads the
    data on the right with [0], to [10.0, 20.0, 0], which is equal to
    [10, 20, 0]; and [validate_config] accepts the repaired document. *)
Theorem scenario_B_validate_repair_validate
    (explanation chart_type title label : string) :
  explanation <> "" -> title <> "" -> In chart_type chart_types ->
  let document :=
    one_chart_document explanation chart_type title label quarters
      [PInt 10; PInt 20] in
  exists m repaired chart dataset,
    validate_config document = Ok (false, m) /\
    message_text m =
      Some (String.append
              "Data length (2) doesn't match labels length (3) in chart '"
              (String.append title "'")) /\
    fix_common_issues document = Ok repaired /\
    charts_of repaired = Some [chart] /\
    labels_of chart = Some quarters /\
    datasets_of chart = Some [dataset] /\
    data_of dataset = Some [PFloat float_10; PFloat float_20; PInt 0] /\
    py_eq (PList [PFloat float_10; PFloat float_20; PInt 0])
          (PList [PInt 10; PInt 20; PInt 0]) = true /\
    validate_config repaired = Ok (true, Text "").
Proof.
  intros He Ht Hc document. subst document.
  destruct explanation as [|e0 e]; [contradiction|].
  destruct title as [|t0 t]; [contradiction|].
  assert (Henum : existsb (String.eqb chart_type) chart_types = true).
  { apply existsb_exists. exists chart_type. split; [assumption | apply String.eqb_refl]. }
  unfold chart_types in Henum. cbn in Henum.
  do 4 eexists.
  split; [|split; [|split; [|split; [|split; [|split; [|split; [|split]]]]]]].
  - unfold validate_config, validate_config_body, validate, one_chart_document.
    cbn. rewrite Henum. cbn. reflexivity.
  - reflexivity.
  - reflexivity.
  - reflexivity.
  - reflexivity.
  - reflexivity.
  - reflexivity.
  - reflexivity.
  - unfold validate_config, validate_config_body, validate.
    cbn. rewrite Henum. cbn. reflexivity.
Qed.

(** C2, at a bar chart with the title Sales. *)
Lemma scenario_B_witness :
  exists m repaired chart dataset,
    validate_config
      (one_chart_document "Sales by quarter" "bar" "Sales" "Revenue" quarters
         [PInt 10; PInt 20]) = Ok (false, m) /\
    message_text m =
      Some "Data length (2) doesn't match labels length (3) in chart 'Sales'" /\
    fix_common_issues
      (one_chart_document "Sales by quarter" "bar" "Sales" "Revenue" quarters
         [PInt 10; PInt 20]) = Ok repaired /\
    charts_of repaired = Some [chart] /\
    labels_of chart = Some quarters /\
    datasets_of chart = Some [dataset] /\
    data_of dataset = Some [PFloat float_10; PFloat float_20; PInt 0] /\
    py_eq (PList [PFloat float_10; PFloat float_20; PInt 0])
          (PList [PInt 10; PInt 20; PInt 0]) = true /\
    validate_config repaired = Ok (true, Text "").
Proof.
  apply (scenario_B_validate_repair_validate "Sales by quarter" "bar" "Sales" "Revenue").
  - discriminate.
  - discriminate.
  - simpl. auto.
Defined.

(** ** Scenario C: a dataset with a value that is not a number *)

(** C6: a document whose only chart has three labels and one dataset with
    the data ["a", 5, null]: [float("a")] raises, [fix_common_issues] drops
    the dataset and with it the chart, the repaired document has an empty
    list of charts, and [validate_config] returns [False] for it. *)
Theorem scenario_C_drops_the_chart
    (explanation chart_type title label : string) (l1 l2 l3 : pyval) :
  let document :=
    one_chart_document explanation chart_type title label [l1; l2; l3]
      [PStr "a"; PInt 5; PNone] in
  py_float (PStr "a") = Raise ValueError /\
  fix_dataset
    (PDict [("labels", PList [l1; l2; l3]);
            ("datasets", PList [PDict [("label", PStr label);
                                       ("data", PList [PStr "a"; PInt 5; PNone])]])])
    (PDict [("label", PStr label); ("data", PList [PStr "a"; PInt 5; PNone])])
    = Ok None /\
  exists repaired,
    fix_common_issues document = Ok repaired /\
    charts_of repaired = Some [] /\
    validate_config repaired = Ok (false, StrOfExn ValidationError).
Proof.
  intros document. subst document.
  split; [reflexivity|]. split; [reflexivity|].
  eexists. split; [reflexivity|]. split; [reflexivity|].
  destruct explanation; reflexivity.
Qed.

(** ** Numeric data *)

Lemma validate_config_cases (config : pyval) :
  validate_config config = Ok (true, Text "") \/
  exists m, validate_config config = Ok (false, m).
Proof.
  unfold validate_config, try_except.
  destruct (validate_config_body config) as [r|e] eqn:Hbody; [|eauto].
  unfold validate_config_body in Hbody.
  repeat inv_bind Hbody.
  match goal with r : option (bool * message) |- _ => destruct r as [[b m]|] end.
  - injection Hbody as <-.
    match goal with H : validate_charts _ = _ |- _ =>
      apply validate_charts_returns in H; cbn in H; subst b end.
    eauto.
  - injection Hbody as <-. now left.
Qed.

Lemma document_shape_numbers (config : pyval) :
  document_shape config -> data_all_numbers config.
Proof.
  intros [c charts Hcharts _ Hall].
  exists charts. unfold charts_of. cbn. rewrite Hcharts. split; [reflexivity|].
  intros chart Hin. rewrite Forall_forall in Hall.
  destruct (Hall chart Hin)
    as [cd d title labels datasets _ Hdata _ Hdatasets Hshape].
  exists datasets. unfold datasets_of. cbn. rewrite Hdata. cbn. rewrite Hdatasets.
  split; [reflexivity|].
  intros dataset Hds. rewrite Forall_forall in Hshape.
  destruct (Hshape dataset Hds) as [x xs Hxs Hnum].
  exists xs. unfold data_of. cbn. rewrite Hxs. split; [reflexivity|].
  intros v Hv. rewrite forallb_forall in Hnum. specialize (Hnum v Hv).
  destruct v; try discriminate Hnum; eauto.
Qed.

(** C8: [validate_config] either rejects the document with a
    [(False, message)] result, or returns [(True, "")] and then every data
    point of every dataset is an [int] or a float: a document with a [str],
    [None] or [bool] data point is never accepted. *)
Theorem validate_config_numeric_data (config : pyval) :
  (exists m, validate_config config = Ok (false, m)) \/
  (validate_config config = Ok (true, Text "") /\ data_all_numbers config).
Proof.
  destruct (validate_config_cases config) as [H | H]; [right | now left].
  split; [assumption|].
  apply validate_config_accepts in H.
  destruct H as (c & charts & _ & _ & Hshape & _).
  now apply document_shape_numbers.
Qed.

(** C1, at a document with one chart of three labels and three data points. *)
Lemma validate_config_lengths_witness :
  exists charts,
    charts_of (one_chart_document "Sales by quarter" "bar" "Sales" "Revenue"
                 quarters [PInt 10; PInt 20; PInt 30]) = Some charts /\
    (1 <= List.length charts <= 10)%nat /\
    forall chart, In chart charts -> lengths_agree chart.
Proof.
  apply validate_config_lengths. reflexivity.
Defined.

(** ** Dictionaries *)

Create HintDb pydict.

Lemma dict_lookup_set_same (k : string) (v : pyval) (d : list (string * pyval)) :
  dict_lookup k (dict_set k v d) = Some v.
Proof.
  induction d as [|[k' v'] d IH]; cbn.
  - now rewrite String.eqb_refl.
  - destruct (String.eqb k k') eqn:Hk; cbn; rewrite Hk; [reflexivity | exact IH].
Qed.

Lemma dict_lookup_set_other (k k' : string) (v : pyval) (d : list (string * pyval)) :
  k <> k' -> dict_lookup k (dict_set k' v d) = dict_lookup k d.
Proof.
  intros Hne. induction d as [|[k0 v0] d IH]; cbn.
  - apply String.eqb_neq in Hne. now rewrite Hne.
  - destruct (String.eqb k' k0) eqn:Hk; cbn.
    + apply String.eqb_eq in Hk. subst k0.
      apply String.eqb_neq in Hne. now rewrite Hne.
    + now rewrite IH.
Qed.

Lemma dict_set_same_value (k : string) (v : pyval) (d : list (string * pyval)) :
  dict_lookup k d = Some v -> dict_set k v d = d.
Proof.
  induction d as [|[k' v'] d IH]; cbn; [discriminate|].
  destruct (String.eqb k k') eqn:Hk.
  - now intros [= ->].
  - intros H. now rewrite IH.
Qed.

Lemma dict_mem_set_same (k : string) (v : pyval) (d : list (string * pyval)) :
  dict_mem k (dict_set k v d) = true.
Proof. unfold dict_mem. now rewrite dict_lookup_set_same. Qed.

Lemma dict_mem_set_keeps (k k' : string) (v : pyval) (d : list (string * pyval)) :
  dict_mem k d = true -> dict_mem k (dict_set k' v d) = true.
Proof.
  unfold dict_mem. destruct (String.eqb k k') eqn:Hk.
  - apply String.eqb_eq in Hk. subst k'. now rewrite dict_lookup_set_same.
  - apply String.eqb_neq in Hk. now rewrite dict_lookup_set_other.
Qed.

Lemma dict_mem_false (k : string) (d : list (string * pyval)) :
  dict_mem k d = false -> dict_lookup k d = None.
Proof. unfold dict_mem. now destruct (dict_lookup k d). Qed.

Lemma dict_mem_true (k : string) (v : pyval) (d : list (string * pyval)) :
  dict_lookup k d = Some v -> dict_mem k d = true.
Proof. unfold dict_mem. now intros ->. Qed.

(** Setting a key that is not there leaves the items that are there. *)
Lemma dict_lookup_set_keeps (k k' : string) (v x : pyval) (d : list (string * pyval)) :
  dict_mem k' d = false ->
  dict_lookup k d = Some x -> dict_lookup k (dict_set k' v d) = Some x.
Proof.
  intros Hnone Hk. rewrite dict_lookup_set_other; [assumption|].
  intros ->. apply dict_mem_false in Hnone. congruence.
Qed.

Lemma ensure_mem (k : string) (v : pyval) (d : list (string * pyval)) :
  dict_mem k (ensure k v d) = true.
Proof.
  unfold ensure. destruct (dict_mem k d) eqn:H; [exact H | apply dict_mem_set_same].
Qed.

Lemma ensure_mem_keeps (k k' : string) (v : pyval) (d : list (string * pyval)) :
  dict_mem k d = true -> dict_mem k (ensure k' v d) = true.
Proof.
  unfold ensure. destruct (dict_mem k' d); [auto | apply dict_mem_set_keeps].
Qed.

Lemma ensure_lookup_keeps (k k' : string) (v x : pyval) (d : list (string * pyval)) :
  dict_lookup k d = Some x -> dict_lookup k (ensure k' v d) = Some x.
Proof.
  unfold ensure. destruct (dict_mem k' d) eqn:H; [auto | now apply dict_lookup_set_keeps].
Qed.

Lemma ensure_present (k : string) (v : pyval) (d : list (string * pyval)) :
  dict_mem k d = true -> ensure k v d = d.
Proof. unfold ensure. now intros ->. Qed.

#[local] Hint Resolve dict_mem_set_same dict_mem_set_keeps ensure_mem
  ensure_mem_keeps ensure_lookup_keeps dict_lookup_set_keeps dict_mem_true : pydict.

(** ** Loops *)

Lemma mapM_Forall2 {A B : Type} (f : A -> result B) (l : list A) (l' : list B) :
  mapM f l = Ok l' <-> Forall2 (fun x y => f x = Ok y) l l'.
Proof.
  revert l'. induction l as [|x l IH]; intros l'; cbn.
  - split.
    + intros [= <-]. constructor.
    + intros H. inversion H. reflexivity.
  - split.
    + intros H. inv_bind H. inv_bind H. injection H as <-.
      constructor; [assumption | now apply IH].
    + intros H. inversion H as [|x' y l0 ys Hy Hl]; subst.
      rewrite Hy. cbn. apply IH in Hl. rewrite Hl. reflexivity.
Qed.

Lemma mapM_fixed {A : Type} (f : A -> result A) (l : list A) :
  Forall (fun x => f x = Ok x) l -> mapM f l = Ok l.
Proof.
  intros H. apply mapM_Forall2. induction H; constructor; assumption.
Qed.

(** ** Theming a dataset *)

Section ThemeDataset.

Variable chart_type : pyval.

Lemma theme_dataset_dict (x : list (string * pyval)) :
  theme_dataset chart_type (PDict x) =
  if dict_mem "backgroundColor" x
  then Ok (PDict (ensure "borderWidth" (PInt 2)
                    (ensure "borderColor" (PStr "#d4af37") x)))
  else
    b <- background_for chart_type x ;;
    Ok (PDict (ensure "borderWidth" (PInt 2)
                 (ensure "borderColor" (PStr "#d4af37")
                    (dict_set "backgroundColor" b x)))).
Proof.
  unfold theme_dataset, background_for, ensure. cbn.
  destruct (dict_mem "backgroundColor" x); cbn.
  - destruct (dict_mem "borderColor" x); cbn;
      match goal with |- context [dict_mem "borderWidth" ?d] =>
        destruct (dict_mem "borderWidth" d) end; reflexivity.
  - destruct (is_pie_or_doughnut chart_type); cbn.
    + destruct (dict_lookup "data" x) as [d|]; cbn.
      * destruct (py_len d) as [n|]; cbn; [|reflexivity].
        match goal with |- context [dict_mem "borderColor" ?d] =>
          destruct (dict_mem "borderColor" d) end; cbn;
          match goal with |- context [dict_mem "borderWidth" ?d] =>
            destruct (dict_mem "borderWidth" d) end; reflexivity.
      * match goal with |- context [dict_mem "borderColor" ?d] =>
          destruct (dict_mem "borderColor" d) end; cbn;
          match goal with |- context [dict_mem "borderWidth" ?d] =>
            destruct (dict_mem "borderWidth" d) end; reflexivity.
    + match goal with |- context [dict_mem "borderColor" ?d] =>
        destruct (dict_mem "borderColor" d) end; cbn;
        match goal with |- context [dict_mem "borderWidth" ?d] =>
          destruct (dict_mem "borderWidth" d) end; reflexivity.
Qed.

Lemma theme_dataset_fixed (dataset : pyval) :
  themed dataset -> theme_dataset chart_type dataset = Ok dataset.
Proof.
  intros (Hb & Hc & Hw). unfold theme_dataset.
  rewrite Hb. cbn. rewrite Hc. cbn. rewrite Hw. reflexivity.
Qed.

(** Only a dict can be given a key: any other dataset comes out as it went
    in, and it had the three keys already. *)
Lemma theme_dataset_not_dict (dataset dataset' : pyval) :
  is_dict dataset = false ->
  theme_dataset chart_type dataset = Ok dataset' ->
  dataset' = dataset /\ themed dataset.
Proof.
  intros Hd H. unfold theme_dataset, themed in *.
  destruct dataset; try discriminate Hd; try discriminate H; cbn in H |- *.
  all: repeat match type of H with
         | context [existsb ?f ?l] => destruct (existsb f l); cbn in H
         | context [substring_in ?k ?s] => destruct (substring_in k s); cbn in H
         | context [is_pie_or_doughnut ?c] =>
             destruct (is_pie_or_doughnut c); cbn in H
         end; try discriminate H.
  all: injection H as <-; auto.
Qed.

Lemma theme_dataset_themed (dataset dataset' : pyval) :
  theme_dataset chart_type dataset = Ok dataset' -> themed dataset'.
Proof.
  intros H. destruct (is_dict dataset) eqn:Hd.
  2:{ destruct (theme_dataset_not_dict _ _ Hd H) as [-> Ht]. exact Ht. }
  destruct dataset as [| | | | | |x]; try discriminate Hd.
  rewrite theme_dataset_dict in H.
  destruct (dict_mem "backgroundColor" x) eqn:Hb.
  - injection H as <-. unfold themed. cbn. repeat split; f_equal; auto with pydict.
  - inv_bind H. injection H as <-. unfold themed. cbn.
    repeat split; f_equal; auto with pydict.
Qed.

(** Theming a dataset a second time changes nothing. *)
Lemma theme_dataset_idempotent (dataset dataset' : pyval) :
  theme_dataset chart_type dataset = Ok dataset' ->
  forall chart_type', theme_dataset chart_type' dataset' = Ok dataset'.
Proof.
  intros H chart_type'. apply theme_dataset_themed in H.
  destruct H as (Hb & Hc & Hw). unfold theme_dataset.
  rewrite Hb. cbn. rewrite Hc. cbn. rewrite Hw. reflexivity.
Qed.

(** Every item a dataset has before theming, it has afterwards. *)
Lemma theme_dataset_frame (dataset dataset' : pyval) :
  theme_dataset chart_type dataset = Ok dataset' ->
  forall k v, py_getitem dataset k = Ok v -> py_getitem dataset' k = Ok v.
Proof.
  intros H k v Hk. destruct (is_dict dataset) eqn:Hd.
  2:{ now destruct (theme_dataset_not_dict _ _ Hd H) as [-> _]. }
  destruct dataset as [| | | | | |x]; try discriminate Hd.
  cbn in Hk. destruct (dict_lookup k x) as [v'|] eqn:Hlk; [|discriminate].
  injection Hk as ->.
  rewrite theme_dataset_dict in H.
  destruct (dict_mem "backgroundColor" x) eqn:Hb.
  - injection H as <-. cbn.
    erewrite ensure_lookup_keeps; eauto with pydict.
  - inv_bind H. injection H as <-. cbn.
    erewrite ensure_lookup_keeps; eauto with pydict.
Qed.

End ThemeDataset.

(** ** The palette *)

Lemma concat_repeat_length (m : nat) :
  List.length (List.concat (repeat colors m)) = 6 * m.
Proof.
  induction m as [|m IH]; [reflexivity|].
  cbn [repeat List.concat]. rewrite length_app, IH. cbn [colors List.length]. lia.
Qed.

Lemma concat_repeat_nth (m i : nat) :
  i < 6 * m ->
  nth i (List.concat (repeat colors m)) PNone = nth (i mod 6) colors PNone.
Proof.
  revert i. induction m as [|m IH]; intros i Hi; [lia|].
  cbn [repeat List.concat].
  destruct (Nat.lt_ge_cases i 6) as [Hlt | Hge].
  - rewrite app_nth1 by exact Hlt. now rewrite Nat.mod_small.
  - rewrite app_nth2 by exact Hge.
    change (List.length colors) with 6.
    rewrite IH by lia. f_equal.
    replace i with ((i - 6) + 1 * 6) at 2 by lia.
    now rewrite Nat.Div0.mod_add.
Qed.

(** The colours given to [n] segments are the palette repeated from its
    first entry and cut after [n] entries. *)
Lemma segment_colors_cycle (n : nat) : segment_colors n = palette_cycle n.
Proof.
  assert (Hdiv : n < 6 * (n / 6 + 1)).
  { pose proof (Nat.div_mod_eq n 6) as E.
    pose proof (Nat.mod_upper_bound n 6) as U. lia. }
  unfold segment_colors, palette_cycle. change (List.length colors) with 6.
  apply nth_ext with (d := PNone) (d' := PNone).
  - rewrite length_firstn, concat_repeat_length, length_map, length_seq. lia.
  - intros i Hi.
    rewrite length_firstn, concat_repeat_length in Hi.
    assert (Hin : i < n) by lia.
    rewrite nth_firstn.
    destruct (Nat.ltb_spec i n) as [_|]; [|lia].
    rewrite concat_repeat_nth by lia.
    symmetry. apply nth_error_nth.
    rewrite nth_error_map, nth_error_seq.
    destruct (Nat.ltb_spec i n) as [_|]; [reflexivity | lia].
Qed.

Lemma palette_cycle_length (n : nat) : List.length (palette_cycle n) = n.
Proof. unfold palette_cycle. now rewrite length_map, length_seq. Qed.

Lemma palette_cycle_nth (n i : nat) :
  i < n -> nth_error (palette_cycle n) i = nth_error colors (i mod 6).
Proof.
  intros Hi. unfold palette_cycle.
  rewrite nth_error_map, nth_error_seq.
  destruct (Nat.ltb_spec i n) as [_|]; [|lia].
  cbv [option_map]. cbn [Nat.add].
  symmetry. apply nth_error_nth'.
  change (List.length colors) with 6. apply Nat.mod_upper_bound. discriminate.
Qed.

(** ** Theming a chart *)

Lemma theme_chart_eq (chart : pyval) :
  theme_chart chart =
  (chart_type <- py_get chart "type" (PStr "bar") ;;
   items <- chart_items chart ;;
   themed <- mapM (theme_dataset chart_type) items ;;
   theme_options (store_datasets chart themed)).
Proof.
  unfold theme_chart, chart_items, theme_options.
  destruct (py_get chart "type" (PStr "bar")) as [ct|]; cbn; [|reflexivity].
  destruct (py_get chart "data" (PDict [])) as [data|]; cbn; [|reflexivity].
  destruct (py_get data "datasets" (PList [])) as [datasets|]; cbn; [|reflexivity].
  destruct (py_iter datasets) as [items|]; cbn; reflexivity.
Qed.

Lemma py_iter_str_not_dict (s : string) :
  Forall (fun x => is_dict x = false)
         (map (fun c => PStr (String c EmptyString)) (list_ascii_of_string s)).
Proof. apply Forall_forall. intros x Hx. apply in_map_iff in Hx. now destruct Hx as [c [<- _]]. Qed.

Lemma py_iter_keys_not_dict (d : list (string * pyval)) :
  Forall (fun x => is_dict x = false) (map (fun kv => PStr (fst kv)) d).
Proof. apply Forall_forall. intros x Hx. apply in_map_iff in Hx. now destruct Hx as [c [<- _]]. Qed.

(** Items that are not dicts are not changed by a loop that can only change
    dicts. *)
Lemma unchanged_items (items themed : list pyval) :
  Forall (fun x => is_dict x = false) items ->
  Forall2 (fun x y => is_dict x = false -> y = x) items themed ->
  themed = items.
Proof.
  intros Hnd H. induction H as [|x y l l' Hxy _ IH]; [reflexivity|].
  inversion Hnd; subst. f_equal; auto.
Qed.

Lemma store_datasets_is_dict (c : list (string * pyval)) (l : list pyval) :
  exists c1, store_datasets (PDict c) l = PDict c1 /\
             forall k, k <> "data" -> dict_lookup k c1 = dict_lookup k c.
Proof.
  unfold store_datasets.
  destruct (dict_lookup "data" c) as [[| | | | | |d]|]; eauto.
  destruct (dict_lookup "datasets" d) as [[| | | | |l0|]|]; eauto.
  eexists. split; [reflexivity|].
  intros k Hk. now apply dict_lookup_set_other.
Qed.

(** After the loop the chart holds the datasets the loop produced. *)
Lemma chart_items_store (c : list (string * pyval)) (items themed : list pyval) :
  chart_items (PDict c) = Ok items ->
  Forall2 (fun x y => is_dict x = false -> y = x) items themed ->
  chart_items (store_datasets (PDict c) themed) = Ok themed.
Proof.
  intros Hitems H. revert Hitems. unfold chart_items, store_datasets. cbn.
  destruct (dict_lookup "data" c) as [data|] eqn:Hdata; cbn.
  - destruct data as [| | | | | |d]; try discriminate. cbn.
    destruct (dict_lookup "datasets" d) as [datasets|] eqn:Hds; cbn.
    + destruct datasets as [| | | |s|l|dd]; try discriminate; cbn.
      * intros [= <-]. rewrite Hdata. cbn. rewrite Hds. cbn.
        f_equal. symmetry. eapply unchanged_items; [|eassumption].
        apply py_iter_str_not_dict.
      * intros _. rewrite dict_lookup_set_same. cbn.
        now rewrite dict_lookup_set_same.
      * intros [= <-]. rewrite Hdata. cbn. rewrite Hds. cbn.
        f_equal. symmetry. eapply unchanged_items; [|eassumption].
        apply py_iter_keys_not_dict.
    + intros [= <-]. rewrite Hdata. cbn. rewrite Hds. cbn.
      inversion H. reflexivity.
  - intros [= <-]. rewrite Hdata. cbn. inversion H. reflexivity.
Qed.

(** Storing the datasets a chart holds changes nothing. *)
Lemma store_datasets_same (c : list (string * pyval)) (items : list pyval) :
  chart_items (PDict c) = Ok items -> store_datasets (PDict c) items = PDict c.
Proof.
  unfold chart_items, store_datasets. cbn.
  destruct (dict_lookup "data" c) as [data|] eqn:Hdata; cbn; [|reflexivity].
  destruct data as [| | | | | |d]; try reflexivity. cbn.
  destruct (dict_lookup "datasets" d) as [datasets|] eqn:Hds; cbn; [|reflexivity].
  destruct datasets as [| | | | |l|]; try reflexivity. cbn.
  intros [= <-].
  rewrite (dict_set_same_value _ _ d Hds).
  now rewrite (dict_set_same_value _ _ c Hdata).
Qed.

Lemma chart_items_set_options (c : list (string * pyval)) (o : pyval) :
  chart_items (PDict (dict_set "options" o c)) = chart_items (PDict c).
Proof.
  unfold chart_items. cbn.
  now rewrite dict_lookup_set_other by discriminate.
Qed.

(** One [if k not in options['plugins']: options['plugins'][k] = v] step:
    afterwards the plugins have the key, and all they had before. *)
Lemma plugin_step (options options' plugins v : pyval) (k : string) (b : bool) :
  py_getitem options "plugins" = Ok plugins ->
  py_in k plugins = Ok b ->
  (if negb b then
     p <- py_getitem options "plugins" ;;
     p <- py_setitem p k v ;;
     py_setitem options "plugins" p
   else Ok options) = Ok options' ->
  exists plugins',
    py_getitem options' "plugins" = Ok plugins' /\
    py_in k plugins' = Ok true /\
    (forall k', py_in k' plugins = Ok true -> py_in k' plugins' = Ok true) /\
    (forall k' x, py_getitem plugins k' = Ok x -> py_getitem plugins' k' = Ok x).
Proof.
  intros Hp Hin H. destruct b; cbn in H.
  - injection H as <-. exists plugins. auto.
  - rewrite Hp in H. cbn in H.
    destruct options as [| | | | | |o]; try discriminate Hp.
    destruct plugins as [| | | | | |p]; try discriminate H.
    cbn in H. injection H as <-. cbn in Hin. injection Hin as Hin.
    exists (PDict (dict_set k v p)). cbn. rewrite dict_lookup_set_same.
    repeat split.
    + f_equal. apply dict_mem_set_same.
    + intros k' [= Hk']. f_equal. now apply dict_mem_set_keeps.
    + intros k' x Hx. destruct (dict_lookup k' p) as [y|] eqn:Hy; [|discriminate].
      now rewrite (dict_lookup_set_keeps _ _ _ _ _ Hin Hy).
Qed.

Section ThemeOptions.

Variable c : list (string * pyval).

Lemma theme_options_sets (chart' : pyval) :
  theme_options (PDict c) = Ok chart' ->
  (exists o, chart' = PDict (dict_set "options" o c)) /\ options_themed chart'.
Proof.
  unfold theme_options. intros H.
  inv_bind H as o0 Ho0. inv_bind H as b0 Hb0. inv_bind H as o1 Ho1.
  inv_bind H as p1 Hp1. inv_bind H as bt Hbt. inv_bind H as o2 Htitle.
  inv_bind H as p2 Hp2. inv_bind H as bl Hbl. inv_bind H as o3 Hlegend.
  assert (Htitle' : exists p, py_getitem o2 "plugins" = Ok p /\
                              py_in "title" p = Ok true).
  { destruct bt; cbn in Htitle.
    - injection Htitle as <-. eauto.
    - inv_bind Htitle as text Htext.
      edestruct (plugin_step o1 o2 p1 (title_plugin text) "title" false)
        as (p & ? & ? & _); eauto. }
  destruct Htitle' as (p & Hp & Ht).
  rewrite Hp in Hp2. injection Hp2 as <-.
  edestruct (plugin_step o2 o3 p legend_plugin "legend" bl)
    as (p3 & Hp3 & Hl3 & Hkeep & _); eauto.
  cbn in H. injection H as <-.
  split; [eauto|].
  exists o3, p3. cbn. rewrite dict_lookup_set_same. auto.
Qed.

Lemma theme_options_fixed :
  options_themed (PDict c) -> theme_options (PDict c) = Ok (PDict c).
Proof.
  intros (o & p & Ho & Hp & Ht & Hl). unfold theme_options.
  cbn in Ho. destruct (dict_lookup "options" c) as [o'|] eqn:Hoc; [|discriminate].
  injection Ho as ->. cbn. rewrite Hoc. cbn.
  destruct o as [| | | | | |od]; try discriminate Hp.
  cbn in Hp |- *. unfold dict_mem.
  destruct (dict_lookup "plugins" od) as [p'|] eqn:Hpl; [|discriminate].
  injection Hp as ->. cbn. rewrite Hpl. cbn. rewrite Ht. cbn.
  rewrite Hpl. cbn. rewrite Hl. cbn.
  now rewrite (dict_set_same_value _ _ _ Hoc).
Qed.

(** A plugin the chart has before theming, it has afterwards. *)
Lemma theme_options_frame (chart' : pyval) (k : string) (v : pyval) :
  theme_options (PDict c) = Ok chart' ->
  plugin_of (PDict c) k = Ok v -> plugin_of chart' k = Ok v.
Proof.
  unfold theme_options, plugin_of. intros H Hk.
  inv_bind Hk as o Ho. inv_bind Hk as p Hp.
  cbn in Ho. destruct (dict_lookup "options" c) as [o'|] eqn:Hoc; [|discriminate].
  injection Ho as ->. cbn in H. rewrite Hoc in H. cbn in H.
  destruct o as [| | | | | |od]; try discriminate Hp.
  cbn in Hp, H. unfold dict_mem in H.
  destruct (dict_lookup "plugins" od) as [p'|] eqn:Hpl; [|discriminate].
  injection Hp as ->. cbn in H. rewrite Hpl in H. cbn in H.
  inv_bind H as bt Hbt. inv_bind H as o2 Htitle.
  inv_bind H as p2 Hp2. inv_bind H as bl Hbl. inv_bind H as o3 Hlegend.
  assert (Htitle' : exists p1, py_getitem o2 "plugins" = Ok p1 /\
                               py_getitem p1 k = Ok v).
  { destruct bt; cbn in Htitle.
    - injection Htitle as <-. cbn. rewrite Hpl. eauto.
    - inv_bind Htitle as text Htext.
      assert (Hgp : py_getitem (PDict od) "plugins" = Ok p)
        by (cbn; now rewrite Hpl).
      destruct (plugin_step (PDict od) o2 p (title_plugin text) "title" false
                  Hgp Hbt) as (p1 & ? & _ & _ & Hframe); eauto.
      cbn. rewrite Hpl. exact Htitle. }
  destruct Htitle' as (p1 & Hp1 & Hv1).
  rewrite Hp1 in Hp2. injection Hp2 as <-.
  edestruct (plugin_step o2 o3 p1 legend_plugin "legend" bl)
    as (p3 & Hp3 & _ & _ & Hframe); eauto.
  cbn in H. injection H as <-. cbn. rewrite dict_lookup_set_same. cbn.
  rewrite Hp3. cbn. auto.
Qed.

End ThemeOptions.

Lemma Forall2_nth_error {A B : Type} (R : A -> B -> Prop) (l : list A)
    (l' : list B) (i : nat) (x : A) :
  Forall2 R l l' -> nth_error l i = Some x ->
  exists y, nth_error l' i = Some y /\ R x y.
Proof.
  intros H. revert i. induction H as [|a b l l' Hab _ IH]; intros i Hi.
  - destruct i; discriminate.
  - destruct i as [|i]; cbn in Hi |- *.
    + injection Hi as <-. eauto.
    + auto.
Qed.

Lemma Forall2_impl {A B : Type} (R S : A -> B -> Prop) (l : list A) (l' : list B) :
  (forall x y, R x y -> S x y) -> Forall2 R l l' -> Forall2 S l l'.
Proof. intros HRS H. induction H; constructor; auto. Qed.

Lemma Forall2_Forall_r {A B : Type} (R : A -> B -> Prop) (P : B -> Prop)
    (l : list A) (l' : list B) :
  (forall x y, R x y -> P y) -> Forall2 R l l' -> Forall P l'.
Proof. intros HRP H. induction H; constructor; eauto. Qed.

Lemma py_get_dict_ok (d : list (string * pyval)) (k : string) (dflt : pyval) :
  exists v, py_get (PDict d) k dflt = Ok v.
Proof. cbn. destruct (dict_lookup k d); eauto. Qed.

(** Theming a chart a second time changes nothing. *)
Lemma theme_chart_idempotent (chart chart' : pyval) :
  theme_chart chart = Ok chart' -> theme_chart chart' = Ok chart'.
Proof.
  intros H. rewrite theme_chart_eq in H.
  inv_bind H as ct Hct. inv_bind H as items Hitems. inv_bind H as themed Hloop.
  destruct chart as [| | | | | |c]; try discriminate Hct.
  apply mapM_Forall2 in Hloop.
  assert (Hstore : chart_items (store_datasets (PDict c) themed) = Ok themed).
  { eapply chart_items_store; [eassumption|].
    eapply Forall2_impl; [|exact Hloop].
    intros x y Hxy Hx. now destruct (theme_dataset_not_dict _ _ _ Hx Hxy). }
  destruct (store_datasets_is_dict c themed) as (c1 & Hc1 & _).
  rewrite Hc1 in H, Hstore.
  destruct (theme_options_sets _ _ H) as [[o ->] Hthemed].
  rewrite theme_chart_eq.
  destruct (py_get_dict_ok (dict_set "options" o c1) "type" (PStr "bar"))
    as [ct' ->].
  cbn [bind].
  assert (Hitems' : chart_items (PDict (dict_set "options" o c1)) = Ok themed)
    by now rewrite chart_items_set_options.
  rewrite Hitems'. cbn [bind].
  rewrite mapM_fixed.
  2:{ eapply Forall2_Forall_r; [|exact Hloop].
      intros x y Hxy. eapply theme_dataset_idempotent. exact Hxy. }
  cbn [bind].
  rewrite (store_datasets_same _ _ Hitems').
  now apply theme_options_fixed.
Qed.

(** The datasets of the chart after theming are the themed datasets, in the
    same order. *)
Lemma theme_chart_datasets (chart chart' : pyval) (datasets : list pyval) :
  theme_chart chart = Ok chart' ->
  datasets_of chart = Some datasets ->
  exists chart_type datasets',
    py_get chart "type" (PStr "bar") = Ok chart_type /\
    datasets_of chart' = Some datasets' /\
    Forall2 (fun x y => theme_dataset chart_type x = Ok y) datasets datasets'.
Proof.
  intros H Hds. rewrite theme_chart_eq in H.
  inv_bind H as ct Hct. inv_bind H as items Hitems. inv_bind H as themed Hloop.
  destruct chart as [| | | | | |c]; try discriminate Hct.
  unfold datasets_of in Hds. cbn in Hds.
  destruct (dict_lookup "data" c) as [data|] eqn:Hdata; [|discriminate].
  destruct data as [| | | | | |d]; try discriminate. cbn in Hds.
  destruct (dict_lookup "datasets" d) as [dv|] eqn:Hdv; [|discriminate].
  destruct dv as [| | | | |l|]; try discriminate. injection Hds as ->.
  unfold chart_items in Hitems. cbn in Hitems. rewrite Hdata in Hitems.
  cbn in Hitems. rewrite Hdv in Hitems. cbn in Hitems. injection Hitems as <-.
  unfold store_datasets in H. rewrite Hdata, Hdv in H.
  destruct (theme_options_sets _ _ H) as [[o ->] _].
  exists ct, themed. split; [assumption|]. split.
  - unfold datasets_of. cbn.
    rewrite dict_lookup_set_other by discriminate.
    rewrite dict_lookup_set_same. cbn. now rewrite dict_lookup_set_same.
  - now apply mapM_Forall2.
Qed.

(** A plugin the chart has before theming, it has afterwards. *)
Lemma theme_chart_plugins (chart chart' : pyval) (k : string) (v : pyval) :
  theme_chart chart = Ok chart' ->
  plugin_of chart k = Ok v -> plugin_of chart' k = Ok v.
Proof.
  intros H Hk. rewrite theme_chart_eq in H.
  inv_bind H as ct Hct. inv_bind H as items Hitems. inv_bind H as themed Hloop.
  destruct chart as [| | | | | |c]; try discriminate Hct.
  destruct (store_datasets_is_dict c themed) as (c1 & Hc1 & Hsame).
  rewrite Hc1 in H. eapply theme_options_frame; [exact H|].
  unfold plugin_of in *. cbn in *.
  rewrite Hsame by discriminate. exact Hk.
Qed.

(** ** Theming a document *)

Lemma apply_visualization_rules_charts (config result : pyval)
    (charts : list pyval) :
  apply_visualization_rules config = Ok result ->
  charts_of config = Some charts ->
  exists c charts',
    config = PDict c /\
    result = PDict (dict_set "charts" (PList charts') c) /\
    Forall2 (fun x y => theme_chart x = Ok y) charts charts'.
Proof.
  intros H Hcharts. unfold charts_of in Hcharts.
  destruct config as [| | | | | |c]; try discriminate Hcharts.
  cbn in Hcharts.
  destruct (dict_lookup "charts" c) as [cv|] eqn:Hcv; [|discriminate].
  destruct cv as [| | | | |l|]; try discriminate. injection Hcharts as ->.
  unfold apply_visualization_rules in H.
  rewrite (dict_mem_true _ _ _ Hcv) in H. cbn in H. rewrite Hcv in H. cbn in H.
  inv_bind H as themed Hloop. injection H as <-.
  exists c, themed. repeat split. now apply mapM_Forall2.
Qed.

Lemma charts_of_set (c : list (string * pyval)) (charts : list pyval) :
  charts_of (PDict (dict_set "charts" (PList charts) c)) = Some charts.
Proof. unfold charts_of. cbn. now rewrite dict_lookup_set_same. Qed.

(** C4: theming is idempotent.  Whenever [apply_visualization_rules]
    returns a document, applying it to that document returns the same
    document; this holds for every input, valid or not. *)
Theorem apply_visualization_rules_idempotent (config result : pyval) :
  apply_visualization_rules config = Ok result ->
  apply_visualization_rules result = Ok result.
Proof.
  intros H.
  destruct config as [| | | | | |c]; try (injection H as <-; reflexivity).
  pose proof H as Hsame.
  unfold apply_visualization_rules in H.
  destruct (dict_mem "charts" c) eqn:Hmem; cbn in H.
  2:{ injection H as <-. unfold apply_visualization_rules. now rewrite Hmem. }
  destruct (dict_mem_lookup _ _ Hmem) as [cv Hcv].
  rewrite Hcv in H. cbn in H.
  inv_bind H as items Hitems. inv_bind H as themed Hloop.
  destruct cv as [| | | | |l|]; try discriminate Hitems;
    try (injection H as <-; exact Hsame).
  clear Hsame. injection H as <-. cbn in Hitems. injection Hitems as <-.
  apply mapM_Forall2 in Hloop.
  unfold apply_visualization_rules.
  rewrite dict_mem_set_same. cbn.
  rewrite dict_lookup_set_same. cbn.
  rewrite mapM_fixed.
  - cbn. f_equal. f_equal. apply dict_set_same_value, dict_lookup_set_same.
  - eapply Forall2_Forall_r; [|exact Hloop].
    intros x y Hxy. eapply theme_chart_idempotent. exact Hxy.
Qed.

(** C4, at the document of scenario D. *)
Lemma apply_visualization_rules_idempotent_witness :
  exists result,
    apply_visualization_rules pie_document = Ok result /\
    apply_visualization_rules result = Ok result.
Proof.
  eexists. split; [reflexivity|].
  apply (apply_visualization_rules_idempotent pie_document). reflexivity.
Defined.

(** ** Theming keeps what is there *)

Lemma Forall2_impl_Forall {A B : Type} (P : A -> Prop) (R S : A -> B -> Prop)
    (l : list A) (l' : list B) :
  (forall x y, P x -> R x y -> S x y) ->
  Forall P l -> Forall2 R l l' -> Forall2 S l l'.
Proof.
  intros HS HP H. induction H; constructor; inversion HP; subst; auto.
Qed.

Lemma chart_shape_datasets (chart : pyval) :
  chart_shape chart -> exists datasets, datasets_of chart = Some datasets.
Proof.
  intros [c d title labels datasets _ Hdata _ Hdatasets _].
  exists datasets. unfold datasets_of. cbn. rewrite Hdata. cbn. now rewrite Hdatasets.
Qed.

(** The loop over the datasets leaves the other items of the chart and of
    its data as they are. *)
Lemma store_datasets_keeps (c : list (string * pyval)) (l : list pyval) :
  exists c1,
    store_datasets (PDict c) l = PDict c1 /\
    (forall k, k <> "data" -> dict_lookup k c1 = dict_lookup k c) /\
    (forall d, dict_lookup "data" c = Some (PDict d) ->
       exists d1, dict_lookup "data" c1 = Some (PDict d1) /\
                  forall k, k <> "datasets" -> dict_lookup k d1 = dict_lookup k d).
Proof.
  unfold store_datasets.
  destruct (dict_lookup "data" c) as [data|] eqn:Hdata.
  2:{ exists c. repeat split. intros d [=]. }
  destruct data as [| | | | | |d];
    try (exists c; repeat split; intros d' [=]).
  destruct (dict_lookup "datasets" d) as [[| | | | |l0|]|];
    try (exists c; repeat split; intros d' [= <-]; eauto).
  eexists. split; [reflexivity|]. split.
  - intros k Hk. now apply dict_lookup_set_other.
  - intros d' [= <-]. eexists. split; [apply dict_lookup_set_same|].
    intros k Hk. now apply dict_lookup_set_other.
Qed.

(** Theming a chart keeps its items other than [data] and [options], and
    its labels. *)
Lemma theme_chart_keeps (chart chart' : pyval) :
  theme_chart chart = Ok chart' ->
  (forall k v, k <> "data" -> k <> "options" ->
     py_getitem chart k = Ok v -> py_getitem chart' k = Ok v) /\
  (forall labels, labels_of chart = Some labels -> labels_of chart' = Some labels).
Proof.
  intros H. rewrite theme_chart_eq in H.
  inv_bind H as ct Hct. inv_bind H as items Hitems. inv_bind H as themed Hloop.
  destruct chart as [| | | | | |c]; try discriminate Hct.
  destruct (store_datasets_keeps c themed) as (c1 & Hc1 & Hsame & Hdata).
  rewrite Hc1 in H.
  destruct (theme_options_sets _ _ H) as [[o ->] _].
  split.
  - intros k v Hk1 Hk2 Hv. cbn in Hv |- *.
    rewrite dict_lookup_set_other by assumption.
    now rewrite Hsame by assumption.
  - intros labels Hl. unfold labels_of in Hl |- *. cbn in Hl |- *.
    rewrite dict_lookup_set_other by discriminate.
    destruct (dict_lookup "data" c) as [[| | | | | |d]|] eqn:Hd; try discriminate Hl.
    destruct (Hdata d eq_refl) as (d1 & -> & Hd1). cbn in Hl |- *.
    now rewrite Hd1 by discriminate.
Qed.

Lemma theme_chart_frame (chart chart' : pyval) :
  chart_shape chart -> theme_chart chart = Ok chart' -> chart_frame chart chart'.
Proof.
  intros Hshape H. split; [|split].
  - destruct (chart_shape_datasets _ Hshape) as [datasets Hds].
    destruct (theme_chart_datasets _ _ _ H Hds) as (ct & datasets' & _ & Hds' & Hall).
    exists datasets, datasets'. repeat split; try assumption.
    eapply Forall2_impl; [|exact Hall].
    intros x y Hxy. unfold dataset_frame. eapply theme_dataset_frame. exact Hxy.
  - intros k v. now apply theme_chart_plugins.
  - now apply theme_chart_keeps.
Qed.

(** ** The colours of the segments *)

Lemma theme_dataset_background (chart_type : pyval) (x : list (string * pyval))
    (xs : list pyval) (dataset' : pyval) :
  is_pie_or_doughnut chart_type = true ->
  dict_mem "backgroundColor" x = false ->
  dict_lookup "data" x = Some (PList xs) ->
  theme_dataset chart_type (PDict x) = Ok dataset' ->
  py_getitem dataset' "backgroundColor" = Ok (PList (palette_cycle (List.length xs))).
Proof.
  intros Hpie Hbg Hdata H. rewrite theme_dataset_dict, Hbg in H.
  unfold background_for in H. rewrite Hpie in H. cbn in H.
  rewrite Hdata in H. cbn in H. injection H as <-. cbn.
  rewrite (ensure_lookup_keeps "backgroundColor" "borderWidth" _
             (PList (segment_colors (List.length xs)))).
  - now rewrite segment_colors_cycle.
  - apply ensure_lookup_keeps, dict_lookup_set_same.
Qed.

(** C7: in a chart of type [pie] or [doughnut], a dataset without a
    [backgroundColor] is given one by [apply_visualization_rules]: a list
    with one colour for each data point, which is the palette of six
    colours repeated from its first entry and cut to that length. *)
Theorem apply_visualization_rules_segment_colors
    (config result chart : pyval) (charts datasets xs : list pyval)
    (x : list (string * pyval)) (i j : nat) :
  apply_visualization_rules config = Ok result ->
  charts_of config = Some charts ->
  nth_error charts i = Some chart ->
  py_getitem chart "type" = Ok (PStr "pie") \/
  py_getitem chart "type" = Ok (PStr "doughnut") ->
  datasets_of chart = Some datasets ->
  nth_error datasets j = Some (PDict x) ->
  dict_mem "backgroundColor" x = false ->
  dict_lookup "data" x = Some (PList xs) ->
  exists charts' chart' datasets' dataset',
    charts_of result = Some charts' /\
    nth_error charts' i = Some chart' /\
    datasets_of chart' = Some datasets' /\
    nth_error datasets' j = Some dataset' /\
    py_getitem dataset' "backgroundColor" =
      Ok (PList (palette_cycle (List.length xs))) /\
    List.length (palette_cycle (List.length xs)) = List.length xs /\
    forall n, n < List.length xs ->
      nth_error (palette_cycle (List.length xs)) n = nth_error colors (n mod 6).
Proof.
  intros H Hcharts Hchart Htype Hds Hx Hbg Hdata.
  destruct (apply_visualization_rules_charts _ _ _ H Hcharts)
    as (c & charts' & -> & -> & Hloop).
  destruct (Forall2_nth_error _ _ _ _ _ Hloop Hchart) as (chart' & Hchart' & Htheme).
  destruct (theme_chart_datasets _ _ _ Htheme Hds)
    as (ct & datasets' & Hct & Hds' & Hall).
  destruct (Forall2_nth_error _ _ _ _ _ Hall Hx) as (dataset' & Hx' & Hdataset).
  assert (Hpie : is_pie_or_doughnut ct = true).
  { destruct chart as [| | | | | |cd];
      try (destruct Htype as [Ht | Ht]; discriminate Ht).
    cbn in Htype, Hct.
    destruct (dict_lookup "type" cd) as [t|];
      [|destruct Htype as [Ht | Ht]; discriminate Ht].
    injection Hct as <-.
    destruct Htype as [[= ->] | [= ->]]; reflexivity. }
  exists charts', chart', datasets', dataset'.
  split; [apply charts_of_set|]. repeat split; try assumption.
  - eapply theme_dataset_background; eassumption.
  - apply palette_cycle_length.
  - intros n Hn. now apply palette_cycle_nth.
Qed.

(** C7, at scenario D: the four segments get the first four colours of the
    palette, in order. *)
Lemma apply_visualization_rules_segment_colors_witness :
  (exists charts' chart' datasets' dataset',
      (exists result,
          apply_visualization_rules pie_document = Ok result /\
          charts_of result = Some charts') /\
      nth_error charts' 0 = Some chart' /\
      datasets_of chart' = Some datasets' /\
      nth_error datasets' 0 = Some dataset' /\
      py_getitem dataset' "backgroundColor" = Ok (PList (palette_cycle 4))) /\
  palette_cycle 4 =
    [ PStr "rgba(212, 175, 55, 0.8)"; PStr "rgba(255, 215, 0, 0.8)";
      PStr "rgba(212, 175, 55, 0.6)"; PStr "rgba(255, 215, 0, 0.6)" ].
Proof.
  split; [|reflexivity].
  destruct (apply_visualization_rules_segment_colors
              pie_document _ pie_chart [pie_chart] [PDict pie_dataset]
              pie_points pie_dataset 0 0
              eq_refl eq_refl eq_refl (or_introl eq_refl) eq_refl eq_refl
              eq_refl eq_refl)
    as (charts' & chart' & datasets' & dataset' & H1 & H2 & H3 & H4 & H5 & _).
  exists charts', chart', datasets', dataset'.
  repeat split; try assumption.
  eexists. split; [reflexivity | exact H1].
Defined.

(** ** Equality of values *)

Lemma float_eq_refl (f : float) : float_eq f f = true.
Proof.
  destruct f as [s|s| |s m e]; try reflexivity.
  - destruct s; reflexivity.
  - unfold float_eq, SFeqb, SFcompare.
    destruct s; rewrite Z.compare_refl, Pos.compare_refl; reflexivity.
Qed.

Lemma py_eq_list (l m : list pyval) :
  Forall2 (fun a b => py_eq a b = true) l m -> py_eq (PList l) (PList m) = true.
Proof.
  induction 1 as [|a b l m Hab _ IH]; [reflexivity|].
  cbn in IH |- *. now rewrite Hab.
Qed.

Lemma py_eq_dict_cons (k : string) (a b : pyval) (d e : list (string * pyval)) :
  py_eq a b = true -> py_eq (PDict d) (PDict e) = true ->
  py_eq (PDict ((k, a) :: d)) (PDict ((k, b) :: e)) = true.
Proof.
  intros Hab Hde. cbn in Hde |- *. now rewrite String.eqb_refl, Hab.
Qed.

Lemma py_eq_refl (v : pyval) : py_eq v v = true.
Proof.
  induction v as [|b|z|f|s|l IH|d IH] using pyval_ind; cbn.
  - reflexivity.
  - destruct b; reflexivity.
  - apply Z.eqb_refl.
  - apply float_eq_refl.
  - apply String.eqb_refl.
  - apply py_eq_list. induction IH; constructor; assumption.
  - induction IH as [|[k v] d Hv _ IHd]; [reflexivity|].
    now apply py_eq_dict_cons.
Qed.

(** Replacing the value of a key by an equal value gives an equal dict. *)
Lemma py_eq_dict_set (k : string) (v v' : pyval) (d : list (string * pyval)) :
  dict_lookup k d = Some v -> py_eq v' v = true ->
  py_eq (PDict (dict_set k v' d)) (PDict d) = true.
Proof.
  intros Hk Hv. induction d as [|[k0 v0] d IH]; [discriminate|].
  cbn in Hk |- *. destruct (String.eqb k k0) eqn:E.
  - injection Hk as ->. apply py_eq_dict_cons; [assumption | apply py_eq_refl].
  - apply py_eq_dict_cons; [apply py_eq_refl | auto].
Qed.

(** ** Repairing a dataset *)

Lemma dict_set_twice (k : string) (v v' : pyval) (d : list (string * pyval)) :
  dict_set k v' (dict_set k v d) = dict_set k v' d.
Proof.
  induction d as [|[k0 v0] d IH]; cbn.
  - now rewrite String.eqb_refl.
  - destruct (String.eqb k k0) eqn:E; cbn; rewrite E; [reflexivity | now rewrite IH].
Qed.

Lemma in_firstn {A : Type} (n : nat) (l : list A) (x : A) :
  In x (firstn n l) -> In x l.
Proof.
  intros H. rewrite <- (firstn_skipn n l). apply in_or_app. now left.
Qed.

Lemma fit_length_length (n : nat) (ys : list pyval) :
  List.length (fit_length n ys) = n.
Proof.
  unfold fit_length.
  destruct (Nat.eqb_spec (List.length ys) n) as [E|E]; [exact E|].
  destruct (Nat.ltb_spec n (List.length ys)) as [L|L].
  - rewrite length_firstn. lia.
  - rewrite length_app, repeat_length. lia.
Qed.

Lemma fit_length_repaired (n : nat) (ys : list pyval) :
  forallb repaired_point ys = true ->
  forallb repaired_point (fit_length n ys) = true.
Proof.
  intros H. unfold fit_length.
  destruct (List.length ys =? n)%nat; [exact H|].
  destruct (n <? List.length ys)%nat.
  - rewrite forallb_forall in *. intros x Hx. apply H.
    eapply in_firstn; eassumption.
  - rewrite forallb_app, H. cbn.
    apply forallb_forall. intros x Hx. apply repeat_spec in Hx. now subst x.
Qed.

Lemma to_number_repaired (x y : pyval) :
  to_number x = Ok y -> repaired_point y = true.
Proof.
  destruct x; cbn; try (intros [= <-]; reflexivity); intros H.
  all: inv_bind H as f Hf; injection H as <-; reflexivity.
Qed.

Lemma mapM_to_number_repaired (xs ys : list pyval) :
  mapM to_number xs = Ok ys -> forallb repaired_point ys = true.
Proof.
  intros H. apply mapM_Forall2 in H.
  apply forallb_forall. intros y Hy.
  eapply Forall2_Forall_r in H; [|intros x y'; apply to_number_repaired].
  rewrite Forall_forall in H. auto.
Qed.

(** Converting the data a second time gives equal data. *)
Lemma to_number_again (y : pyval) :
  repaired_point y = true ->
  exists y', to_number y = Ok y' /\ py_eq y' y = true /\ is_float y' = true.
Proof.
  destruct y as [| |z|f| | |]; try discriminate.
  - destruct z; try discriminate. intros _. eexists. repeat split.
  - intros _. exists (PFloat f).
    split; [reflexivity|]. split; [apply float_eq_refl | reflexivity].
Qed.

Lemma mapM_to_number_again (ys : list pyval) :
  forallb repaired_point ys = true ->
  exists ys', mapM to_number ys = Ok ys' /\
              List.length ys' = List.length ys /\
              py_eq (PList ys') (PList ys) = true /\
              forallb is_float ys' = true.
Proof.
  induction ys as [|y ys IH]; cbn [forallb]; intros H.
  - exists []. repeat split.
  - apply andb_prop in H. destruct H as [Hy Hys].
    destruct (to_number_again y Hy) as (y' & Hy' & Heq & Hfl).
    destruct (IH Hys) as (ys' & Hys' & Hlen & Heqs & Hfls).
    exists (y' :: ys'). cbn [mapM]. rewrite Hy', Hys'. cbn [bind forallb].
    split; [reflexivity|]. split; [cbn; now rewrite Hlen|].
    split; [|now rewrite Hfl].
    cbn in Heqs |- *. now rewrite Heq.
Qed.

(** A float is converted to itself. *)
Lemma mapM_to_number_floats (ys : list pyval) :
  forallb is_float ys = true -> mapM to_number ys = Ok ys.
Proof.
  intros H. apply mapM_fixed. apply Forall_forall. intros y Hy.
  rewrite forallb_forall in H. specialize (H y Hy).
  destruct y; try discriminate H. reflexivity.
Qed.

Section FixDataset.

Variable data : pyval.

Lemma fix_dataset_dict (x : list (string * pyval)) :
  fix_dataset data (PDict x) =
  let x1 := ensure "label" (PStr "Dataset") x in
  match dict_lookup "data" x1 with
  | Some (PList xs) =>
      match mapM to_number xs with
      | Raise _ => Ok None
      | Ok ys =>
          labels <- py_get data "labels" (PList []) ;;
          n <- py_len labels ;;
          Ok (Some (PDict (dict_set "data" (PList (fit_length n ys)) x1)))
      end
  | _ => Ok None
  end.
Proof.
  unfold fix_dataset, ensure, fit_length. cbn.
  destruct (dict_mem "label" x); cbn.
  all: match goal with |- context [dict_mem "data" ?d] =>
         unfold dict_mem at 1; destruct (dict_lookup "data" d) as [dv|] eqn:Hdv
       end; cbn; [|reflexivity].
  all: destruct dv as [| | | | |xs|]; try reflexivity.
  all: destruct (mapM to_number xs) as [ys|]; [|reflexivity]; cbn.
  all: destruct (py_get data "labels" (PList [])) as [labels|]; [|reflexivity]; cbn.
  all: destruct (py_len labels) as [n|]; [|reflexivity]; cbn.
  all: destruct (List.length ys =? n)%nat; cbn; [reflexivity|].
  all: rewrite !dict_set_twice.
  all: match goal with |- context [if ?b then _ else _] => destruct b end.
  all: reflexivity.
Qed.

(** A dataset the repair keeps is a repaired dataset for the number of
    labels of the chart. *)
Lemma fix_dataset_repaired (dataset dataset' : pyval) :
  fix_dataset data dataset = Ok (Some dataset') ->
  exists labels n,
    py_get data "labels" (PList []) = Ok labels /\
    py_len labels = Ok n /\
    repaired_dataset repaired_point n dataset'.
Proof.
  intros H. destruct dataset as [| | | | | |x]; try discriminate H.
  rewrite fix_dataset_dict in H. cbv zeta in H.
  destruct (dict_lookup "data" _) as [[| | | | |xs|]|] eqn:Hdv; try discriminate H.
  destruct (mapM to_number xs) as [ys|] eqn:Hys; [|discriminate H].
  inv_bind H as labels Hlabels. inv_bind H as n Hn. injection H as <-.
  exists labels, n. repeat split; try assumption.
  econstructor.
  - apply dict_mem_set_keeps, ensure_mem.
  - apply dict_lookup_set_same.
  - apply fit_length_length.
  - apply fit_length_repaired. eapply mapM_to_number_repaired. eassumption.
Qed.

(** Repairing a repaired dataset keeps it, with equal data. *)
Lemma fix_dataset_again (dataset labels : pyval) (n : nat) :
  py_get data "labels" (PList []) = Ok labels ->
  py_len labels = Ok n ->
  repaired_dataset repaired_point n dataset ->
  exists dataset',
    fix_dataset data dataset = Ok (Some dataset') /\
    py_eq dataset' dataset = true /\
    repaired_dataset is_float n dataset'.
Proof.
  intros Hlabels Hn [x ys Hlabel Hdata Hlen Hpts].
  rewrite fix_dataset_dict. cbv zeta.
  rewrite (ensure_present _ _ _ Hlabel), Hdata.
  destruct (mapM_to_number_again ys Hpts) as (ys' & -> & Hlen' & Heq & Hfl).
  rewrite Hlabels. cbn. rewrite Hn. cbn.
  assert (Hfit : fit_length n ys' = ys')
    by (unfold fit_length; now rewrite Hlen', Hlen, Nat.eqb_refl).
  rewrite Hfit.
  eexists. split; [reflexivity|]. split.
  - now apply py_eq_dict_set with (v := PList ys).
  - econstructor.
    + now apply dict_mem_set_keeps.
    + apply dict_lookup_set_same.
    + now rewrite Hlen'.
    + exact Hfl.
Qed.

(** Repairing a dataset whose data points are floats changes nothing. *)
Lemma fix_dataset_settled (dataset labels : pyval) (n : nat) :
  py_get data "labels" (PList []) = Ok labels ->
  py_len labels = Ok n ->
  repaired_dataset is_float n dataset ->
  fix_dataset data dataset = Ok (Some dataset).
Proof.
  intros Hlabels Hn [x ys Hlabel Hdata Hlen Hpts].
  rewrite fix_dataset_dict. cbv zeta.
  rewrite (ensure_present _ _ _ Hlabel), Hdata.
  rewrite (mapM_to_number_floats ys Hpts).
  rewrite Hlabels. cbn. rewrite Hn. cbn.
  unfold fit_length. rewrite Hlen, Nat.eqb_refl.
  now rewrite (dict_set_same_value _ _ _ Hdata).
Qed.

(** With a chart whose labels have a length, the turn does not raise. *)
Lemma fix_dataset_total (dataset labels : pyval) (n : nat) :
  py_get data "labels" (PList []) = Ok labels ->
  py_len labels = Ok n ->
  exists r, fix_dataset data dataset = Ok r.
Proof.
  intros Hlabels Hn.
  destruct dataset as [| | | | | |x]; try (eexists; reflexivity).
  rewrite fix_dataset_dict. cbv zeta.
  destruct (dict_lookup "data" _) as [[| | | | |xs|]|]; try (eexists; reflexivity).
  destruct (mapM to_number xs) as [ys|]; [|eexists; reflexivity].
  rewrite Hlabels. cbn. rewrite Hn. cbn. eexists; reflexivity.
Qed.

End FixDataset.

(** ** Repairing a chart *)

Lemma collectM_kept {A B : Type} (f : A -> result (option B)) (l : list A)
    (l' : list B) :
  collectM f l = Ok l' ->
  Forall (fun y => exists x, In x l /\ f x = Ok (Some y)) l'.
Proof.
  revert l'. induction l as [|x l IH]; cbn; intros l' H.
  - injection H as <-. constructor.
  - inv_bind H as r Hr. inv_bind H as rs Hrs. injection H as <-.
    specialize (IH rs Hrs).
    assert (Hrs' : Forall (fun y => exists x0, (x = x0 \/ In x0 l) /\ f x0 = Ok (Some y)) rs).
    { eapply Forall_impl; [|exact IH]. intros y (x0 & Hin & Hf). eauto. }
    destruct r as [y|]; [|exact Hrs'].
    constructor; [eauto | exact Hrs'].
Qed.

Lemma collectM_all_kept {A B : Type} (f : A -> result (option B))
    (R : B -> A -> Prop) (l : list A) :
  Forall (fun x => exists y, f x = Ok (Some y) /\ R y x) l ->
  exists l', collectM f l = Ok l' /\ Forall2 R l' l.
Proof.
  induction 1 as [|x l (y & Hy & Hxy) _ (l' & Hl' & Hall)]; cbn.
  - exists []. split; [reflexivity | constructor].
  - exists (y :: l'). rewrite Hy, Hl'. cbn. split; [reflexivity | now constructor].
Qed.

Lemma Forall2_same {A : Type} (l l' : list A) :
  Forall2 (fun y x => y = x) l l' -> l = l'.
Proof. induction 1; [reflexivity | now f_equal]. Qed.

(** A loop that keeps every item as it is returns the list it ran through. *)
Lemma collectM_fixed {A : Type} (f : A -> result (option A)) (l : list A) :
  Forall (fun x => f x = Ok (Some x)) l -> collectM f l = Ok l.
Proof.
  intros H.
  destruct (collectM_all_kept f (fun y x => y = x) l) as (l' & Hl' & Heq).
  - eapply Forall_impl; [|exact H].
    intros x Hx. exists x. split; [exact Hx | reflexivity].
  - rewrite Hl'. f_equal. now apply Forall2_same.
Qed.

Lemma collectM_total {A B : Type} (f : A -> result (option B)) (l : list A) :
  Forall (fun x => exists r, f x = Ok r) l -> exists l', collectM f l = Ok l'.
Proof.
  induction 1 as [|x l (r & Hr) _ (l' & Hl')]; cbn.
  - eauto.
  - rewrite Hr, Hl'. cbn. eauto.
Qed.

(** The [if 'title' not in chart] step: when it does not raise, the chart
    has a title afterwards and all it had before. *)
Lemma title_step (c : list (string * pyval)) (chart1 : pyval) :
  (if negb (dict_mem "title" c) then
     t <- py_getitem (PDict c) "type" ;;
     s <- py_title t ;;
     py_setitem (PDict c) "title" (PStr (String.append s " Chart"))
   else Ok (PDict c)) = Ok chart1 ->
  exists c1,
    chart1 = PDict c1 /\
    dict_mem "title" c1 = true /\
    (dict_mem "title" c = true -> c1 = c) /\
    forall k, k <> "title" -> dict_lookup k c1 = dict_lookup k c.
Proof.
  destruct (dict_mem "title" c) eqn:Ht; cbn.
  - intros [= <-]. exists c. auto.
  - intros H. inv_bind H as t Ht'. inv_bind H as s Hs. injection H as <-.
    eexists. split; [reflexivity|]. split; [apply dict_mem_set_same|].
    split; [discriminate|].
    intros k Hk. now apply dict_lookup_set_other.
Qed.

(** The [if 'options' not in chart] step. *)
Lemma options_step (c : list (string * pyval)) (chart1 : pyval) :
  (has_options <- py_in "options" (PDict c) ;;
   chart <- (if negb has_options then
               title <- py_getitem (PDict c) "title" ;;
               py_setitem (PDict c) "options" (default_options title)
             else Ok (PDict c)) ;;
   Ok (Some chart)) = Ok (Some chart1) ->
  exists c1,
    chart1 = PDict c1 /\
    dict_mem "options" c1 = true /\
    (dict_mem "options" c = true -> c1 = c) /\
    forall k, k <> "options" -> dict_lookup k c1 = dict_lookup k c.
Proof.
  cbn. destruct (dict_mem "options" c) eqn:Ho; cbn.
  - intros [= <-]. exists c. auto.
  - intros H. inv_bind H as ch Hch. injection H as <-.
    inv_bind Hch as t Ht. cbn in Hch. injection Hch as <-.
    eexists. split; [reflexivity|]. split; [apply dict_mem_set_same|].
    split; [discriminate|].
    intros k Hk. now apply dict_lookup_set_other.
Qed.

Lemma dict_mem_eq_lookup (k : string) (c c' : list (string * pyval)) :
  dict_lookup k c' = dict_lookup k c -> dict_mem k c' = dict_mem k c.
Proof. unfold dict_mem. now intros ->. Qed.

(** A chart the repair keeps is a repaired chart. *)
Lemma fix_chart_repaired (chart chart' : pyval) :
  fix_chart chart = Ok (Some chart') -> repaired_chart repaired_point chart'.
Proof.
  intros H. destruct chart as [| | | | | |c]; try discriminate H.
  unfold fix_chart in H. cbn in H.
  destruct (dict_mem "type" c) eqn:Htype; cbn in H; [|discriminate H].
  destruct (dict_mem "data" c) eqn:Hdata; cbn in H; [|discriminate H].
  inv_bind H as chart1 Htitle.
  destruct (title_step _ _ Htitle) as (c1 & -> & Htitle1 & _ & Hsame1).
  inv_bind H as data Hget.
  inv_bind H as has_labels Hlabels. inv_bind H as missing Hmissing.
  destruct missing; [discriminate H|].
  inv_bind H as datasets Hdatasets. inv_bind H as items Hitems.
  inv_bind H as fixed Hfixed.
  destruct data as [| | | | | |d]; try discriminate Hdatasets.
  cbn in Hlabels. injection Hlabels as <-.
  destruct (dict_mem "labels" d) eqn:Hl; cbn in Hmissing; [|discriminate Hmissing].
  destruct (dict_mem "datasets" d) eqn:Hd; cbn in Hmissing; [|discriminate Hmissing].
  destruct (dict_mem_lookup _ _ Hl) as [labels Hlabels].
  cbn in Hget.
  destruct (dict_lookup "data" c1) as [dv|] eqn:Hdv.
  2:{ rewrite Hsame1 in Hdv by discriminate.
      apply dict_mem_lookup in Hdata. destruct Hdata; congruence. }
  injection Hget as ->.
  destruct fixed as [|ds0 fixed]; [discriminate H|].
  cbn [py_setitem bind] in H.
  destruct (options_step _ _ H) as (c3 & -> & Hoptions & _ & Hsame3).
  apply collectM_kept in Hfixed.
  assert (Hn : exists n, py_len labels = Ok n /\
                         Forall (repaired_dataset repaired_point n) (ds0 :: fixed)).
  { inversion Hfixed as [|? ? (x0 & _ & Hx0) _]; subst.
    destruct (fix_dataset_repaired _ _ _ Hx0) as (labels0 & n & Hl0 & Hn & _).
    cbn in Hl0. rewrite Hlabels in Hl0. injection Hl0 as <-.
    exists n. split; [assumption|].
    eapply Forall_impl; [|exact Hfixed].
    intros y (x & _ & Hx).
    destruct (fix_dataset_repaired _ _ _ Hx) as (labels1 & n1 & Hl1 & Hn1 & Hrep).
    cbn in Hl1. rewrite Hlabels in Hl1. injection Hl1 as <-.
    rewrite Hn in Hn1. now injection Hn1 as <-. }
  destruct Hn as (n & Hn & Hall).
  eapply repaired_chart_intro with (labels := labels) (n := n)
    (d := dict_set "datasets" (PList (ds0 :: fixed)) d).
  - erewrite dict_mem_eq_lookup by (apply Hsame3; discriminate).
    apply dict_mem_set_keeps.
    erewrite dict_mem_eq_lookup by (apply Hsame1; discriminate). exact Htype.
  - erewrite dict_mem_eq_lookup by (apply Hsame3; discriminate).
    now apply dict_mem_set_keeps.
  - exact Hoptions.
  - rewrite Hsame3 by discriminate. apply dict_lookup_set_same.
  - now rewrite dict_lookup_set_other by discriminate.
  - exact Hn.
  - apply dict_lookup_set_same.
  - discriminate.
  - exact Hall.
Qed.

(** What [fix_chart] does on a chart that has all the repair asks for,
    given what the loop over its datasets returns. *)
Lemma fix_chart_kept (point : pyval -> bool) (c d : list (string * pyval))
    (datasets fixed : list pyval) (y : pyval) :
  dict_mem "type" c = true ->
  dict_mem "title" c = true ->
  dict_mem "options" c = true ->
  dict_lookup "data" c = Some (PDict d) ->
  dict_mem "labels" d = true ->
  dict_lookup "datasets" d = Some (PList datasets) ->
  collectM (fix_dataset (PDict d)) datasets = Ok (y :: fixed) ->
  fix_chart (PDict c) =
  Ok (Some (PDict (dict_set "data"
                     (PDict (dict_set "datasets" (PList (y :: fixed)) d)) c))).
Proof.
  intros Htype Htitle Hoptions Hdata Hlabels Hds Hfixed.
  unfold fix_chart. cbn. rewrite Htype. cbn. rewrite (dict_mem_true _ _ _ Hdata).
  cbn. rewrite Htitle. cbn. rewrite Hdata. cbn. rewrite Hlabels. cbn.
  rewrite (dict_mem_true _ _ _ Hds). cbn. rewrite Hds. cbn.
  rewrite Hfixed. cbn.
  now rewrite (dict_mem_set_keeps _ "data" _ _ Hoptions).
Qed.

(** Repairing a repaired chart keeps it, with equal datasets, whose data
    points are floats. *)
Lemma fix_chart_again (chart : pyval) :
  repaired_chart repaired_point chart ->
  exists chart',
    fix_chart chart = Ok (Some chart') /\
    py_eq chart' chart = true /\
    repaired_chart is_float chart'.
Proof.
  intros [c d labels n datasets Htype Htitle Hoptions Hdata Hlabels Hn Hds Hne Hall].
  assert (Hloop : exists fixed,
             collectM (fix_dataset (PDict d)) datasets = Ok fixed /\
             Forall2 (fun y x => py_eq y x = true /\
                                 repaired_dataset is_float n y) fixed datasets).
  { apply collectM_all_kept. eapply Forall_impl; [|exact Hall].
    intros x Hx. eapply fix_dataset_again; [|exact Hn|exact Hx].
    cbn. now rewrite Hlabels. }
  destruct Hloop as (fixed & Hfixed & Heq).
  destruct fixed as [|y fixed].
  { inversion Heq; subst. contradiction. }
  rewrite (fix_chart_kept is_float c d datasets fixed y); try assumption;
    [|now apply dict_mem_true with (v := labels)].
  eexists. split; [reflexivity|]. split.
  - apply py_eq_dict_set with (v := PDict d); [assumption|].
    apply py_eq_dict_set with (v := PList datasets); [assumption|].
    apply py_eq_list. eapply Forall2_impl; [|exact Heq]. now intros a b [Hab _].
  - eapply repaired_chart_intro with (labels := labels) (n := n)
      (d := dict_set "datasets" (PList (y :: fixed)) d).
    + now apply dict_mem_set_keeps.
    + now apply dict_mem_set_keeps.
    + now apply dict_mem_set_keeps.
    + apply dict_lookup_set_same.
    + now rewrite dict_lookup_set_other by discriminate.
    + exact Hn.
    + apply dict_lookup_set_same.
    + discriminate.
    + apply Forall2_flip in Heq.
      eapply Forall2_Forall_r; [|exact Heq]. now intros a b [_ Hb].
Qed.

(** Repairing a chart whose data points are floats changes nothing. *)
Lemma fix_chart_settled (chart : pyval) :
  repaired_chart is_float chart -> fix_chart chart = Ok (Some chart).
Proof.
  intros [c d labels n datasets Htype Htitle Hoptions Hdata Hlabels Hn Hds Hne Hall].
  assert (Hloop : collectM (fix_dataset (PDict d)) datasets = Ok datasets).
  { apply collectM_fixed. eapply Forall_impl; [|exact Hall].
    intros x Hx. eapply fix_dataset_settled; [|exact Hn|exact Hx].
    cbn. now rewrite Hlabels. }
  destruct datasets as [|y datasets]; [contradiction|].
  rewrite (fix_chart_kept is_float c d (y :: datasets) datasets y); try assumption;
    [|now apply dict_mem_true with (v := labels)].
  rewrite (dict_set_same_value _ _ _ Hds).
  now rewrite (dict_set_same_value _ _ _ Hdata).
Qed.

(** ** Repairing a document *)

(** The result of [fix_common_issues] on a dict: the dict with its charts
    replaced by the charts that are kept, which are repaired charts. *)
Lemma fix_common_issues_dict (c : list (string * pyval)) (result : pyval) :
  fix_common_issues (PDict c) = Ok result ->
  exists charts,
    result = PDict (dict_set "charts" (PList charts) c) /\
    Forall (repaired_chart repaired_point) charts.
Proof.
  unfold fix_common_issues. cbn. intros H.
  inv_bind H as charts Hcharts. inv_bind H as items Hitems.
  inv_bind H as fixed Hfixed. injection H as <-.
  exists fixed. split; [reflexivity|].
  apply collectM_kept in Hfixed.
  eapply Forall_impl; [|exact Hfixed].
  intros y (x & _ & Hx). eapply fix_chart_repaired. exact Hx.
Qed.

(** C9: [fix_common_issues] has nothing left to do on its own output.
    When it returns a document, running it on that document returns again,
    and the two documents are equal for [==]: same charts, same datasets,
    same data points, a padding [0] being read as the float [0.0].  From
    there on the document does not change at all. *)
Theorem fix_common_issues_fixed_point (config result : pyval) :
  fix_common_issues config = Ok result ->
  exists result',
    fix_common_issues result = Ok result' /\
    py_eq result' result = true /\
    fix_common_issues result' = Ok result'.
Proof.
  intros H. destruct (is_dict config) eqn:Hdict.
  - destruct config as [| | | | | |c]; try discriminate Hdict.
    destruct (fix_common_issues_dict _ _ H) as (charts & -> & Hall).
    assert (Hloop : exists fixed,
               collectM fix_chart charts = Ok fixed /\
               Forall2 (fun y x => py_eq y x = true /\ repaired_chart is_float y)
                       fixed charts).
    { apply collectM_all_kept. eapply Forall_impl; [|exact Hall].
      intros x. apply fix_chart_again. }
    destruct Hloop as (fixed & Hfixed & Heq).
    assert (Hsettled : collectM fix_chart fixed = Ok fixed).
    { apply collectM_fixed. apply Forall2_flip in Heq.
      eapply Forall2_Forall_r; [|exact Heq].
      intros a b [_ Hb]. now apply fix_chart_settled. }
    unfold fix_common_issues. cbn. rewrite dict_lookup_set_same. cbn.
    rewrite Hfixed. cbn. eexists. split; [reflexivity|]. split.
    + apply py_eq_dict_set with (v := PList charts);
        [apply dict_lookup_set_same|].
      apply py_eq_list. eapply Forall2_impl; [|exact Heq]. now intros a b [Hab _].
    + cbn. rewrite dict_lookup_set_same. cbn. rewrite Hsettled. cbn.
      now rewrite dict_set_twice.
  - unfold fix_common_issues in H. rewrite Hdict in H. injection H as <-.
    exists config. unfold fix_common_issues. rewrite Hdict.
    split; [reflexivity|]. split; [apply py_eq_refl | reflexivity].
Qed.

(** C9, at the document of scenario B. *)
Lemma fix_common_issues_fixed_point_witness :
  exists result result',
    fix_common_issues
      (one_chart_document "Sales by quarter" "bar" "Sales" "Revenue" quarters
         [PInt 10; PInt 20]) = Ok result /\
    fix_common_issues result = Ok result' /\
    py_eq result' result = true /\
    fix_common_issues result' = Ok result'.
Proof.
  eexists.
  destruct (fix_common_issues_fixed_point
              (one_chart_document "Sales by quarter" "bar" "Sales" "Revenue"
                 quarters [PInt 10; PInt 20]) _ eq_refl)
    as (result' & H1 & H2 & H3).
  exists result'. split; [reflexivity|]. split; [assumption|]. split; assumption.
Defined.

(** ** Where the repair returns *)

Lemma sized_len (v : pyval) : sized v = true -> exists n, py_len v = Ok n.
Proof. destruct v; try discriminate; cbn; eauto. Qed.

Lemma sized_iter (v : pyval) : sized v = true -> exists l, py_iter v = Ok l.
Proof. destruct v; try discriminate; cbn; eauto. Qed.

Lemma fix_chart_total (chart : pyval) :
  chart_tolerated chart = true -> exists r, fix_chart chart = Ok r.
Proof.
  intros H. destruct chart as [| | | | | |c]; try (eexists; reflexivity).
  cbn in H.
  destruct (dict_lookup "type" c) as [t|] eqn:Htype.
  2:{ unfold fix_chart. cbn. unfold dict_mem. rewrite Htype. cbn. eauto. }
  destruct (dict_lookup "data" c) as [data|] eqn:Hdata.
  2:{ unfold fix_chart. cbn. unfold dict_mem. rewrite Htype, Hdata. cbn. eauto. }
  apply andb_prop in H. destruct H as [Htitle Hshape].
  destruct data as [| | | | | |d]; try discriminate Hshape.
  unfold fix_chart. cbn.
  rewrite (dict_mem_true _ _ _ Htype), (dict_mem_true _ _ _ Hdata). cbn.
  destruct (dict_mem "title" c) eqn:Ht; cbn.
  2: (rewrite Htype; cbn; cbn in Htitle; destruct t; try discriminate Htitle;
      cbn; rewrite dict_lookup_set_other by discriminate).
  all: rewrite Hdata; cbn; unfold dict_mem at 1 2.
  all: destruct (dict_lookup "labels" d) as [labels|] eqn:Hlabels; cbn; [|eauto].
  all: destruct (dict_lookup "datasets" d) as [datasets|] eqn:Hdatasets; cbn;
    [|eauto].
  all: apply andb_prop in Hshape; destruct Hshape as [Hl Hd].
  all: destruct (sized_iter _ Hd) as [items ->]; cbn.
  all: destruct (sized_len _ Hl) as [n Hn].
  all: destruct (collectM_total (fix_dataset (PDict d)) items) as [fixed ->];
    [apply Forall_forall; intros x _;
     eapply fix_dataset_total; [cbn; now rewrite Hlabels | exact Hn] |].
  all: cbn; destruct fixed as [|y fixed]; [eauto|].
  all: cbn; destruct (dict_mem "options" _); cbn; [eauto|].
  all: rewrite dict_lookup_set_other by discriminate.
  - destruct (dict_mem_lookup _ _ Ht) as [tv ->]. cbn. eauto.
  - rewrite dict_lookup_set_same. cbn. eauto.
Qed.

(** C3, as the code has it: [fix_common_issues] returns a value that is not
    a dict as it is; and for a dict whose chart entries are tolerated it
    returns the dict with [charts] set to the list of the charts that are
    kept, each of them repaired, a list that may be empty. *)
Theorem fix_common_issues_returns (config : pyval) :
  repairable config = true ->
  exists result,
    fix_common_issues config = Ok result /\
    (is_dict config = false -> result = config) /\
    (forall c, config = PDict c ->
       exists charts,
         result = PDict (dict_set "charts" (PList charts) c) /\
         Forall (repaired_chart repaired_point) charts).
Proof.
  intros H. destruct (is_dict config) eqn:Hdict.
  - destruct config as [| | | | | |c]; try discriminate Hdict.
    assert (Hret : exists result, fix_common_issues (PDict c) = Ok result).
    { unfold fix_common_issues. cbn. cbn in H.
      destruct (dict_lookup "charts" c) as [cv|]; cbn; [|eauto].
      assert (Hitems : exists items,
                 py_iter cv = Ok items /\ forallb chart_tolerated items = true).
      { destruct cv as [| | | |s|l|d]; try discriminate H; cbn.
        - eexists. split; [reflexivity|].
          apply forallb_forall. intros x Hx. apply in_map_iff in Hx.
          now destruct Hx as [a [<- _]].
        - eauto.
        - eexists. split; [reflexivity|].
          apply forallb_forall. intros x Hx. apply in_map_iff in Hx.
          now destruct Hx as [a [<- _]]. }
      destruct Hitems as (items & -> & Hall). cbn.
      destruct (collectM_total fix_chart items) as [fixed ->]; [|cbn; eauto].
      apply Forall_forall. intros x Hx. apply fix_chart_total.
      rewrite forallb_forall in Hall. auto. }
    destruct Hret as [result Hret]. exists result.
    split; [assumption|]. split; [discriminate|].
    intros c' [= <-]. now apply fix_common_issues_dict.
  - exists config. unfold fix_common_issues. rewrite Hdict.
    split; [reflexivity|]. split; [reflexivity|].
    intros c ->. discriminate Hdict.
Qed.

(** C3, at the document of scenario C, whose only chart is dropped. *)
Lemma fix_common_issues_returns_witness :
  exists result,
    fix_common_issues
      (one_chart_document "Sales by quarter" "bar" "Sales" "Revenue" quarters
         [PStr "a"; PInt 5; PNone]) = Ok result /\
    charts_of result = Some [].
Proof.
  destruct (fix_common_issues_returns
              (one_chart_document "Sales by quarter" "bar" "Sales" "Revenue"
                 quarters [PStr "a"; PInt 5; PNone]) eq_refl)
    as (result & Hret & _ & _).
  exists result. split; [exact Hret|].
  injection Hret as <-. reflexivity.
Defined.

(** C3 does not hold as it is stated.  For a chart entry whose type is not
    a [str] and that has data but no title, [chart['type'].title()] raises
    [AttributeError], which nothing catches; and for an input that is not a
    dict the result is the input itself, which carries no list of charts. *)
Lemma fix_common_issues_raises :
  fix_common_issues malformed_document = Raise AttributeError /\
  ~ (exists result, fix_common_issues malformed_document = Ok result) /\
  fix_common_issues (PInt 5) = Ok (PInt 5) /\
  charts_of (PInt 5) = None.
Proof.
  split; [reflexivity|]. split; [|split; reflexivity].
  intros [result H]. discriminate H.
Qed.

(** ** Where theming returns *)

Lemma theme_dataset_total (chart_type dataset : pyval) :
  dataset_shape dataset ->
  exists dataset', theme_dataset chart_type dataset = Ok dataset'.
Proof.
  intros [x xs Hdata _]. rewrite theme_dataset_dict.
  destruct (dict_mem "backgroundColor" x); [eauto|].
  unfold background_for. destruct (is_pie_or_doughnut chart_type); cbn; [|eauto].
  rewrite Hdata. cbn. eauto.
Qed.

Lemma theme_options_total (c : list (string * pyval)) :
  plugins_mapping (PDict c) = true ->
  exists chart', theme_options (PDict c) = Ok chart'.
Proof.
  intros H. cbn in H. unfold theme_options. cbn.
  destruct (dict_lookup "title" c) as [text|];
    (destruct (dict_lookup "options" c) as [o|]; cbn; [|eauto]).
  all: destruct o as [| | | | | |o]; try discriminate H; cbn.
  all: unfold dict_mem at 1.
  all: destruct (dict_lookup "plugins" o) as [p|] eqn:Hp; cbn;
    rewrite ?Hp, ?dict_lookup_set_same; cbn.
  all: try (destruct p as [| | | | | |p]; try discriminate H; cbn).
  all: repeat (match goal with
               | |- context [dict_mem ?k ?d] => destruct (dict_mem k d)
               end; cbn; rewrite ?Hp, ?dict_lookup_set_same; cbn).
  all: repeat (rewrite dict_lookup_set_same; cbn).
  all: eauto.
Qed.

Lemma theme_chart_total (chart : pyval) :
  chart_shape chart -> plugins_mapping chart = true ->
  exists chart', theme_chart chart = Ok chart'.
Proof.
  intros Hshape Hplugins.
  destruct Hshape as [c d title labels datasets _ Hdata _ Hdatasets Hall].
  rewrite theme_chart_eq.
  destruct (py_get_dict_ok c "type" (PStr "bar")) as [ct ->]. cbn [bind].
  assert (Hitems : chart_items (PDict c) = Ok datasets)
    by (unfold chart_items; cbn; rewrite Hdata; cbn; now rewrite Hdatasets).
  rewrite Hitems. cbn [bind].
  assert (Hloop : exists themed, mapM (theme_dataset ct) datasets = Ok themed).
  { clear Hdatasets Hitems. induction Hall as [|x l Hx _ [themed IH]]; cbn; [eauto|].
    destruct (theme_dataset_total ct x Hx) as [x' ->]. cbn. rewrite IH. cbn. eauto. }
  destruct Hloop as [themed ->]. cbn [bind].
  destruct (store_datasets_keeps c themed) as (c1 & -> & Hsame & _).
  apply theme_options_total. cbn in Hplugins |- *.
  now rewrite Hsame by discriminate.
Qed.

(** Theming returns for a valid document in which the [options.plugins] of
    every chart, when present, is a dict. *)
Lemma apply_visualization_rules_returns (config : pyval) (charts : list pyval) :
  validate_config config = Ok (true, Text "") ->
  charts_of config = Some charts ->
  forallb plugins_mapping charts = true ->
  exists result, apply_visualization_rules config = Ok result.
Proof.
  intros Hvalid Hcharts Hplugins. apply validate_config_accepts in Hvalid.
  destruct Hvalid as (c & charts0 & -> & Hc & Hshape & _).
  unfold charts_of in Hcharts. cbn in Hcharts. rewrite Hc in Hcharts.
  injection Hcharts as ->.
  inversion Hshape as [c' charts1 Hc1 _ Hall]; subst.
  rewrite Hc in Hc1. injection Hc1 as <-.
  unfold apply_visualization_rules.
  rewrite (dict_mem_true _ _ _ Hc). cbn. rewrite Hc. cbn.
  assert (Hloop : exists themed, mapM theme_chart charts = Ok themed).
  { clear Hc Hshape. induction Hall as [|x l Hx _ IH]; cbn; [eauto|].
    cbn in Hplugins. apply andb_prop in Hplugins. destruct Hplugins as [Hp Hps].
    destruct (theme_chart_total x Hx Hp) as [x' ->]. cbn.
    destruct (IH Hps) as [themed ->]. cbn. eauto. }
  destruct Hloop as [themed ->]. cbn. eauto.
Qed.

(** * Further properties *)

(** ** What [validate_config] accepts and why it rejects *)

Lemma is_number_int_or_float (xs : list pyval) :
  forallb is_number xs = true -> forallb is_int_or_float xs = true.
Proof.
  apply forallb_impl. intros [] H; try discriminate H; reflexivity.
Qed.

Lemma validate_datasets_pass (chart : pyval) (n : nat) (datasets : list pyval) :
  Forall dataset_shape datasets ->
  (forall dataset, In dataset datasets ->
     exists xs, data_of dataset = Some xs /\ List.length xs = n) ->
  validate_datasets chart n datasets = Ok None.
Proof.
  induction 1 as [|ds rest Hds _ IH]; intros Hlen; [reflexivity|].
  destruct Hds as [x xs Hdata Hnum].
  destruct (Hlen (PDict x) (or_introl eq_refl)) as (xs' & Hxs' & Hn).
  unfold data_of in Hxs'. cbn in Hxs'. rewrite Hdata in Hxs'.
  injection Hxs' as <-.
  cbn. rewrite Hdata. cbn. rewrite Hn, Nat.eqb_refl. cbn.
  rewrite (is_number_int_or_float _ Hnum). cbn.
  apply IH. intros dataset Hin. apply Hlen. now right.
Qed.

Lemma validate_charts_pass (charts : list pyval) :
  Forall chart_shape charts ->
  (forall chart, In chart charts -> lengths_agree chart) ->
  validate_charts charts = Ok None.
Proof.
  induction 1 as [|chart rest Hchart _ IH]; intros Hagree; [reflexivity|].
  destruct (Hagree chart (or_introl eq_refl)) as (labels' & datasets' & Hl & Hd & Hlen).
  destruct Hchart as [c d title labels datasets Htitle Hdata Hlabels Hdatasets Hshape].
  unfold labels_of, datasets_of in Hl, Hd. cbn in Hl, Hd.
  rewrite Hdata in Hl, Hd. cbn in Hl, Hd. rewrite Hlabels in Hl.
  rewrite Hdatasets in Hd. injection Hl as <-. injection Hd as <-.
  cbn. rewrite Hdata. cbn. rewrite Hlabels, Hdatasets. cbn.
  rewrite (validate_datasets_pass _ _ _ Hshape Hlen). cbn.
  apply IH. intros ch Hin. apply Hagree. now right.
Qed.

(** X1: [validate_config] returns [(True, "")] exactly for the documents
    that satisfy the schema and in which every dataset has as many data
    points as its chart has labels. *)
Theorem validate_config_accepts_iff (config : pyval) :
  validate_config config = Ok (true, Text "") <->
  valid CHART_CONFIG_SCHEMA config = true /\
  exists charts,
    charts_of config = Some charts /\
    forall chart, In chart charts -> lengths_agree chart.
Proof.
  split.
  - intros H. split.
    + unfold validate_config, try_except, validate_config_body, validate in H.
      destruct (valid CHART_CONFIG_SCHEMA config); [reflexivity | discriminate H].
    + apply validate_config_accepts in H.
      destruct H as (c & charts & -> & Hc & Hshape & Hloop).
      inversion Hshape as [c' charts' Hc' _ Hall]; subst.
      rewrite Hc in Hc'. injection Hc' as <-.
      exists charts. unfold charts_of. cbn. rewrite Hc. split; [reflexivity|].
      now apply validate_charts_none.
  - intros [Hvalid (charts & Hcharts & Hagree)].
    pose proof (valid_document_shape _ Hvalid) as Hshape.
    destruct Hshape as [c charts' Hc _ Hall].
    unfold charts_of in Hcharts. cbn in Hcharts. rewrite Hc in Hcharts.
    injection Hcharts as ->.
    unfold validate_config, try_except, validate_config_body, validate.
    rewrite Hvalid. cbn. rewrite Hc. cbn.
    now rewrite (validate_charts_pass _ Hall Hagree).
Qed.

Lemma validate_datasets_outcome (chart title : pyval) (n : nat)
    (datasets : list pyval) :
  py_getitem chart "title" = Ok title ->
  Forall dataset_shape datasets ->
  validate_datasets chart n datasets = Ok None \/
  exists dataset xs,
    In dataset datasets /\
    data_of dataset = Some xs /\
    List.length xs <> n /\
    validate_datasets chart n datasets =
      Ok (Some (false, length_mismatch_message (List.length xs) n title)).
Proof.
  intros Htitle. induction 1 as [|ds rest Hds _ IH]; [now left|].
  destruct Hds as [x xs Hdata Hnum].
  cbn. rewrite Hdata. cbn.
  destruct (Nat.eqb_spec (List.length xs) n) as [Hn | Hn]; cbn.
  - rewrite (is_number_int_or_float _ Hnum). cbn.
    destruct IH as [IH | (dataset & xs' & Hin & Hxs' & Hne & IH)]; [now left|].
    right. exists dataset, xs'. auto.
  - right. exists (PDict x), xs. rewrite Htitle. cbn.
    repeat split; auto.
    unfold data_of. cbn. now rewrite Hdata.
Qed.

Lemma validate_charts_outcome (charts : list pyval) :
  Forall chart_shape charts ->
  validate_charts charts = Ok None \/
  exists chart labels datasets dataset xs title,
    In chart charts /\
    labels_of chart = Some labels /\
    datasets_of chart = Some datasets /\
    In dataset datasets /\
    data_of dataset = Some xs /\
    List.length xs <> List.length labels /\
    py_getitem chart "title" = Ok title /\
    validate_charts charts =
      Ok (Some (false,
                length_mismatch_message (List.length xs) (List.length labels) title)).
Proof.
  induction 1 as [|chart rest Hchart _ IH]; [now left|].
  destruct Hchart as [c d title labels datasets Htitle Hdata Hlabels Hdatasets Hshape].
  assert (Ht : py_getitem (PDict c) "title" = Ok (PStr title))
    by (cbn; now rewrite Htitle).
  cbn [validate_charts]. cbn. rewrite Hdata. cbn. rewrite Hlabels, Hdatasets. cbn.
  destruct (validate_datasets_outcome (PDict c) (PStr title) (List.length labels)
              datasets Ht Hshape) as [Hloop | (dataset & xs & Hin & Hxs & Hne & Hloop)].
  - rewrite Hloop. cbn.
    destruct IH as [IH | (chart & labels' & datasets' & dataset & xs & title' &
                          Hin & Hl & Hd & Hds & Hxs & Hne & Ht' & IH)];
      [now left|].
    right. exists chart, labels', datasets', dataset, xs, title'.
    repeat split; auto.
  - rewrite Hloop. cbn. right.
    exists (PDict c), labels, datasets, dataset, xs, (PStr title).
    unfold labels_of, datasets_of. cbn. rewrite Hdata. cbn.
    rewrite Hlabels, Hdatasets. repeat split; auto.
Qed.

(** X2: when [validate_config] rejects a document, either the document
    does not satisfy the schema and the message is that of the
    [ValidationError], or it satisfies the schema and the message gives the
    title of one of its charts, the length of one of the datasets of that
    chart and the number of its labels, which differ.  No other exception
    reaches the handlers, and the message about values that are not numeric
    is never returned. *)
Theorem validate_config_rejections (config : pyval) (m : message) :
  validate_config config = Ok (false, m) ->
  (valid CHART_CONFIG_SCHEMA config = false /\ m = StrOfExn ValidationError) \/
  (valid CHART_CONFIG_SCHEMA config = true /\
   exists charts chart labels datasets dataset xs title,
     charts_of config = Some charts /\
     In chart charts /\
     labels_of chart = Some labels /\
     datasets_of chart = Some datasets /\
     In dataset datasets /\
     data_of dataset = Some xs /\
     List.length xs <> List.length labels /\
     py_getitem chart "title" = Ok title /\
     m = length_mismatch_message (List.length xs) (List.length labels) title).
Proof.
  intros H. unfold validate_config, try_except, validate_config_body, validate in H.
  destruct (valid CHART_CONFIG_SCHEMA config) eqn:Hvalid.
  - right. split; [reflexivity|].
    destruct (valid_document_shape _ Hvalid) as [c charts Hc _ Hall].
    cbn in H. rewrite Hc in H. cbn in H.
    destruct (validate_charts_outcome charts Hall)
      as [Hloop | (chart & labels & datasets & dataset & xs & title &
                   Hin & Hl & Hd & Hds & Hxs & Hne & Ht & Hloop)];
      rewrite Hloop in H; cbn in H; [discriminate H|].
    injection H as <-.
    exists charts, chart, labels, datasets, dataset, xs, title.
    unfold charts_of. cbn. rewrite Hc. repeat split; auto.
  - left. cbn in H. injection H as <-. auto.
Qed.

(** X2, at the document of scenario B. *)
Lemma validate_config_rejections_witness :
  valid CHART_CONFIG_SCHEMA
    (one_chart_document "Sales by quarter" "bar" "Sales" "Revenue" quarters
       [PInt 10; PInt 20]) = true /\
  validate_config
    (one_chart_document "Sales by quarter" "bar" "Sales" "Revenue" quarters
       [PInt 10; PInt 20])
  = Ok (false, length_mismatch_message 2 3 (PStr "Sales")).
Proof.
  destruct (validate_config_rejections
              (one_chart_document "Sales by quarter" "bar" "Sales" "Revenue"
                 quarters [PInt 10; PInt 20])
              (length_mismatch_message 2 3 (PStr "Sales")) eq_refl)
    as [[H _] | [H _]]; [discriminate H|].
  split; [exact H | reflexivity].
Defined.

(** X3: a value that does not hold a list of one to ten charts under
    [charts] (a value that is not a dict, a dict without [charts], with
    charts that are not a list, with no chart or with more than ten) is
    rejected with the message of the schema's [ValidationError]. *)
Theorem validate_config_chart_count (config : pyval) :
  ~ (exists charts,
        charts_of config = Some charts /\ (1 <= List.length charts <= 10)%nat) ->
  validate_config config = Ok (false, StrOfExn ValidationError).
Proof.
  intros Hnot.
  unfold validate_config, try_except, validate_config_body, validate.
  destruct (valid CHART_CONFIG_SCHEMA config) eqn:Hvalid; [|reflexivity].
  destruct (valid_document_shape _ Hvalid) as [c charts Hc Hlen _].
  exfalso. apply Hnot. exists charts.
  unfold charts_of. cbn. rewrite Hc. auto.
Qed.

(** X3, at a document with an empty list of charts. *)
Lemma validate_config_chart_count_witness :
  validate_config (PDict [("explanation", PStr "Nothing to show");
                          ("charts", PList [])])
  = Ok (false, StrOfExn ValidationError).
Proof.
  apply validate_config_chart_count.
  intros (charts & H & Hlen). injection H as <-. cbn in Hlen. lia.
Defined.

(** ** After the repair *)

Lemma repaired_chart_lengths (point : pyval -> bool) (chart : pyval) :
  repaired_chart point chart -> chart_shape chart -> lengths_agree chart.
Proof.
  intros [c d lv n datasets _ _ _ Hdata Hlv Hn Hds _ Hall] Hshape.
  inversion Hshape as [c' d' title labels datasets' _ Hdata' Hlabels Hds' _]; subst.
  rewrite Hdata in Hdata'. injection Hdata' as <-.
  rewrite Hlv in Hlabels. injection Hlabels as ->.
  rewrite Hds in Hds'. injection Hds' as <-.
  cbn in Hn. injection Hn as <-.
  exists labels, datasets. unfold labels_of, datasets_of. cbn.
  rewrite Hdata. cbn. rewrite Hlv, Hds. repeat split.
  intros dataset Hin. rewrite Forall_forall in Hall.
  destruct (Hall dataset Hin) as [x ys _ Hys Hlen _].
  exists ys. unfold data_of. cbn. rewrite Hys. auto.
Qed.

(** X4: after [fix_common_issues] the cross-field rules hold: when the
    repaired document satisfies the schema, [validate_config] accepts it.
    The second validation of a repaired document can fail on the schema
    only. *)
Theorem fix_common_issues_then_validate (config result : pyval) :
  fix_common_issues config = Ok result ->
  valid CHART_CONFIG_SCHEMA result = true ->
  validate_config result = Ok (true, Text "").
Proof.
  intros Hfix Hvalid.
  destruct config as [| | | | | |c];
    try (unfold fix_common_issues in Hfix; cbn in Hfix; injection Hfix as <-;
         discriminate Hvalid).
  destruct (fix_common_issues_dict _ _ Hfix) as (charts & -> & Hrep).
  pose proof (valid_document_shape _ Hvalid) as Hshape.
  inversion Hshape as [c' charts' Hc _ Hall]; subst.
  rewrite dict_lookup_set_same in Hc. injection Hc as <-.
  unfold validate_config, try_except, validate_config_body, validate.
  rewrite Hvalid. cbn [bind]. cbn. rewrite dict_lookup_set_same. cbn.
  rewrite validate_charts_pass; [reflexivity | assumption |].
  intros chart Hin. rewrite Forall_forall in Hrep, Hall.
  eapply repaired_chart_lengths; eauto.
Qed.

(** X4, at the document of scenario B. *)
Lemma fix_common_issues_then_validate_witness :
  exists result,
    fix_common_issues
      (one_chart_document "Sales by quarter" "bar" "Sales" "Revenue" quarters
         [PInt 10; PInt 20]) = Ok result /\
    validate_config result = Ok (true, Text "").
Proof.
  eexists. split; [reflexivity|].
  apply (fix_common_issues_then_validate
           (one_chart_document "Sales by quarter" "bar" "Sales" "Revenue"
              quarters [PInt 10; PInt 20])); reflexivity.
Defined.

(** ** What the repair keeps *)

Lemma collectM_kept_rel {A B : Type} (f : A -> result (option B)) (l : list A)
    (l' : list B) :
  collectM f l = Ok l' -> kept (fun x y => f x = Ok (Some y)) l l'.
Proof.
  revert l'. induction l as [|x l IH]; cbn; intros l' H.
  - injection H as <-. constructor.
  - inv_bind H as r Hr. inv_bind H as rs Hrs. injection H as <-.
    destruct r as [y|].
    + apply kept_keep; auto.
    + apply kept_drop; auto.
Qed.

Lemma kept_impl {A B : Type} (R S : A -> B -> Prop) (l : list A) (l' : list B) :
  (forall x y, R x y -> S x y) -> kept R l l' -> kept S l l'.
Proof.
  intros HRS H. induction H; [constructor | apply kept_keep | apply kept_drop]; auto.
Qed.

Lemma kept_length {A B : Type} (R : A -> B -> Prop) (l : list A) (l' : list B) :
  kept R l l' -> List.length l' <= List.length l.
Proof. induction 1; cbn; lia. Qed.

Lemma kept_none {A B : Type} (R : A -> B -> Prop) (l : list A) (l' : list B) :
  (forall x y, In x l -> ~ R x y) -> kept R l l' -> l' = [].
Proof.
  intros Hno H. induction H as [|x y l l' Hxy _ _|x l l' _ IH].
  - reflexivity.
  - exfalso. eapply Hno; [now left | exact Hxy].
  - apply IH. intros x' y' Hin. apply Hno. now right.
Qed.

Lemma kept_head {A B : Type} (R : A -> B -> Prop) (l : list A) (y : B)
    (l' : list B) :
  kept R l (y :: l') -> exists x, In x l /\ R x y.
Proof.
  intros H. remember (y :: l') as m eqn:Hm.
  induction H as [|x y0 l l0 Hxy _ _|x l l0 _ IH].
  - discriminate Hm.
  - injection Hm as -> ->. exists x. split; [now left | assumption].
  - destruct (IH Hm) as (x' & Hin & Hxy). exists x'. split; [now right | assumption].
Qed.

Lemma fix_dataset_frame (data dataset dataset' : pyval) :
  fix_dataset data dataset = Ok (Some dataset') ->
  exists labels n,
    py_get data "labels" (PList []) = Ok labels /\
    py_len labels = Ok n /\
    dataset_repair_frame n dataset dataset'.
Proof.
  intros H. destruct dataset as [| | | | | |x]; try discriminate H.
  rewrite fix_dataset_dict in H. cbv zeta in H.
  destruct (dict_lookup "data" _) as [[| | | | |xs|]|] eqn:Hdv; try discriminate H.
  destruct (mapM to_number xs) as [ys|] eqn:Hys; [|discriminate H].
  inv_bind H as labels Hlabels. inv_bind H as n Hn. injection H as <-.
  exists labels, n. split; [assumption|]. split; [assumption|]. split.
  - intros k v Hk Hv. cbn in Hv |- *.
    destruct (dict_lookup k x) as [v'|] eqn:Hkx; [|discriminate Hv].
    injection Hv as ->.
    rewrite dict_lookup_set_other by assumption.
    now rewrite (ensure_lookup_keeps _ "label" (PStr "Dataset") _ _ Hkx).
  - exists xs, ys. unfold data_of. cbn. rewrite dict_lookup_set_same.
    repeat split; [|assumption].
    unfold ensure in Hdv. destruct (dict_mem "label" x).
    + now rewrite Hdv.
    + rewrite dict_lookup_set_other in Hdv by discriminate. now rewrite Hdv.
Qed.

Lemma fix_dataset_not_dict (data dataset : pyval) (r : option pyval) :
  is_dict dataset = false -> fix_dataset data dataset = Ok r -> r = None.
Proof.
  intros Hd H. destruct dataset; try discriminate Hd; cbn in H; congruence.
Qed.

(** A chart the repair keeps has all the items it had other than [data],
    the same labels, and datasets kept from the datasets it had. *)
Lemma fix_chart_frame (chart chart' : pyval) :
  fix_chart chart = Ok (Some chart') -> chart_repair_frame chart chart'.
Proof.
  intros H. destruct chart as [| | | | | |c]; try discriminate H.
  unfold fix_chart in H. cbn in H.
  destruct (dict_mem "type" c) eqn:Htype; cbn in H; [|discriminate H].
  destruct (dict_mem "data" c) eqn:Hdata; cbn in H; [|discriminate H].
  inv_bind H as chart1 Htitle.
  destruct (title_step _ _ Htitle) as (c1 & -> & _ & Hhad1 & Hsame1).
  inv_bind H as data Hget.
  inv_bind H as has_labels Hlabels. inv_bind H as missing Hmissing.
  destruct missing; [discriminate H|].
  inv_bind H as datasets Hdatasets. inv_bind H as items Hitems.
  inv_bind H as fixed Hfixed.
  destruct data as [| | | | | |d]; try discriminate Hdatasets.
  cbn in Hlabels. injection Hlabels as <-.
  destruct (dict_mem "labels" d) eqn:Hl; cbn in Hmissing; [|discriminate Hmissing].
  destruct (dict_mem "datasets" d) eqn:Hd; cbn in Hmissing; [|discriminate Hmissing].
  destruct (dict_mem_lookup _ _ Hl) as [labels Hlv].
  destruct (dict_mem_lookup _ _ Hd) as [dv Hdv].
  cbn in Hdatasets. rewrite Hdv in Hdatasets. injection Hdatasets as <-.
  cbn in Hget.
  destruct (dict_lookup "data" c1) as [dv1|] eqn:Hdv1;
    [|injection Hget as <-; discriminate Hl].
  injection Hget as ->.
  rewrite Hsame1 in Hdv1 by discriminate.
  destruct fixed as [|ds0 fixed]; [discriminate H|].
  cbn [py_setitem bind] in H.
  destruct (options_step _ _ H) as (c3 & -> & _ & Hhad3 & Hsame3).
  apply collectM_kept_rel in Hfixed.
  assert (Hlist : dv = PList items).
  { destruct dv as [| | | |s|l|dd]; try discriminate Hitems;
      cbn in Hitems; injection Hitems as <-; [|reflexivity|].
    - apply kept_none in Hfixed; [discriminate Hfixed|].
      intros x y Hin Hxy. apply in_map_iff in Hin. destruct Hin as (a & <- & _).
      discriminate Hxy.
    - apply kept_none in Hfixed; [discriminate Hfixed|].
      intros x y Hin Hxy. apply in_map_iff in Hin. destruct Hin as (a & <- & _).
      discriminate Hxy. }
  subst dv.
  assert (Hn : exists n, py_len labels = Ok n).
  { destruct (kept_head _ _ _ _ Hfixed) as (x & _ & Hxy).
    destruct (fix_dataset_frame _ _ _ Hxy) as (labels0 & n & Hl0 & Hn & _).
    cbn in Hl0. rewrite Hlv in Hl0. injection Hl0 as <-. eauto. }
  destruct Hn as [n Hn].
  split.
  - intros k v Hk Hv. cbn in Hv |- *.
    destruct (dict_lookup k c) as [v'|] eqn:Hkc; [|discriminate Hv].
    injection Hv as ->.
    assert (Hk1 : dict_lookup k c1 = Some v).
    { destruct (String.eqb_spec k "title") as [-> | Hne].
      - rewrite Hhad1; [assumption | now apply dict_mem_true with (v := v)].
      - now rewrite Hsame1. }
    assert (Hk2 : dict_lookup k
                    (dict_set "data"
                       (PDict (dict_set "datasets" (PList (ds0 :: fixed)) d)) c1)
                  = Some v) by now rewrite dict_lookup_set_other.
    destruct (String.eqb_spec k "options") as [-> | Hne].
    + rewrite Hhad3; [now rewrite Hk2 | now apply dict_mem_true with (v := v)].
    + rewrite Hsame3 by assumption. now rewrite Hk2.
  - exists labels, n, items, (ds0 :: fixed).
    unfold labels_value, datasets_of. cbn.
    rewrite Hdv1. cbn. rewrite Hlv, Hdv.
    rewrite Hsame3 by discriminate. rewrite dict_lookup_set_same. cbn.
    rewrite dict_lookup_set_other by discriminate. rewrite Hlv.
    rewrite dict_lookup_set_same.
    repeat split; try assumption.
    eapply kept_impl; [|exact Hfixed].
    intros x y Hxy.
    destruct (fix_dataset_frame _ _ _ Hxy) as (labels0 & n0 & Hl0 & Hn0 & Hframe).
    cbn in Hl0. rewrite Hlv in Hl0. injection Hl0 as <-.
    rewrite Hn in Hn0. now injection Hn0 as <-.
Qed.

(** X5: the repair invents nothing.  The charts of the repaired document
    are, in order, charts of the input; a chart that is kept has all the
    items it had other than [data] (so its type, and its title and options
    when it had them), the same labels, and datasets that are, in order,
    datasets it had, with all their items other than [data]; and the
    document keeps its items other than [charts]. *)
Theorem fix_common_issues_frame (config result : pyval) (charts : list pyval) :
  fix_common_issues config = Ok result ->
  charts_of config = Some charts ->
  exists charts',
    charts_of result = Some charts' /\
    kept chart_repair_frame charts charts' /\
    List.length charts' <= List.length charts /\
    forall k v, k <> "charts" ->
      py_getitem config k = Ok v -> py_getitem result k = Ok v.
Proof.
  intros H Hcharts. unfold charts_of in Hcharts.
  destruct config as [| | | | | |c]; try discriminate Hcharts.
  cbn in Hcharts.
  destruct (dict_lookup "charts" c) as [[| | | | |l|]|] eqn:Hc;
    try discriminate Hcharts.
  injection Hcharts as ->.
  unfold fix_common_issues in H. cbn in H. rewrite Hc in H. cbn in H.
  inv_bind H as fixed Hfixed. injection H as <-.
  apply collectM_kept_rel in Hfixed.
  assert (Hkept : kept chart_repair_frame charts fixed)
    by (eapply kept_impl; [|exact Hfixed]; intros x y; apply fix_chart_frame).
  exists fixed. split; [apply charts_of_set|]. split; [assumption|].
  split; [eapply kept_length; eassumption|].
  intros k v Hk Hv. cbn in Hv |- *. now rewrite dict_lookup_set_other.
Qed.

(** X5, at the document of scenario B. *)
Lemma fix_common_issues_frame_witness :
  exists result charts',
    fix_common_issues
      (one_chart_document "Sales by quarter" "bar" "Sales" "Revenue" quarters
         [PInt 10; PInt 20]) = Ok result /\
    charts_of result = Some charts' /\
    kept chart_repair_frame
      [PDict [ ("type", PStr "bar"); ("title", PStr "Sales");
               ("data",
                 PDict [ ("labels", PList quarters);
                         ("datasets",
                           PList [ PDict [ ("label", PStr "Revenue");
                                           ("data", PList [PInt 10; PInt 20]) ] ]) ]) ]]
      charts'.
Proof.
  eexists.
  destruct (fix_common_issues_frame
              (one_chart_document "Sales by quarter" "bar" "Sales" "Revenue"
                 quarters [PInt 10; PInt 20]) _ _ eq_refl eq_refl)
    as (charts' & H1 & H2 & _).
  exists charts'. split; [reflexivity|]. split; assumption.
Defined.

Lemma fit_length_closed (n : nat) (ys : list pyval) :
  fit_length n ys = firstn n ys ++ repeat (PInt 0) (n - List.length ys).
Proof.
  unfold fit_length.
  destruct (Nat.eqb_spec (List.length ys) n) as [E|E].
  - subst n. rewrite firstn_all, Nat.sub_diag. cbn. now rewrite app_nil_r.
  - destruct (Nat.ltb_spec n (List.length ys)) as [L|L].
    + replace (n - List.length ys) with 0 by lia. cbn. now rewrite app_nil_r.
    + now rewrite firstn_all2 by lia.
Qed.

(** X6: a dataset the repair keeps holds, for a chart with [n] labels, the
    first [n] of its data points converted to numbers, in order, followed
    by as many [0] as are missing up to [n]: the repair neither reorders
    nor changes the values it keeps.  A dataset with a data point that
    [float] refuses is not kept. *)
Theorem fix_dataset_data (data dataset dataset' : pyval) :
  fix_dataset data dataset = Ok (Some dataset') ->
  exists labels n xs ys,
    py_get data "labels" (PList []) = Ok labels /\
    py_len labels = Ok n /\
    data_of dataset = Some xs /\
    Forall2 (fun x y => to_number x = Ok y) xs ys /\
    data_of dataset' =
      Some (firstn n ys ++ repeat (PInt 0) (n - List.length xs)).
Proof.
  intros H.
  destruct (fix_dataset_frame _ _ _ H)
    as (labels & n & Hl & Hn & _ & xs & ys & Hxs & Hys & Hdata).
  exists labels, n, xs, ys. apply mapM_Forall2 in Hys.
  repeat split; try assumption.
  rewrite Hdata, fit_length_closed.
  now rewrite (Forall2_length Hys).
Qed.

(** X6, at a dataset with four data points in a chart with three labels. *)
Lemma fix_dataset_data_witness :
  exists dataset',
    fix_dataset (PDict [("labels", PList quarters)])
      (PDict [("data", PList [PInt 10; PNone; PStr "20"; PInt 7])])
    = Ok (Some dataset') /\
    data_of dataset' = Some [PFloat float_10; PInt 0; PFloat float_20].
Proof.
  eexists. split; [reflexivity|].
  destruct (fix_dataset_data
              (PDict [("labels", PList quarters)])
              (PDict [("data", PList [PInt 10; PNone; PStr "20"; PInt 7])])
              _ eq_refl)
    as (labels & n & xs & ys & Hl & Hn & Hxs & Hys & Hdata).
  rewrite Hdata. injection Hl as <-. injection Hn as <-. injection Hxs as <-.
  apply mapM_Forall2 in Hys. injection Hys as <-. reflexivity.
Defined.

(** ** Theming keeps a document valid *)

Lemma check_dict_set (kw : keyword) (d : list (string * pyval)) (k : string)
    (v : pyval) :
  plain_object_schema [kw] = true ->
  property_accepts [kw] k v = true ->
  check kw (PDict d) = true ->
  check kw (PDict (dict_set k v d)) = true.
Proof.
  intros Hplain Hacc H.
  destruct kw as [ts|names|props|n|n|n|sub|vs|subs]; cbn in *;
    try assumption; try discriminate.
  - rewrite forallb_forall in *. intros name Hin.
    apply dict_mem_set_keeps. auto.
  - rewrite andb_true_r in Hacc.
    rewrite forallb_forall in *. intros p Hin.
    specialize (H p Hin). specialize (Hacc p Hin).
    destruct (String.eqb_spec (fst p) k) as [-> | Hne].
    + rewrite dict_lookup_set_same. exact Hacc.
    + now rewrite dict_lookup_set_other.
Qed.

(** An instance that is a dict stays valid for a schema for objects when a
    key is set to a value the schema accepts for that key. *)
Lemma valid_dict_set (s : schema) (d : list (string * pyval)) (k : string)
    (v : pyval) :
  plain_object_schema s = true ->
  property_accepts s k v = true ->
  valid s (PDict d) = true ->
  valid s (PDict (dict_set k v d)) = true.
Proof.
  unfold valid, plain_object_schema, property_accepts.
  induction s as [|kw s IH]; cbn [forallb]; [reflexivity|].
  intros Hplain Hacc H.
  apply andb_prop in Hplain, Hacc, H.
  destruct Hplain as [Hp Hps], Hacc as [Ha Has], H as [H Hs].
  rewrite IH by assumption. rewrite andb_true_r.
  apply check_dict_set; try assumption.
  - cbn. now rewrite Hp.
  - cbn. now rewrite Ha.
Qed.

Lemma valid_dict_ensure (s : schema) (d : list (string * pyval)) (k : string)
    (v : pyval) :
  plain_object_schema s = true ->
  property_accepts s k v = true ->
  valid s (PDict d) = true ->
  valid s (PDict (ensure k v d)) = true.
Proof.
  intros Hp Ha H. unfold ensure.
  destruct (dict_mem k d); [assumption | now apply valid_dict_set].
Qed.

Lemma segment_colors_strings (n : nat) :
  forallb is_str (segment_colors n) = true.
Proof.
  rewrite segment_colors_cycle. unfold palette_cycle.
  apply forallb_forall. intros x Hx. apply in_map_iff in Hx.
  destruct Hx as (i & <- & _).
  pose proof (Nat.mod_upper_bound i 6 ltac:(discriminate)) as Hlt.
  destruct (i mod 6) as [|[|[|[|[|[|m]]]]]]; try reflexivity. lia.
Qed.

Lemma theme_dataset_valid (chart_type dataset dataset' : pyval) :
  valid dataset_schema dataset = true ->
  theme_dataset chart_type dataset = Ok dataset' ->
  valid dataset_schema dataset' = true.
Proof.
  intros Hvalid H.
  destruct dataset as [| | | | | |x]; try discriminate Hvalid.
  rewrite theme_dataset_dict in H.
  assert (Hb : forall b,
             background_for chart_type x = Ok b ->
             property_accepts dataset_schema "backgroundColor" b = true).
  { unfold background_for. intros b Hb.
    destruct (is_pie_or_doughnut chart_type).
    - inv_bind Hb as d Hd. inv_bind Hb as n Hn. injection Hb as <-.
      cbn. pose proof (segment_colors_strings n) as Hs.
      assert (Hs' : forallb (fun x0 => (is_str x0 || false) && true)
                            (segment_colors n) = true).
      { revert Hs. apply forallb_impl. intros y ->. reflexivity. }
      unfold is_str in Hs'. cbn in Hs'. now rewrite Hs'.
    - injection Hb as <-. reflexivity. }
  destruct (dict_mem "backgroundColor" x).
  - injection H as <-.
    repeat (apply valid_dict_ensure; try reflexivity). assumption.
  - inv_bind H as b Hbg. injection H as <-.
    repeat (apply valid_dict_ensure; try reflexivity).
    apply valid_dict_set; auto.
Qed.

Lemma charts_accepts (l : list pyval) :
  property_accepts CHART_CONFIG_SCHEMA "charts" (PList l) =
  (1 <=? List.length l)%nat && ((List.length l <=? 10)%nat &&
  forallb (valid chart_schema) l).
Proof.
  unfold property_accepts. cbn. rewrite !andb_true_r. reflexivity.
Qed.

Lemma datasets_accepts (l : list pyval) :
  property_accepts data_schema "datasets" (PList l) =
  (1 <=? List.length l)%nat && forallb (valid dataset_schema) l.
Proof.
  unfold property_accepts. cbn. rewrite !andb_true_r. reflexivity.
Qed.

Lemma data_accepts (d : list (string * pyval)) :
  property_accepts chart_schema "data" (PDict d) = valid data_schema (PDict d).
Proof.
  unfold property_accepts. cbn. rewrite !andb_true_r. reflexivity.
Qed.

Lemma options_accepts (o : list (string * pyval)) :
  property_accepts chart_schema "options" (PDict o) = true.
Proof. reflexivity. Qed.

(** What the schema says of the charts of a valid document, of the data of
    a valid chart and of the datasets of valid data. *)
Lemma valid_document_charts (c : list (string * pyval)) :
  valid CHART_CONFIG_SCHEMA (PDict c) = true ->
  exists charts,
    dict_lookup "charts" c = Some (PList charts) /\
    property_accepts CHART_CONFIG_SCHEMA "charts" (PList charts) = true.
Proof.
  intros H. cbn in H. split_andb.
  match goal with H : dict_mem "charts" _ = true |- _ => use_required H cv end.
  split_andb. destruct cv as [| | | | |charts|]; try discriminate.
  exists charts. split; [assumption|].
  rewrite charts_accepts.
  repeat (apply andb_true_intro; split); assumption.
Qed.

Lemma valid_chart_data (c : list (string * pyval)) :
  valid chart_schema (PDict c) = true ->
  exists d datasets,
    dict_lookup "data" c = Some (PDict d) /\
    valid data_schema (PDict d) = true /\
    dict_lookup "datasets" d = Some (PList datasets) /\
    property_accepts data_schema "datasets" (PList datasets) = true.
Proof.
  intros H. cbn in H. split_andb.
  match goal with H : dict_mem "data" _ = true |- _ => use_required H dv end.
  destruct dv as [| | | | | |d]; split_andb; try discriminate.
  assert (Hd : valid data_schema (PDict d) = true).
  { cbn. repeat (apply andb_true_intro; split); try assumption; reflexivity. }
  match goal with H : dict_mem "datasets" _ = true |- _ => use_required H sv end.
  split_andb. destruct sv as [| | | | |dss|]; try discriminate.
  exists d, dss. repeat split; try assumption.
  rewrite datasets_accepts. now apply andb_true_intro.
Qed.

Lemma Forall2_forallb {A : Type} (R : A -> A -> Prop) (f : A -> bool)
    (l l' : list A) :
  (forall x y, R x y -> f x = true -> f y = true) ->
  Forall2 R l l' -> forallb f l = true -> forallb f l' = true.
Proof.
  intros HR H. induction H as [|x y l l' Hxy _ IH]; [auto|].
  cbn. intros Hf. apply andb_prop in Hf. destruct Hf as [Hx Hl].
  rewrite (HR x y Hxy Hx). auto.
Qed.

Lemma theme_chart_valid (chart chart' : pyval) :
  valid chart_schema chart = true ->
  theme_chart chart = Ok chart' ->
  valid chart_schema chart' = true.
Proof.
  intros Hvalid H.
  destruct chart as [| | | | | |c]; try discriminate Hvalid.
  destruct (valid_chart_data c Hvalid) as (d & datasets & Hdata & Hd & Hds & Hacc).
  rewrite theme_chart_eq in H.
  inv_bind H as ct Hct. inv_bind H as items Hitems. inv_bind H as themed Hloop.
  unfold chart_items in Hitems. cbn in Hitems. rewrite Hdata in Hitems.
  cbn in Hitems. rewrite Hds in Hitems. cbn in Hitems. injection Hitems as <-.
  apply mapM_Forall2 in Hloop.
  unfold store_datasets in H. rewrite Hdata, Hds in H.
  destruct (theme_options_sets _ _ H) as [[o ->] (o' & p & Ho & Hp & _)].
  cbn in Ho. rewrite dict_lookup_set_same in Ho. injection Ho as <-.
  destruct o as [| | | | | |o]; try discriminate Hp.
  apply valid_dict_set; [reflexivity | apply options_accepts |].
  apply valid_dict_set; [reflexivity | | assumption].
  rewrite data_accepts.
  apply valid_dict_set; [reflexivity | | assumption].
  rewrite datasets_accepts in Hacc |- *.
  apply andb_prop in Hacc. destruct Hacc as [Hlen Hall].
  rewrite <- (Forall2_length Hloop), Hlen. cbn.
  eapply Forall2_forallb; [|exact Hloop|exact Hall].
  intros x y Hxy Hx. exact (theme_dataset_valid _ _ _ Hx Hxy).
Qed.

Lemma Forall2_In_r {A B : Type} (R : A -> B -> Prop) (l : list A) (l' : list B)
    (y : B) :
  Forall2 R l l' -> In y l' -> exists x, In x l /\ R x y.
Proof.
  induction 1 as [|a b l l' Hab _ IH]; [contradiction|].
  intros [<- | Hin].
  - exists a. split; [now left | assumption].
  - destruct (IH Hin) as (x & Hx & Hxy). exists x. split; [now right | assumption].
Qed.

Lemma chart_frame_lengths (chart chart' : pyval) :
  chart_frame chart chart' -> lengths_agree chart -> lengths_agree chart'.
Proof.
  intros ((datasets & datasets' & Hds & Hds' & Hall) & _ & _ & Hlabels)
         (labels & datasets0 & Hl & Hds0 & Hlen).
  rewrite Hds in Hds0. injection Hds0 as <-.
  exists labels, datasets'. split; [auto|]. split; [assumption|].
  intros dataset' Hin.
  destruct (Forall2_In_r _ _ _ _ Hall Hin) as (dataset & Hin0 & Hframe).
  destruct (Hlen dataset Hin0) as (xs & Hxs & Hn).
  exists xs. split; [|assumption].
  unfold data_of in Hxs |- *.
  destruct (py_getitem dataset "data") as [[| | | | |l|]|] eqn:Hg;
    try discriminate Hxs.
  injection Hxs as ->. now rewrite (Hframe _ _ Hg).
Qed.

Lemma validate_config_pass (c : list (string * pyval)) (charts : list pyval) :
  valid CHART_CONFIG_SCHEMA (PDict c) = true ->
  dict_lookup "charts" c = Some (PList charts) ->
  (forall chart, In chart charts -> lengths_agree chart) ->
  validate_config (PDict c) = Ok (true, Text "").
Proof.
  intros Hvalid Hc Hlen.
  unfold validate_config, try_except, validate_config_body, validate.
  rewrite Hvalid. cbn [bind]. cbn. rewrite Hc. cbn.
  rewrite validate_charts_pass; [reflexivity | | assumption].
  pose proof (valid_document_shape _ Hvalid) as Hshape.
  inversion Hshape as [c2 charts2 Hc2 _ Hall2]; subst.
  rewrite Hc in Hc2. now injection Hc2 as <-.
Qed.

Lemma validate_config_valid (config : pyval) :
  validate_config config = Ok (true, Text "") ->
  valid CHART_CONFIG_SCHEMA config = true.
Proof.
  unfold validate_config, try_except, validate_config_body, validate.
  destruct (valid CHART_CONFIG_SCHEMA config); [reflexivity | discriminate].
Qed.

(** Theming keeps a document within the schema. *)
Lemma apply_visualization_rules_schema (c : list (string * pyval))
    (charts charts' : list pyval) :
  valid CHART_CONFIG_SCHEMA (PDict c) = true ->
  dict_lookup "charts" c = Some (PList charts) ->
  Forall2 (fun x y => theme_chart x = Ok y) charts charts' ->
  valid CHART_CONFIG_SCHEMA (PDict (dict_set "charts" (PList charts') c)) = true.
Proof.
  intros Hvalid Hc Hloop.
  destruct (valid_document_charts c Hvalid) as (charts1 & Hc1 & Hcacc).
  rewrite Hc in Hc1. injection Hc1 as <-.
  rewrite charts_accepts in Hcacc.
  apply andb_prop in Hcacc. destruct Hcacc as [Hmin Hcacc].
  apply andb_prop in Hcacc. destruct Hcacc as [Hmax Hvalids].
  apply valid_dict_set; [reflexivity | | assumption].
  rewrite charts_accepts, <- (Forall2_length Hloop), Hmin, Hmax. cbn.
  eapply Forall2_forallb; [|exact Hloop|exact Hvalids].
  intros x y Hxy Hx. exact (theme_chart_valid _ _ Hx Hxy).
Qed.

(** Theming keeps the lengths of the data lists and of the labels. *)
Lemma theme_charts_lengths (charts charts' : list pyval) :
  Forall chart_shape charts ->
  Forall2 (fun x y => theme_chart x = Ok y) charts charts' ->
  (forall chart, In chart charts -> lengths_agree chart) ->
  forall chart', In chart' charts' -> lengths_agree chart'.
Proof.
  intros Hall Hloop Hlen chart' Hin.
  destruct (Forall2_In_r _ _ _ _ Hloop Hin) as (chart & Hin0 & Htheme).
  rewrite Forall_forall in Hall.
  apply (chart_frame_lengths chart); [|now apply Hlen].
  apply theme_chart_frame; [exact (Hall chart Hin0) | exact Htheme].
Qed.

(** A document that [validate_config] accepts, and its theming. *)
Lemma themed_document (config result : pyval) :
  validate_config config = Ok (true, Text "") ->
  apply_visualization_rules config = Ok result ->
  exists c charts charts',
    config = PDict c /\
    dict_lookup "charts" c = Some (PList charts) /\
    result = PDict (dict_set "charts" (PList charts') c) /\
    Forall2 (fun x y => theme_chart x = Ok y) charts charts' /\
    valid CHART_CONFIG_SCHEMA result = true /\
    (forall chart', In chart' charts' -> lengths_agree chart').
Proof.
  intros Hacc H.
  pose proof (validate_config_valid _ Hacc) as Hvalid.
  apply validate_config_accepts in Hacc.
  destruct Hacc as (c & charts & -> & Hc & Hshape & Hpass).
  inversion Hshape as [c0 charts0 Hc0 _ Hall]; subst.
  rewrite Hc in Hc0. injection Hc0 as <-.
  assert (Hof : charts_of (PDict c) = Some charts)
    by (unfold charts_of; cbn; now rewrite Hc).
  destruct (apply_visualization_rules_charts _ _ _ H Hof)
    as (c' & charts' & [= <-] & -> & Hloop).
  exists c, charts, charts'.
  split; [reflexivity|]. split; [assumption|]. split; [reflexivity|].
  split; [assumption|]. split.
  - now apply (apply_visualization_rules_schema c charts).
  - apply (theme_charts_lengths charts); try assumption.
    now apply validate_charts_none.
Qed.

(** X7: theming keeps a document valid.  When [validate_config] accepts a
    document and [apply_visualization_rules] returns, [validate_config]
    accepts the themed document: the colours, the border and the options
    that theming adds are what the schema allows. *)
Theorem apply_visualization_rules_valid (config result : pyval) :
  validate_config config = Ok (true, Text "") ->
  apply_visualization_rules config = Ok result ->
  validate_config result = Ok (true, Text "").
Proof.
  intros Hacc H.
  destruct (themed_document _ _ Hacc H)
    as (c & charts & charts' & -> & Hc & -> & Hloop & Hvalid & Hlen).
  apply (validate_config_pass _ charts'); try assumption.
  apply dict_lookup_set_same.
Qed.

(** X7, at the document of scenario D. *)
Lemma apply_visualization_rules_valid_witness :
  exists result,
    apply_visualization_rules pie_document = Ok result /\
    validate_config result = Ok (true, Text "").
Proof.
  eexists. split; [reflexivity|].
  apply (apply_visualization_rules_valid pie_document); reflexivity.
Defined.

(** ** [validate_chart_config] and the schema *)

Lemma validate_chart_config_valid (chart : pyval) :
  valid chart_schema chart = true -> validate_chart_config chart = Ok true.
Proof.
  intros H. destruct chart as [| | | | | |c]; try discriminate H.
  cbn in H. split_andb.
  match goal with H : dict_mem "type" _ = true |- _ => use_required H t end.
  match goal with H : dict_mem "title" _ = true |- _ => use_required H ti end.
  match goal with H : dict_mem "data" _ = true |- _ => use_required H dv end.
  split_andb.
  destruct t as [| | | |t| |]; try discriminate.
  destruct dv as [| | | | | |d]; try discriminate.
  split_andb.
  unfold validate_chart_config, all_in. cbn. unfold dict_mem.
  repeat match goal with H : dict_lookup _ c = Some _ |- _ => rewrite H; clear H end.
  cbn.
  match goal with H : (t =? "bar")%string || _ = true |- _ => rewrite H end.
  cbn.
  repeat match goal with H : dict_mem _ d = true |- _ => rewrite H; clear H end.
  reflexivity.
Qed.

(** X8: every chart of a document that [validate_config] accepts passes
    [validate_chart_config]: the check made before a chart is saved asks
    for nothing that the schema does not ask for. *)
Theorem validate_chart_config_accepts (config : pyval) (charts : list pyval) :
  validate_config config = Ok (true, Text "") ->
  charts_of config = Some charts ->
  forall chart, In chart charts -> validate_chart_config chart = Ok true.
Proof.
  intros Hacc Hcharts chart Hin.
  apply validate_config_valid in Hacc.
  destruct config as [| | | | | |c]; try discriminate Hacc.
  destruct (valid_document_charts c Hacc) as (charts1 & Hc & Haccepts).
  unfold charts_of in Hcharts. cbn in Hcharts. rewrite Hc in Hcharts.
  injection Hcharts as ->.
  rewrite charts_accepts in Haccepts.
  apply andb_prop in Haccepts. destruct Haccepts as [_ Haccepts].
  apply andb_prop in Haccepts. destruct Haccepts as [_ Hvalids].
  rewrite forallb_forall in Hvalids.
  apply validate_chart_config_valid. now apply Hvalids.
Qed.

(** X8, at the chart of scenario D. *)
Lemma validate_chart_config_accepts_witness :
  validate_chart_config pie_chart = Ok true.
Proof.
  apply (validate_chart_config_accepts pie_document [pie_chart]);
    [reflexivity | reflexivity | now left].
Defined.

(** ** What theming adds *)

Lemma theme_chart_options_themed (chart chart' : pyval) :
  theme_chart chart = Ok chart' -> options_themed chart'.
Proof.
  intros H. rewrite theme_chart_eq in H.
  inv_bind H as ct Hct. inv_bind H as items Hitems. inv_bind H as themed Hloop.
  destruct chart as [| | | | | |c]; try discriminate Hct.
  destruct (store_datasets_is_dict c themed) as (c1 & Hc1 & _).
  rewrite Hc1 in H. now destruct (theme_options_sets _ _ H).
Qed.

Lemma ensure_lookup_absent (k : string) (v : pyval) (d : list (string * pyval)) :
  dict_mem k d = false -> dict_lookup k (ensure k v d) = Some v.
Proof. unfold ensure. intros ->. apply dict_lookup_set_same. Qed.

Lemma ensure_mem_other (k k' : string) (v : pyval) (d : list (string * pyval)) :
  k <> k' -> dict_mem k (ensure k' v d) = dict_mem k d.
Proof.
  intros Hk. unfold ensure. destruct (dict_mem k' d); [reflexivity|].
  apply dict_mem_eq_lookup. now apply dict_lookup_set_other.
Qed.

Lemma theme_dataset_defaults (chart_type dataset dataset' : pyval) :
  theme_dataset chart_type dataset = Ok dataset' ->
  dataset_defaults chart_type dataset dataset'.
Proof.
  intros H.
  destruct (is_dict dataset) eqn:Hdict.
  2: { destruct (theme_dataset_not_dict _ _ _ Hdict H) as (-> & Hb & Hc & Hw).
       split; [|split]; intros Hno; congruence. }
  destruct dataset as [| | | | | |x]; try discriminate Hdict.
  rewrite theme_dataset_dict in H.
  split; [|split]; cbn; intros [= Hno].
  - intros Hpie. rewrite Hno in H. unfold background_for in H.
    rewrite Hpie in H. cbn in H. injection H as <-. cbn.
    rewrite (ensure_lookup_keeps _ _ _ (PStr "rgba(212, 175, 55, 0.6)"));
      [reflexivity|].
    apply ensure_lookup_keeps, dict_lookup_set_same.
  - destruct (dict_mem "backgroundColor" x).
    + injection H as <-. cbn.
      erewrite ensure_lookup_keeps; [reflexivity|].
      now apply ensure_lookup_absent.
    + inv_bind H as b Hb. injection H as <-. cbn.
      erewrite ensure_lookup_keeps; [reflexivity|].
      apply ensure_lookup_absent.
      rewrite (dict_mem_eq_lookup "borderColor" x);
        [exact Hno | now apply dict_lookup_set_other].
  - destruct (dict_mem "backgroundColor" x).
    + injection H as <-. cbn.
      rewrite ensure_lookup_absent; [reflexivity|].
      now rewrite ensure_mem_other.
    + inv_bind H as b Hb. injection H as <-. cbn.
      rewrite ensure_lookup_absent; [reflexivity|].
      rewrite ensure_mem_other by discriminate.
      rewrite (dict_mem_eq_lookup "borderWidth" x);
        [exact Hno | now apply dict_lookup_set_other].
Qed.

(** The options theming leaves on a chart whose plugins, if any, are a
    mapping. *)
Lemma theme_options_mapping (c : list (string * pyval)) :
  plugins_mapping (PDict c) = true ->
  exists o p text,
    py_get (PDict c) "options" (PDict []) = Ok (PDict o) /\
    dict_lookup "plugins" (ensure "plugins" (PDict []) o) = Some (PDict p) /\
    py_get (PDict c) "title" (PStr "Chart") = Ok text /\
    theme_options (PDict c) =
      Ok (PDict
            (dict_set "options"
               (PDict
                  (dict_set "plugins"
                     (PDict (ensure "legend" legend_plugin
                               (ensure "title" (title_plugin text) p)))
                     (ensure "plugins" (PDict []) o)))
               c)).
Proof.
  intros Hmap.
  destruct (py_get_dict_ok c "title" (PStr "Chart")) as [text Htext].
  assert (Ho : exists o, py_get (PDict c) "options" (PDict []) = Ok (PDict o) /\
                 exists p, dict_lookup "plugins" (ensure "plugins" (PDict []) o)
                           = Some (PDict p)).
  { unfold plugins_mapping in Hmap. cbn.
    destruct (dict_lookup "options" c) as [[| | | | | |o]|];
      try discriminate Hmap.
    - exists o. split; [reflexivity|]. unfold ensure, dict_mem.
      destruct (dict_lookup "plugins" o) as [[| | | | | |p]|] eqn:Hp;
        try discriminate Hmap; [eauto|].
      rewrite dict_lookup_set_same. eauto.
    - exists []. split; [reflexivity|]. cbn. eauto. }
  destruct Ho as (o & Ho & p & Hp).
  exists o, p, text. split; [assumption|]. split; [assumption|].
  split; [assumption|].
  unfold theme_options. rewrite Ho. cbn [bind py_in].
  assert (H1 : (if negb (dict_mem "plugins" o)
                then py_setitem (PDict o) "plugins" (PDict [])
                else Ok (PDict o))
               = Ok (PDict (ensure "plugins" (PDict []) o))).
  { unfold ensure. now destruct (dict_mem "plugins" o). }
  rewrite H1. cbn [bind].
  remember (ensure "plugins" (PDict []) o) as o1 eqn:Eo1. clear H1 Eo1.
  cbn [py_getitem]. rewrite Hp. cbn [bind py_in].
  destruct (dict_mem "title" p) eqn:Ht; cbn [negb bind].
  - rewrite (ensure_present "title" _ p Ht).
    cbn [py_getitem]. rewrite Hp. cbn [bind py_in].
    destruct (dict_mem "legend" p) eqn:Hl; cbn [negb bind].
    + rewrite (ensure_present "legend" _ p Hl).
      now rewrite (dict_set_same_value _ _ _ Hp).
    + cbn [bind py_setitem]. unfold ensure. now rewrite Hl.
  - rewrite Htext. cbn [bind py_getitem]. rewrite ?Hp.
    cbn [bind py_setitem py_getitem]. rewrite dict_lookup_set_same.
    cbn [bind py_in].
    assert (E : ensure "title" (title_plugin text) p
                = dict_set "title" (title_plugin text) p)
      by (unfold ensure; now rewrite Ht).
    rewrite E.
    destruct (dict_mem "legend" (dict_set "title" (title_plugin text) p))
      eqn:Hl; cbn [negb bind].
    + now rewrite (ensure_present "legend" _ _ Hl).
    + cbn [py_getitem]. rewrite ?dict_lookup_set_same.
      cbn [bind py_setitem]. rewrite dict_set_twice.
      unfold ensure. now rewrite Hl.
Qed.

Lemma theme_options_defaults (c : list (string * pyval)) (chart' : pyval) :
  plugins_mapping (PDict c) = true ->
  theme_options (PDict c) = Ok chart' ->
  options_defaults (PDict c) chart'.
Proof.
  intros Hmap H.
  destruct (theme_options_mapping c Hmap) as (o & p & text & Ho & Hp & Htext & Heq).
  rewrite Heq in H. injection H as <-.
  assert (Hlack : forall k, lacks_plugin (PDict c) k -> dict_mem k p = false).
  { intros k Hno. unfold dict_mem.
    destruct (dict_lookup k p) as [v|] eqn:Hk; [|reflexivity].
    exfalso. apply (Hno v). unfold plugin_of. cbn in Ho |- *.
    destruct (dict_lookup "options" c) as [o'|].
    - injection Ho as ->. cbn. unfold ensure, dict_mem in Hp.
      destruct (dict_lookup "plugins" o) as [q|] eqn:Hq.
      + cbn iota in Hp. rewrite Hq in Hp. injection Hp as ->. cbn.
        now rewrite Hk.
      + cbn iota in Hp. rewrite dict_lookup_set_same in Hp.
        injection Hp as <-. discriminate Hk.
    - injection Ho as <-. cbn in Hp. injection Hp as <-. discriminate Hk. }
  assert (Hplugin : forall k,
            plugin_of (PDict (dict_set "options"
               (PDict (dict_set "plugins"
                  (PDict (ensure "legend" legend_plugin
                            (ensure "title" (title_plugin text) p)))
                  (ensure "plugins" (PDict []) o))) c)) k
            = py_getitem (PDict (ensure "legend" legend_plugin
                                   (ensure "title" (title_plugin text) p))) k).
  { intros k. unfold plugin_of. cbn. rewrite dict_lookup_set_same. cbn.
    now rewrite dict_lookup_set_same. }
  split; intros Hno; apply Hlack in Hno.
  - exists text. split; [assumption|]. rewrite Hplugin. cbn.
    rewrite (ensure_lookup_keeps _ _ _ (title_plugin text)); [reflexivity|].
    now apply ensure_lookup_absent.
  - rewrite Hplugin. cbn. rewrite ensure_lookup_absent; [reflexivity|].
    now rewrite ensure_mem_other.
Qed.

Lemma store_datasets_plugins (c : list (string * pyval)) (l : list pyval) :
  exists c1, store_datasets (PDict c) l = PDict c1 /\
             plugins_mapping (PDict c1) = plugins_mapping (PDict c) /\
             (forall k, plugin_of (PDict c1) k = plugin_of (PDict c) k) /\
             dict_lookup "title" c1 = dict_lookup "title" c.
Proof.
  destruct (store_datasets_is_dict c l) as (c1 & Hc1 & Hkeep).
  exists c1. split; [assumption|].
  unfold plugins_mapping, plugin_of. cbn.
  rewrite !(Hkeep "options") by discriminate.
  rewrite (Hkeep "title") by discriminate. auto.
Qed.

Lemma theme_chart_defaults (chart chart' : pyval) :
  chart_shape chart ->
  (exists chart_type, py_getitem chart "type" = Ok chart_type) ->
  theme_chart chart = Ok chart' ->
  chart_defaults chart chart'.
Proof.
  intros Hshape [chart_type Htype] H.
  destruct (chart_shape_datasets _ Hshape) as [datasets Hds].
  destruct (theme_chart_datasets _ _ _ H Hds) as (ct & datasets' & Hct & Hds' & Hall).
  assert (ct = chart_type) as ->.
  { destruct chart as [| | | | | |c]; try discriminate Htype.
    cbn in Htype, Hct. destruct (dict_lookup "type" c); congruence. }
  exists chart_type, datasets, datasets'.
  split; [assumption|]. split; [assumption|]. split; [assumption|].
  split.
  { eapply Forall2_impl; [|exact Hall].
    intros x y Hxy. now apply theme_dataset_defaults. }
  intros Hmap. rewrite theme_chart_eq in H.
  inv_bind H as ct Hct'. inv_bind H as items Hitems. inv_bind H as themed Hloop.
  destruct chart as [| | | | | |c]; try discriminate Hct.
  destruct (store_datasets_plugins c themed) as (c1 & Hc1 & Hmap1 & Hplug & Htitle).
  rewrite Hc1 in H. rewrite <- Hmap1 in Hmap.
  destruct (theme_options_defaults c1 chart' Hmap H) as [Ht Hl].
  split.
  - intros Hno.
    destruct Ht as (text & Htext & Hplugin).
    { intros v. rewrite Hplug. apply Hno. }
    exists text. split; [|assumption].
    cbn in Htext |- *. now rewrite <- Htitle.
  - intros Hno. apply Hl. intros v. rewrite Hplug. apply Hno.
Qed.

(** X14: what theming fills in.  In the theming of a document that
    [validate_config] accepts, a dataset that had no border colour has
    ['#d4af37'], one that had no border width has [2], and one that had no
    background colour, in a chart that is neither a pie nor a doughnut,
    has ['rgba(212, 175, 55, 0.6)']; a chart without a title plugin gets
    one whose text is the title of the chart, and a chart without a legend
    plugin gets the default legend. *)
Theorem apply_visualization_rules_defaults (config result : pyval)
    (charts : list pyval) :
  validate_config config = Ok (true, Text "") ->
  apply_visualization_rules config = Ok result ->
  charts_of config = Some charts ->
  exists charts',
    charts_of result = Some charts' /\ Forall2 chart_defaults charts charts'.
Proof.
  intros Hacc H Hcharts.
  destruct (themed_document _ _ Hacc H)
    as (c & charts0 & charts' & -> & Hc & -> & Hloop & _ & _).
  unfold charts_of in Hcharts. cbn in Hcharts. rewrite Hc in Hcharts.
  injection Hcharts as ->.
  exists charts'. split.
  { unfold charts_of. cbn. now rewrite dict_lookup_set_same. }
  apply validate_config_valid in Hacc.
  destruct (valid_document_charts c Hacc) as (charts1 & Hc1 & Haccepts).
  rewrite Hc in Hc1. injection Hc1 as <-.
  rewrite charts_accepts in Haccepts.
  apply andb_prop in Haccepts. destruct Haccepts as [_ Haccepts].
  apply andb_prop in Haccepts. destruct Haccepts as [_ Hvalids].
  clear - Hloop Hvalids.
  induction Hloop as [|chart chart' charts charts' Hchart _ IH];
    constructor; cbn in Hvalids; apply andb_prop in Hvalids;
    destruct Hvalids as [Hvalid Hvalids]; [|now apply IH].
  apply theme_chart_defaults; [now apply valid_chart_shape | | assumption].
  pose proof (validate_chart_config_valid _ Hvalid) as Hok.
  destruct chart as [| | | | | |c]; try discriminate Hvalid.
  cbn in Hvalid. split_andb.
  match goal with H : dict_mem "type" _ = true |- _ =>
    apply dict_mem_lookup in H; destruct H as [t Ht] end.
  exists t. cbn. now rewrite Ht.
Qed.

(** X14, at a bar chart with no styling. *)
Lemma apply_visualization_rules_defaults_witness :
  exists result charts',
    apply_visualization_rules
      (one_chart_document "Sales by quarter" "bar" "Sales" "Revenue" quarters
         [PInt 10; PInt 20; PInt 30]) = Ok result /\
    charts_of result = Some charts' /\
    Forall2 chart_defaults
      [PDict [ ("type", PStr "bar"); ("title", PStr "Sales");
               ("data",
                 PDict [ ("labels", PList quarters);
                         ("datasets",
                           PList [ PDict [ ("label", PStr "Revenue");
                                           ("data",
                                             PList [PInt 10; PInt 20; PInt 30]) ] ]) ]) ]]
      charts'.
Proof.
  eexists.
  destruct (apply_visualization_rules_defaults
              (one_chart_document "Sales by quarter" "bar" "Sales" "Revenue"
                 quarters [PInt 10; PInt 20; PInt 30])
              _ _ eq_refl eq_refl eq_refl)
    as (charts' & Hcharts & Hall).
  exists charts'. split; [reflexivity|]. split; assumption.
Defined.

(** ** When theming raises *)

Lemma theme_options_returns (c : list (string * pyval)) :
  (exists chart', theme_options (PDict c) = Ok chart') <->
  plugins_tolerated (PDict c) = true.
Proof.
  destruct (plugins_mapping (PDict c)) eqn:Hmap.
  - split; [|intros _; now apply theme_options_total].
    intros _. cbn in Hmap |- *.
    destruct (dict_lookup "options" c) as [[| | | | | |o]|];
      try discriminate Hmap; [|reflexivity].
    destruct (dict_lookup "plugins" o) as [[| | | | | |p]|];
      try discriminate Hmap; reflexivity.
  - cbn in Hmap. unfold theme_options, plugins_tolerated. cbn.
    destruct (dict_lookup "options" c) as [options|]; [|discriminate Hmap].
    cbn.
    destruct options as [| | | |s|l|o]; cbn;
      try (split; [intros [? H]; discriminate H | discriminate]).
    + destruct (substring_in "plugins" s); cbn;
        (split; [intros [? H]; discriminate H | discriminate]).
    + destruct (existsb _ l); cbn;
        (split; [intros [? H]; discriminate H | discriminate]).
    + unfold dict_mem at 1.
      destruct (dict_lookup "plugins" o) as [v|] eqn:Hp; [|discriminate Hmap].
      cbn. rewrite Hp. cbn.
      destruct v as [| | | |s|l|p]; try discriminate Hmap; cbn;
        try (split; [intros [? H]; discriminate H | discriminate]).
      * destruct (substring_in "title" s); cbn; rewrite ?Hp; cbn.
        -- destruct (substring_in "legend" s); cbn; rewrite ?Hp; cbn.
           ++ split; [reflexivity | eauto].
           ++ split; [intros [? H]; discriminate H | discriminate].
        -- destruct (dict_lookup "title" c); cbn; rewrite ?Hp; cbn;
             (split; [intros [? H]; discriminate H | discriminate]).
      * destruct (existsb (fun x => match x with
                                    | PStr s => (s =? "title")%string
                                    | _ => false
                                    end) l); cbn; rewrite ?Hp; cbn.
        -- destruct (existsb (fun x => match x with
                                       | PStr s => (s =? "legend")%string
                                       | _ => false
                                       end) l); cbn; rewrite ?Hp; cbn.
           ++ split; [reflexivity | eauto].
           ++ split; [intros [? H]; discriminate H | discriminate].
        -- destruct (dict_lookup "title" c); cbn; rewrite ?Hp; cbn;
             (split; [intros [? H]; discriminate H | discriminate]).
Qed.

Lemma theme_chart_returns (chart : pyval) :
  chart_shape chart ->
  (exists chart', theme_chart chart = Ok chart') <->
  plugins_tolerated chart = true.
Proof.
  intros Hshape.
  destruct Hshape as [c d title labels datasets _ Hdata _ Hdatasets Hall].
  rewrite theme_chart_eq.
  destruct (py_get_dict_ok c "type" (PStr "bar")) as [ct ->]. cbn [bind].
  assert (Hitems : chart_items (PDict c) = Ok datasets)
    by (unfold chart_items; cbn; rewrite Hdata; cbn; now rewrite Hdatasets).
  rewrite Hitems. cbn [bind].
  assert (Hloop : exists themed, mapM (theme_dataset ct) datasets = Ok themed).
  { clear Hdatasets Hitems. induction Hall as [|x l Hx _ [themed IH]]; cbn; [eauto|].
    destruct (theme_dataset_total ct x Hx) as [x' ->]. cbn. rewrite IH. cbn. eauto. }
  destruct Hloop as [themed ->]. cbn [bind].
  destruct (store_datasets_keeps c themed) as (c1 & -> & Hsame & _).
  rewrite theme_options_returns. cbn.
  now rewrite Hsame by discriminate.
Qed.

Lemma theme_charts_return (charts : list pyval) :
  Forall chart_shape charts ->
  (exists themed, mapM theme_chart charts = Ok themed) <->
  forallb plugins_tolerated charts = true.
Proof.
  induction 1 as [|chart charts Hchart _ IH]; cbn.
  - split; eauto.
  - rewrite andb_true_iff, <- IH, <- (theme_chart_returns chart Hchart).
    split.
    + intros [themed H]. inv_bind H as chart' Hchart'. inv_bind H as rest Hrest.
      eauto.
    + intros [[chart' ->] [rest ->]]. cbn. eauto.
Qed.

(** X15: when theming raises.  On a document that [validate_config]
    accepts, [apply_visualization_rules] returns exactly when the options
    of every chart are absent, have no [plugins], or have plugins that are
    a dict, or a list or a [str] in which [in] finds both ['title'] and
    ['legend'].  It raises for the others, such as a chart whose
    [options.plugins] is [None] or a number. *)
Theorem apply_visualization_rules_returns_iff (config : pyval)
    (charts : list pyval) :
  validate_config config = Ok (true, Text "") ->
  charts_of config = Some charts ->
  (exists result, apply_visualization_rules config = Ok result) <->
  forallb plugins_tolerated charts = true.
Proof.
  intros Hacc Hcharts. apply validate_config_accepts in Hacc.
  destruct Hacc as (c & charts0 & -> & Hc & Hshape & _).
  unfold charts_of in Hcharts. cbn in Hcharts. rewrite Hc in Hcharts.
  injection Hcharts as ->.
  inversion Hshape as [c' charts1 Hc1 _ Hall]; subst.
  rewrite Hc in Hc1. injection Hc1 as <-.
  rewrite <- (theme_charts_return charts Hall).
  unfold apply_visualization_rules.
  rewrite (dict_mem_true _ _ _ Hc). cbn. rewrite Hc. cbn.
  destruct (mapM theme_chart charts) as [themed|e]; cbn.
  - split; eauto.
  - split; intros [? H]; discriminate H.
Qed.

(** X15, at the document of scenario D, and at the same document with a
    chart whose [options.plugins] is [None]. *)
Lemma apply_visualization_rules_returns_iff_witness :
  (exists result, apply_visualization_rules pie_document = Ok result) /\
  ~ (exists result,
       apply_visualization_rules
         (PDict [ ("explanation", PStr "Share of sales by region");
                  ("charts",
                    PList [ PDict [ ("type", PStr "pie");
                                    ("title", PStr "Sales share");
                                    ("data",
                                      PDict [ ("labels", PList regions);
                                              ("datasets", PList [PDict pie_dataset]) ]);
                                    ("options",
                                      PDict [("plugins", PNone)]) ] ]) ])
       = Ok result).
Proof.
  split.
  - apply (apply_visualization_rules_returns_iff pie_document [pie_chart]);
      reflexivity.
  - intros H.
    eapply apply_visualization_rules_returns_iff in H;
      [|reflexivity|reflexivity].
    discriminate H.
Defined.

(** ** The type of an uploaded file *)

Lemma str_split_not_nil (sep : ascii) (s : string) : str_split sep s <> [].
Proof.
  induction s as [|ch rest IH]; cbn; [discriminate|].
  destruct (Ascii.eqb ch sep); [discriminate|].
  destruct (str_split sep rest); [contradiction | discriminate].
Qed.

Lemma last_cons_not_nil {A : Type} (x d : A) (l : list A) :
  l <> [] -> last (x :: l) d = last l d.
Proof. destruct l; [contradiction | reflexivity]. Qed.

Lemma str_split_dotless (s : string) :
  dotless s = true -> str_split "." s = [s].
Proof.
  induction s as [|ch rest IH]; cbn; [reflexivity|].
  intros H. apply andb_prop in H. destruct H as [Hch Hrest].
  apply negb_true_iff in Hch. rewrite Hch, (IH Hrest). reflexivity.
Qed.

Lemma last_str_split_append (stem ext : string) :
  last (str_split "." (stem ++ String "." ext)) EmptyString
  = last (str_split "." ext) EmptyString.
Proof.
  induction stem as [|ch rest IH]; cbn [String.append str_split].
  - rewrite Ascii.eqb_refl. apply last_cons_not_nil, str_split_not_nil.
  - destruct (Ascii.eqb ch ".").
    + rewrite last_cons_not_nil by apply str_split_not_nil. exact IH.
    + destruct (str_split "." (rest ++ String "." ext)) as [|first others] eqn:E.
      * now apply str_split_not_nil in E.
      * destruct others as [|second others].
        -- exfalso. clear IH.
           assert (H : (2 <= List.length (str_split "." (rest ++ String "." ext)))%nat).
           { clear E. induction rest as [|c r IHr]; cbn [String.append str_split].
             - rewrite Ascii.eqb_refl. cbn.
               destruct (str_split "." ext) eqn:E'; [now apply str_split_not_nil in E'|].
               cbn. lia.
             - destruct (Ascii.eqb c "."); [cbn; lia|].
               destruct (str_split "." (r ++ String "." ext)); [cbn in IHr; lia|].
               exact IHr. }
           rewrite E in H. cbn in H. lia.
        -- exact IH.
Qed.

(** X17: the type of an upload is read off the part of the file name that
    follows its last [.], whatever its case and whatever comes before; a
    name with no [.] is its own extension. *)
Theorem file_extension_last_segment (stem ext : string) :
  dotless ext = true ->
  file_extension (stem ++ String "." ext) = str_lower ext /\
  file_extension ext = str_lower ext.
Proof.
  intros H. unfold file_extension.
  rewrite last_str_split_append, (str_split_dotless ext H). auto.
Qed.

(** X17, at a name with two dots and an extension in upper case. *)
Lemma file_extension_last_segment_witness :
  file_extension "report.final.CSV" = "csv" /\ file_extension "CSV" = "csv".
Proof.
  apply (file_extension_last_segment "report.final" "CSV"). reflexivity.
Defined.

(** X16: [parse_file] has a parser for every type that
    [FileUploadViewSet.create] gives to a file: the call made for an upload
    never raises the [ValueError] for an unsupported type, and runs the
    parser that goes with the extension of the file. *)
Theorem upload_file_type_parsed (run : parser -> string -> result pyval)
    (name file_path file_type : string) :
  upload_file_type name = Some file_type ->
  exists parser,
    literal_get (file_extension name) parser_for = Some parser /\
    parse_file run file_path file_type = run parser file_path.
Proof.
  unfold upload_file_type, parse_file.
  generalize (file_extension name). intros ext H. cbn in H |- *.
  repeat match type of H with
         | (if String.eqb ext ?k then _ else _) = _ =>
             destruct (String.eqb ext k);
             [injection H as <-; eexists; split; reflexivity|]
         end.
  discriminate H.
Qed.

(** X16, at a spreadsheet with the older extension, for parsers that
    return the path they are given. *)
Lemma upload_file_type_parsed_witness :
  parse_file (fun _ file_path => Ok (PStr file_path))
    "/media/uploads/budget.XLS" "xlsx"
  = Ok (PStr "/media/uploads/budget.XLS").
Proof.
  destruct (upload_file_type_parsed (fun _ file_path => Ok (PStr file_path))
              "budget.XLS" "/media/uploads/budget.XLS" "xlsx" eq_refl)
    as (parser & _ & H).
  exact H.
Defined.

(** ** The text that [generate_with_json] parses *)

Lemma text_lstrip_whitespace (ws s : text) :
  forallb is_whitespace ws = true -> text_lstrip (ws ++ s) = text_lstrip s.
Proof.
  induction ws as [|c ws IH]; cbn; [reflexivity|].
  intros H. apply andb_prop in H. destruct H as [Hc Hws]. rewrite Hc. auto.
Qed.

Lemma text_lstrip_head (c : ascii) (s : text) :
  is_whitespace c = false -> text_lstrip (c :: s) = c :: s.
Proof. cbn. now intros ->. Qed.

Lemma forallb_rev {A : Type} (f : A -> bool) (l : list A) :
  forallb f (rev l) = forallb f l.
Proof.
  induction l as [|x l IH]; cbn; [reflexivity|].
  rewrite forallb_app, IH. cbn. rewrite andb_true_r. apply andb_comm.
Qed.

(** Stripping the white space around a text that neither begins nor ends
    with white space. *)
Lemma text_strip_around (before after s : text) (first final : ascii) :
  forallb is_whitespace before = true ->
  forallb is_whitespace after = true ->
  is_whitespace first = false ->
  is_whitespace final = false ->
  text_strip (before ++ (first :: s ++ [final]) ++ after) = first :: s ++ [final].
Proof.
  intros Hb Ha Hf Hl. unfold text_strip.
  rewrite (text_lstrip_whitespace _ _ Hb). cbn [app].
  rewrite (text_lstrip_head _ _ Hf).
  change (first :: (s ++ [final]) ++ after)
    with ((first :: s ++ [final]) ++ after).
  rewrite rev_app_distr, text_lstrip_whitespace by now rewrite forallb_rev.
  change (first :: s ++ [final]) with ((first :: s) ++ [final]).
  rewrite rev_app_distr. cbn [rev app].
  rewrite (text_lstrip_head _ _ Hl).
  change (final :: rev s ++ [first]) with ([final] ++ rev (first :: s)).
  rewrite rev_app_distr, rev_involutive. reflexivity.
Qed.

Lemma text_split_not_nil (sep : ascii) (s : text) : text_split sep s <> [].
Proof.
  induction s as [|c s IH]; cbn; [discriminate|].
  destruct (Ascii.eqb c sep); [discriminate|].
  destruct (text_split sep s); [contradiction | discriminate].
Qed.

Lemma text_split_without (sep : ascii) (s : text) :
  without sep s = true -> text_split sep s = [s].
Proof.
  induction s as [|c s IH]; cbn; [reflexivity|].
  intros H. apply andb_prop in H. destruct H as [Hc Hs].
  apply negb_true_iff in Hc. rewrite Hc, (IH Hs). reflexivity.
Qed.

(** The pieces of [a], then those of [b]. *)
Lemma text_split_app (sep : ascii) (a b : text) :
  text_split sep (a ++ sep :: b) = text_split sep a ++ text_split sep b.
Proof.
  induction a as [|c a IH]; cbn.
  - now rewrite Ascii.eqb_refl.
  - destruct (Ascii.eqb c sep); [now rewrite IH|].
    rewrite IH.
    destruct (text_split sep a) as [|first others] eqn:E;
      [now apply text_split_not_nil in E | reflexivity].
Qed.

Lemma text_join_split (sep : ascii) (s : text) :
  text_join [sep] (text_split sep s) = s.
Proof.
  induction s as [|c s IH]; cbn; [reflexivity|].
  destruct (Ascii.eqb c sep) eqn:Hc.
  - apply Ascii.eqb_eq in Hc. subst c.
    destruct (text_split sep s) as [|first others] eqn:E;
      [now apply text_split_not_nil in E|].
    change (text_join [sep] ([] :: first :: others))
      with ([] ++ [sep] ++ text_join [sep] (first :: others)).
    now rewrite IH.
  - destruct (text_split sep s) as [|first others] eqn:E;
      [now apply text_split_not_nil in E|].
    cbn in IH |- *. destruct others; cbn in IH |- *; now rewrite <- IH.
Qed.

(** A text without a backtick holds no occurrence of a text that begins
    with one. *)
Lemma remove_from_without (old s rest : text) :
  without backtick s = true ->
  remove_from (backtick :: old) 0 (s ++ rest)
  = s ++ remove_from (backtick :: old) 0 rest.
Proof.
  induction s as [|c s IH]; [reflexivity|].
  cbn [without forallb]. intros H. apply andb_prop in H. destruct H as [Hc Hs].
  apply negb_true_iff in Hc.
  cbn [app remove_from starts_with].
  rewrite Ascii.eqb_sym, Hc. cbn [andb]. f_equal. now apply IH.
Qed.

Lemma text_remove_without (old s : text) :
  without backtick s = true -> text_remove (backtick :: old) s = s.
Proof.
  intros H. unfold text_remove.
  rewrite <- (app_nil_r s) at 1. rewrite (remove_from_without _ _ _ H).
  cbn. apply app_nil_r.
Qed.

Lemma without_head (s : text) :
  without backtick s = true -> starts_with fence s = false.
Proof.
  destruct s as [|c s]; [reflexivity|].
  cbn [without forallb]. intros H. apply andb_prop in H. destruct H as [Hc _].
  apply negb_true_iff in Hc.
  unfold fence. cbn [list_ascii_of_string starts_with].
  fold backtick. now rewrite Ascii.eqb_sym, Hc.
Qed.

Lemma clean_response_without (s : text) :
  without backtick s = true -> clean_response s = text_strip s.
Proof.
  intros H. unfold clean_response.
  rewrite without_head; [reflexivity|].
  unfold text_strip, without. rewrite forallb_rev.
  assert (Hl : forall t, without backtick t = true ->
                         without backtick (text_lstrip t) = true).
  { induction t as [|c t IH]; [reflexivity|]. intros Ht. cbn.
    destruct (is_whitespace c); [|exact Ht].
    cbn in Ht. apply andb_prop in Ht. now apply IH. }
  apply Hl. unfold without. rewrite forallb_rev. now apply Hl.
Qed.

(** X18: a response in a fenced block parses as its body.  For a text made
    of a line that opens a fence (with [json] or anything else after the
    backticks), a body without backticks and a line that closes the fence,
    with any white space around, the text given to [json.loads] is the body
    without the white space at its ends, and [generate_with_json] returns
    what it returns for the body sent on its own. *)
Theorem clean_response_fenced (loads : text -> option pyval)
    (before lang body after : text) :
  forallb is_whitespace before = true ->
  forallb is_whitespace after = true ->
  without newline lang = true ->
  without backtick body = true ->
  body <> [] ->
  clean_response
    (before ++ (fence ++ lang ++ newline :: body ++ newline :: fence) ++ after)
  = text_strip body /\
  parse_response loads
    (Some (before ++ (fence ++ lang ++ newline :: body ++ newline :: fence)
             ++ after))
  = parse_response loads (Some body).
Proof.
  intros Hb Ha Hlang Hbody Hsome.
  assert (Hclean : clean_response
            (before ++ (fence ++ lang ++ newline :: body ++ newline :: fence)
               ++ after) = text_strip body).
  2: { split; [exact Hclean|]. unfold parse_response.
       rewrite Hclean, (clean_response_without body Hbody).
       destruct body as [|c body]; [contradiction|].
       destruct before; reflexivity. }
  assert (Hcore : fence ++ lang ++ newline :: body ++ newline :: fence
                  = backtick :: ([backtick; backtick] ++ lang ++ newline :: body
                                   ++ [newline; backtick; backtick]) ++ [backtick]).
  { unfold fence. cbn [list_ascii_of_string app]. fold backtick.
    do 3 f_equal. rewrite <- app_assoc. f_equal. cbn [app]. f_equal.
    now rewrite <- app_assoc. }
  assert (Hlines : fence ++ lang ++ newline :: body ++ newline :: fence
                   = (fence ++ lang) ++ newline :: (body ++ newline :: fence))
    by now rewrite <- app_assoc.
  unfold clean_response.
  rewrite Hcore,
    (text_strip_around before after _ backtick backtick Hb Ha eq_refl eq_refl).
  rewrite <- Hcore.
  assert (Hstarts : starts_with fence
                      (fence ++ lang ++ newline :: body ++ newline :: fence)
                    = true) by reflexivity.
  rewrite Hstarts, Hlines.
  rewrite text_split_app, text_split_app.
  rewrite (text_split_without newline (fence ++ lang)).
  2: { unfold without in Hlang |- *. rewrite forallb_app. now rewrite Hlang. }
  rewrite (text_split_without newline fence) by reflexivity.
  match goal with
  | |- context [(2 <? ?n)%nat] => assert (Hlen : (2 <? n)%nat = true)
  end.
  { apply Nat.ltb_lt. rewrite !length_app.
    destruct (text_split newline body) eqn:E;
      [now apply text_split_not_nil in E|].
    cbn [List.length]. lia. }
  rewrite Hlen. unfold middle. cbn [tl app].
  rewrite removelast_last, text_join_split.
  rewrite (text_remove_without _ _ Hbody : text_remove fence_json body = body).
  now rewrite (text_remove_without _ _ Hbody : text_remove fence body = body).
Qed.

(** X18, at a fenced block with a body of two lines, for a decoder that
    returns the text as a [str]. *)
Lemma clean_response_fenced_witness :
  parse_response (fun t => Some (PStr (string_of_list_ascii t)))
    (Some (list_ascii_of_string "```json" ++
           newline :: (list_ascii_of_string "[10, 20," ++
                       newline :: list_ascii_of_string " 30]") ++
           newline :: fence))
  = PStr (string_of_list_ascii
            (list_ascii_of_string "[10, 20," ++
             newline :: list_ascii_of_string " 30]")).
Proof.
  destruct (clean_response_fenced
              (fun t => Some (PStr (string_of_list_ascii t)))
              [] json_word
              (list_ascii_of_string "[10, 20," ++
               newline :: list_ascii_of_string " 30]") []
              eq_refl eq_refl eq_refl eq_refl) as [_ H]; [discriminate|].
  exact H.
Defined.

Lemma starts_with_split (p s : text) :
  starts_with p s = true -> s = p ++ skipn (List.length p) s.
Proof.
  revert s. induction p as [|a p IH]; intros s H; [reflexivity|].
  destruct s as [|b s]; [discriminate H|].
  cbn in H. apply andb_prop in H. destruct H as [Hab Hp].
  apply Ascii.eqb_eq in Hab. subst b. cbn. f_equal. now apply IH.
Qed.

(** A text that does not hold [c] begins a longer text as it begins the
    text up to the first [c]. *)
Lemma starts_with_before (p s t : text) (c : ascii) :
  without c p = true ->
  starts_with p (s ++ c :: t) = starts_with p s.
Proof.
  revert s. induction p as [|a p IH]; intros s H; [reflexivity|].
  cbn [without forallb] in H. apply andb_prop in H. destruct H as [Ha Hp].
  apply negb_true_iff in Ha.
  destruct s as [|b s]; cbn [app starts_with].
  - now rewrite Ha.
  - now rewrite IH.
Qed.

Lemma without_skipn (c : ascii) (n : nat) (s : text) :
  without c s = true -> without c (skipn n s) = true.
Proof.
  revert s. induction n as [|n IH]; intros s H; [exact H|].
  destruct s as [|x s]; [reflexivity|].
  cbn in H |- *. apply andb_prop in H. now apply IH.
Qed.

Lemma remove_from_step (old s : text) (c : ascii) :
  starts_with old (c :: s) = false ->
  remove_from old 0 (c :: s) = c :: remove_from old 0 s.
Proof. cbn [remove_from]. now intros ->. Qed.

(** Without [json] after the opening backticks, the first [replace] finds
    nothing to remove. *)
Lemma text_remove_fence_json_keeps (rest : text) :
  without backtick rest = true ->
  starts_with json_word rest = false ->
  text_remove fence_json (fence ++ rest ++ fence) = fence ++ rest ++ fence.
Proof.
  intros Hb Hjson. unfold text_remove.
  change (fence ++ rest ++ fence)
    with (backtick :: backtick :: backtick :: rest ++ fence).
  assert (H0 : starts_with fence_json
                 (backtick :: backtick :: backtick :: rest ++ fence) = false).
  { change (starts_with json_word (rest ++ backtick :: [backtick; backtick])
            = false).
    now rewrite starts_with_before. }
  rewrite (remove_from_step _ _ _ H0). f_equal.
  destruct rest as [|x rest]; [reflexivity|].
  cbn [without forallb] in Hb. apply andb_prop in Hb.
  destruct Hb as [Hx Hb]. apply negb_true_iff in Hx.
  assert (Hx' : Ascii.eqb backtick x = false) by now rewrite Ascii.eqb_sym.
  rewrite remove_from_step.
  2: { unfold fence_json. cbn [list_ascii_of_string starts_with app].
       fold backtick. rewrite !Ascii.eqb_refl, Hx'. reflexivity. }
  f_equal.
  rewrite remove_from_step.
  2: { unfold fence_json. cbn [list_ascii_of_string starts_with app].
       fold backtick. rewrite !Ascii.eqb_refl, Hx'. reflexivity. }
  f_equal.
  change fence_json with (backtick :: list_ascii_of_string "``json").
  rewrite remove_from_without; [reflexivity|].
  cbn [without forallb]. now rewrite Hx.
Qed.

Lemma text_strip_fenced (s : text) :
  text_strip (backtick :: s ++ [backtick]) = backtick :: s ++ [backtick].
Proof.
  pose proof (text_strip_around [] [] s backtick backtick
                eq_refl eq_refl eq_refl eq_refl) as H.
  cbn [app] in H. rewrite app_nil_r in H. exact H.
Qed.

(** X19: a response fenced on one line.  For a text made of three
    backticks, a rest without backticks or line breaks and three backticks,
    the [startswith] branch keeps the single line and the two [replace]
    calls remove the fences, and the word [json] when the rest begins with
    it: the text given to [json.loads] is what is left, without the white
    space at its ends. *)
Theorem clean_response_one_line (rest : text) :
  without backtick rest = true ->
  without newline rest = true ->
  clean_response (fence ++ rest ++ fence)
  = text_strip (if starts_with json_word rest then skipn 4 rest else rest).
Proof.
  intros Hb Hn.
  assert (Hcore : fence ++ rest ++ fence
                  = backtick :: ([backtick; backtick] ++ rest
                                   ++ [backtick; backtick]) ++ [backtick]).
  { unfold fence. cbn [list_ascii_of_string app]. fold backtick.
    do 3 f_equal. now rewrite <- app_assoc. }
  unfold clean_response.
  rewrite Hcore, text_strip_fenced, <- Hcore. clear Hcore.
  assert (Hstarts : starts_with fence (fence ++ rest ++ fence) = true)
    by reflexivity.
  rewrite Hstarts.
  rewrite text_split_without.
  2: { unfold without in Hn |- *. rewrite !forallb_app, Hn. reflexivity. }
  cbn [List.length Nat.ltb Nat.leb].
  destruct (starts_with json_word rest) eqn:Hjson.
  - apply starts_with_split in Hjson.
    pose proof (without_skipn backtick 4 rest Hb) as Hb'.
    cbn [List.length json_word list_ascii_of_string] in Hjson.
    set (rest' := skipn 4 rest) in *. rewrite Hjson.
    assert (H1 : text_remove fence_json (fence ++ (json_word ++ rest') ++ fence)
                 = rest' ++ fence).
    { unfold text_remove, fence_json, fence, json_word.
      cbn -[remove_from].
      change (remove_from ?old 0 (?a :: ?s))
        with (if starts_with old (a :: s)
              then remove_from old (List.length old - 1) s
              else a :: remove_from old 0 s).
      cbn -[remove_from]. cbn [remove_from].
      fold backtick.
      rewrite (remove_from_without _ rest' _ Hb').
      reflexivity. }
    unfold json_word in H1. cbn [list_ascii_of_string] in H1. rewrite H1.
    unfold text_remove, fence. cbn [list_ascii_of_string]. fold backtick.
    rewrite (remove_from_without _ rest' _ Hb'). cbn. now rewrite app_nil_r.
  - rewrite (text_remove_fence_json_keeps rest Hb Hjson).
    unfold text_remove, fence. cbn [list_ascii_of_string app remove_from].
    cbn [starts_with]. rewrite !Ascii.eqb_refl. cbn [andb List.length Nat.sub].
    fold backtick. rewrite (remove_from_without _ rest _ Hb).
    cbn. now rewrite app_nil_r.
Qed.

(** X19, at a response on one line. *)
Lemma clean_response_one_line_witness :
  clean_response (list_ascii_of_string "```json [10, 20, 30] ```")
  = list_ascii_of_string "[10, 20, 30]".
Proof.
  apply (clean_response_one_line (list_ascii_of_string "json [10, 20, 30] "));
    reflexivity.
Defined.

(** ** The active model *)

Lemma filter_name_absent (name : string) (table : list configuration) :
  ~ In name (map model_name table) ->
  filter (fun r => String.eqb (model_name r) name) table = [].
Proof.
  induction table as [|r table IH]; cbn; [reflexivity|].
  intros H. destruct (String.eqb_spec (model_name r) name) as [E|E].
  - exfalso. apply H. now left.
  - apply IH. intros Hin. apply H. now right.
Qed.

(** With distinct names, at most one row has a given name. *)
Lemma filter_name_unique (name : string) (table : list configuration) :
  NoDup (map model_name table) ->
  filter (fun r => String.eqb (model_name r) name) table = [] \/
  exists r, In r table /\ model_name r = name /\
            filter (fun r => String.eqb (model_name r) name) table = [r].
Proof.
  induction table as [|r table IH]; cbn; [auto|].
  intros H. inversion H as [|? ? Hnotin Hrest]; subst.
  destruct (String.eqb_spec (model_name r) name) as [E|E].
  - right. exists r. split; [now left|]. split; [assumption|].
    rewrite filter_name_absent; [reflexivity|]. now rewrite <- E.
  - destruct (IH Hrest) as [Hnone | (r' & Hin & Hname & Hone)]; [auto|].
    right. exists r'. auto.
Qed.

Lemma update_inactive_none (table : list configuration) :
  filter is_active (update_inactive table) = [].
Proof. induction table as [|r table IH]; cbn; auto. Qed.

Lemma save_not_there (config : configuration) (table : list configuration) :
  ~ In (pk config) (map pk table) -> save config table = table.
Proof.
  induction table as [|r table IH]; cbn; [reflexivity|].
  intros H. destruct (Nat.eqb_spec (pk r) (pk config)) as [E|E].
  - exfalso. apply H. now left.
  - f_equal. apply IH. intros Hin. apply H. now right.
Qed.

(** Saving an active copy of a row of a table with no active row and
    distinct primary keys leaves that copy as the only active row. *)
Lemma save_only_active (r : configuration) (table : list configuration) :
  NoDup (map pk table) ->
  In r table ->
  filter is_active table = [] ->
  filter is_active (save (with_active true r) table) = [with_active true r].
Proof.
  induction table as [|x table IH]; [contradiction|].
  intros Hpk Hin Hnone. inversion Hpk as [|? ? Hnotin Hrest]; subst.
  cbn in Hnone. destruct (is_active x) eqn:Hx; [discriminate Hnone|].
  cbn [save map]. fold (save (with_active true r) table).
  destruct Hin as [-> | Hin].
  - cbn [with_active pk]. rewrite Nat.eqb_refl. cbn [filter with_active is_active].
    rewrite save_not_there by exact Hnotin. now rewrite Hnone.
  - cbn [with_active pk].
    destruct (Nat.eqb_spec (pk x) (pk r)) as [E|E].
    + exfalso. apply Hnotin. rewrite E. now apply in_map.
    + cbn [filter]. rewrite Hx. now apply IH.
Qed.

Lemma save_keys (config : configuration) (table : list configuration) :
  map pk (save config table) = map pk table.
Proof.
  unfold save. rewrite map_map. apply map_ext. intros x.
  destruct (Nat.eqb_spec (pk x) (pk config)) as [E|E]; [now rewrite E | reflexivity].
Qed.

Lemma same_key_same_row (table : list configuration) (x r : configuration) :
  NoDup (map pk table) -> In x table -> In r table -> pk x = pk r -> x = r.
Proof.
  induction table as [|y table IH]; [contradiction|].
  intros Hpk Hx Hr E. inversion Hpk as [|? ? Hnotin Hrest]; subst.
  destruct Hx as [-> | Hx], Hr as [-> | Hr]; try reflexivity.
  - exfalso. apply Hnotin. rewrite E. now apply in_map.
  - exfalso. apply Hnotin. rewrite <- E. now apply in_map.
  - now apply IH.
Qed.

Lemma save_names (r : configuration) (b : bool) (table : list configuration) :
  NoDup (map pk table) -> In r table ->
  map model_name (save (with_active b r) table) = map model_name table.
Proof.
  intros Hpk Hr. unfold save. rewrite map_map. apply map_ext_in. intros x Hx.
  cbn [with_active pk].
  destruct (Nat.eqb_spec (pk x) (pk r)) as [E|E]; [|reflexivity].
  now rewrite (same_key_same_row table x r Hpk Hx Hr E).
Qed.

Lemma Permutation_filter_same {A : Type} (f : A -> bool) (l l' : list A) :
  Permutation l l' -> Permutation (filter f l) (filter f l').
Proof.
  induction 1 as [|x l l' _ IH|x y l|l l' l'' _ IH1 _ IH2]; cbn.
  - constructor.
  - destruct (f x); [now constructor | assumption].
  - destruct (f x), (f y); try apply Permutation_refl. constructor.
  - now transitivity (filter f l').
Qed.

Section ActiveModel.

(** The order of the rows of a query: [-is_active], then [-updated_at]; a
    rearrangement of the rows. *)
Variable order : list configuration -> list configuration.
Hypothesis order_permutation : forall l, Permutation (order l) l.

(** X20: after [set_active_model] at most one model is active.  In a table
    with distinct primary keys and distinct names, when a row has the name,
    the call returns that row made active, it is then the only active row,
    and it is what [get_active_model] returns; when no row has the name,
    the call returns [None] and leaves no active row at all, whatever was
    active before.  The keys and the names of the rows do not change. *)
Theorem set_active_model_exclusive (name : string)
    (table : list configuration) :
  NoDup (map pk table) ->
  NoDup (map model_name table) ->
  let (table', returned) := set_active_model name table in
  map pk table' = map pk table /\
  map model_name table' = map model_name table /\
  ((exists config,
      In config table /\ model_name config = name /\
      returned = inr (Some (with_active true config)) /\
      filter is_active table' = [with_active true config] /\
      get_active_model order table' = Some (with_active true config)) \/
   (~ In name (map model_name table) /\
    returned = inr None /\
    filter is_active table' = [] /\
    get_active_model order table' = None)).
Proof.
  intros Hpk Hname. unfold set_active_model, get_by_name.
  assert (Hpk1 : map pk (update_inactive table) = map pk table).
  { unfold update_inactive. rewrite map_map. reflexivity. }
  assert (Hname1 : map model_name (update_inactive table) = map model_name table).
  { unfold update_inactive. rewrite map_map. reflexivity. }
  assert (Hget : forall t, filter is_active t = [] ->
                           get_active_model order t = None).
  { intros t Ht. unfold get_active_model.
    pose proof (Permutation_filter_same is_active _ _ (order_permutation t)) as Hp.
    rewrite Ht in Hp. apply Permutation_sym, Permutation_nil in Hp.
    now rewrite Hp. }
  destruct (filter_name_unique name (update_inactive table))
    as [Hnone | (r & Hin & Hr & Hone)]; [now rewrite Hname1 | |].
  - rewrite Hnone. split; [assumption|]. split; [assumption|]. right.
    split.
    { intros Hin. rewrite <- Hname1 in Hin. apply in_map_iff in Hin.
      destruct Hin as (r & Hr & Hin).
      assert (Hf : In r (filter (fun r => String.eqb (model_name r) name)
                            (update_inactive table))).
      { apply filter_In. split; [assumption|]. rewrite Hr. apply String.eqb_refl. }
      now rewrite Hnone in Hf. }
    split; [reflexivity|]. split; [apply update_inactive_none|].
    apply Hget, update_inactive_none.
  - rewrite Hone.
    split; [now rewrite save_keys|].
    split; [rewrite save_names; [assumption | now rewrite Hpk1 | assumption]|].
    left.
    assert (Horigin : exists config, In config table /\ r = with_active false config).
    { unfold update_inactive in Hin. apply in_map_iff in Hin.
      destruct Hin as (config & <- & Hconfig). eauto. }
    destruct Horigin as (config & Hconfig & ->).
    exists config. cbn in Hr.
    assert (Hsame : with_active true (with_active false config)
                    = with_active true config) by reflexivity.
    rewrite Hsame in *.
    assert (Hsave : save (with_active true config) (update_inactive table)
                    = save (with_active true (with_active false config))
                        (update_inactive table)) by reflexivity.
    assert (Hone' : filter is_active
                      (save (with_active true config) (update_inactive table))
                    = [with_active true config]).
    { rewrite Hsave, save_only_active; [reflexivity | | assumption |].
      - now rewrite Hpk1.
      - apply update_inactive_none. }
    split; [assumption|]. split; [assumption|]. split; [reflexivity|].
    split; [assumption|].
    unfold get_active_model.
    pose proof (Permutation_filter_same is_active _ _
                  (order_permutation
                     (save (with_active true config) (update_inactive table))))
      as Hp.
    rewrite Hone' in Hp. apply Permutation_sym, Permutation_length_1_inv in Hp.
    now rewrite Hp.
Qed.

End ActiveModel.

(** X20, at a table of two models in which the other model is active. *)
Lemma set_active_model_exclusive_witness :
  filter is_active
    (fst (set_active_model "mistral"
            [ {| pk := 1; model_name := "llama3"; is_active := true |};
              {| pk := 2; model_name := "mistral"; is_active := false |} ]))
  = [ {| pk := 2; model_name := "mistral"; is_active := true |} ].
Proof.
  assert (Hpk : NoDup [1; 2]%nat).
  { repeat constructor; cbn; intuition discriminate. }
  assert (Hname : NoDup ["llama3"; "mistral"]).
  { repeat constructor; cbn; intuition discriminate. }
  pose proof (set_active_model_exclusive (fun l => l)
                (fun l => Permutation_refl l) "mistral"
                [ {| pk := 1; model_name := "llama3"; is_active := true |};
                  {| pk := 2; model_name := "mistral"; is_active := false |} ]
                Hpk Hname) as H.
  destruct (set_active_model "mistral" _) as [table' returned] eqn:E.
  destruct H as (_ & _ & [(config & _ & _ & Hreturned & Hfilter & _) | (Hno & _)]).
  - cbn [fst]. rewrite Hfilter. injection E as _ <-.
    injection Hreturned as Hk Hn. unfold with_active. congruence.
  - exfalso. apply Hno. right. now left.
Defined.

(** ** What the repair adds *)

Lemma fix_dataset_defaults (data dataset dataset' : pyval) :
  fix_dataset data dataset = Ok (Some dataset') ->
  dataset_repair_defaults dataset dataset'.
Proof.
  intros H. destruct dataset as [| | | | | |x]; try discriminate H.
  rewrite fix_dataset_dict in H. cbv zeta in H.
  destruct (dict_lookup "data" _) as [[| | | | |xs|]|] eqn:Hdv; try discriminate H.
  destruct (mapM to_number xs) as [ys|] eqn:Hys; [|discriminate H].
  inv_bind H as labels Hlabels. inv_bind H as n Hn. injection H as <-.
  intros Hno. cbn in Hno |- *. injection Hno as Hno.
  rewrite dict_lookup_set_other by discriminate.
  now rewrite ensure_lookup_absent.
Qed.

Lemma fix_chart_defaults (chart chart' : pyval) :
  fix_chart chart = Ok (Some chart') -> chart_repair_defaults chart chart'.
Proof.
  intros H. destruct chart as [| | | | | |c]; try discriminate H.
  unfold fix_chart in H. cbn in H.
  destruct (dict_mem "type" c) eqn:Htype; cbn in H; [|discriminate H].
  destruct (dict_mem "data" c) eqn:Hdata; cbn in H; [|discriminate H].
  inv_bind H as chart1 Htitle.
  assert (Htitle' : exists c1,
            chart1 = PDict c1 /\
            (forall k, k <> "title" -> dict_lookup k c1 = dict_lookup k c) /\
            (dict_mem "title" c = false ->
             exists t, dict_lookup "type" c = Some (PStr t) /\
               dict_lookup "title" c1
               = Some (PStr (String.append (str_title t) " Chart")))).
  { destruct (dict_mem "title" c); cbn in Htitle.
    - injection Htitle as <-. exists c. split; [reflexivity|].
      split; [reflexivity | discriminate].
    - destruct (dict_lookup "type" c) as [[| | | |t| |]|]; try discriminate Htitle.
      cbn in Htitle. injection Htitle as <-. eexists. split; [reflexivity|].
      split; [intros k Hk; now apply dict_lookup_set_other|].
      intros _. exists t. split; [reflexivity | apply dict_lookup_set_same]. }
  destruct Htitle' as (c1 & -> & Hsame1 & Hvalue1).
  inv_bind H as data Hget.
  inv_bind H as has_labels Hlabels. inv_bind H as missing Hmissing.
  destruct missing; [discriminate H|].
  inv_bind H as datasets Hdatasets. inv_bind H as items Hitems.
  inv_bind H as fixed Hfixed.
  destruct data as [| | | | | |d]; try discriminate Hdatasets.
  cbn in Hlabels. injection Hlabels as <-.
  destruct (dict_mem "labels" d) eqn:Hl; cbn in Hmissing; [|discriminate Hmissing].
  destruct (dict_mem "datasets" d) eqn:Hd; cbn in Hmissing; [|discriminate Hmissing].
  destruct (dict_mem_lookup _ _ Hd) as [dv Hdv].
  cbn in Hdatasets. rewrite Hdv in Hdatasets. injection Hdatasets as <-.
  cbn in Hget.
  destruct (dict_lookup "data" c1) as [dv1|] eqn:Hdv1;
    [|injection Hget as <-; discriminate Hl].
  injection Hget as ->.
  rewrite Hsame1 in Hdv1 by discriminate.
  destruct fixed as [|ds0 fixed]; [discriminate H|].
  cbn [py_setitem bind] in H.
  set (c2 := dict_set "data"
               (PDict (dict_set "datasets" (PList (ds0 :: fixed)) d)) c1) in *.
  assert (Hoptions : exists c3,
            chart' = PDict c3 /\
            (forall k, k <> "options" -> dict_lookup k c3 = dict_lookup k c2) /\
            (dict_mem "options" c2 = false ->
             exists title, dict_lookup "title" c2 = Some title /\
               dict_lookup "options" c3 = Some (default_options title))).
  { cbn in H. destruct (dict_mem "options" c2); cbn in H.
    - injection H as <-. exists c2. split; [reflexivity|].
      split; [reflexivity | discriminate].
    - destruct (dict_lookup "title" c2) as [title|]; [|discriminate H].
      cbn in H. injection H as <-. eexists. split; [reflexivity|].
      split; [intros k Hk; now apply dict_lookup_set_other|].
      intros _. exists title. split; [reflexivity | apply dict_lookup_set_same]. }
  destruct Hoptions as (c3 & -> & Hsame3 & Hvalue3).
  apply collectM_kept_rel in Hfixed.
  assert (Hlist : dv = PList items).
  { destruct dv as [| | | |s|l|dd]; try discriminate Hitems;
      cbn in Hitems; injection Hitems as <-; [|reflexivity|].
    - apply kept_none in Hfixed; [discriminate Hfixed|].
      intros x y Hin Hxy. apply in_map_iff in Hin. destruct Hin as (a & <- & _).
      discriminate Hxy.
    - apply kept_none in Hfixed; [discriminate Hfixed|].
      intros x y Hin Hxy. apply in_map_iff in Hin. destruct Hin as (a & <- & _).
      discriminate Hxy. }
  subst dv.
  assert (Htitle3 : dict_lookup "title" c3 = dict_lookup "title" c1).
  { rewrite Hsame3 by discriminate. unfold c2.
    now rewrite dict_lookup_set_other by discriminate. }
  split; [|split].
  - intros Hno. cbn in Hno. injection Hno as Hno.
    destruct (Hvalue1 Hno) as (t & Ht & Hv).
    exists t. cbn. now rewrite Ht, Htitle3, Hv.
  - intros Hno. cbn in Hno. injection Hno as Hno.
    destruct Hvalue3 as (title & Htv & Hov).
    { rewrite (dict_mem_eq_lookup "options" c c2); [exact Hno|].
      unfold c2. rewrite dict_lookup_set_other by discriminate.
      now apply Hsame1. }
    exists title. cbn. rewrite Hsame3 by discriminate. now rewrite Htv, Hov.
  - exists items, (ds0 :: fixed). unfold datasets_of. cbn.
    rewrite Hdv1. cbn. rewrite Hdv.
    rewrite Hsame3 by discriminate. unfold c2. rewrite dict_lookup_set_same. cbn.
    rewrite dict_lookup_set_same.
    split; [reflexivity|]. split; [reflexivity|].
    eapply kept_impl; [|exact Hfixed].
    intros x y. apply fix_dataset_defaults.
Qed.

(** X22: what the repair fills in.  A chart that [fix_common_issues] keeps
    and that had no title has the title made of its type, with a capital,
    and of [Chart]; one that had no options has the default options, whose
    title plugin shows the title of the chart; a dataset that is kept and
    had no label has the label [Dataset]. *)
Theorem fix_common_issues_defaults (config result : pyval)
    (charts : list pyval) :
  fix_common_issues config = Ok result ->
  charts_of config = Some charts ->
  exists charts',
    charts_of result = Some charts' /\
    kept chart_repair_defaults charts charts'.
Proof.
  intros H Hcharts. unfold charts_of in Hcharts.
  destruct config as [| | | | | |c]; try discriminate Hcharts.
  cbn in Hcharts.
  destruct (dict_lookup "charts" c) as [[| | | | |l|]|] eqn:Hc;
    try discriminate Hcharts.
  injection Hcharts as ->.
  unfold fix_common_issues in H. cbn in H. rewrite Hc in H. cbn in H.
  inv_bind H as fixed Hfixed. injection H as <-.
  apply collectM_kept_rel in Hfixed.
  exists fixed. split; [apply charts_of_set|].
  eapply kept_impl; [|exact Hfixed]. intros x y. apply fix_chart_defaults.
Qed.

(** X22, at a line chart without a title, options or a label. *)
Lemma fix_common_issues_defaults_witness :
  exists result chart',
    fix_common_issues
      (PDict [ ("explanation", PStr "Visits");
               ("charts",
                 PList [ PDict [ ("type", PStr "line");
                                 ("data",
                                   PDict [ ("labels", PList quarters);
                                           ("datasets",
                                             PList [ PDict [ ("data",
                                                               PList [PInt 10; PInt 20]) ] ]) ]) ] ]) ])
    = Ok result /\
    charts_of result = Some [chart'] /\
    py_getitem chart' "title" = Ok (PStr "Line Chart") /\
    py_getitem chart' "options" = Ok (default_options (PStr "Line Chart")).
Proof.
  eexists.
  destruct (fix_common_issues_defaults
              (PDict [ ("explanation", PStr "Visits");
                       ("charts",
                         PList [ PDict [ ("type", PStr "line");
                                         ("data",
                                           PDict [ ("labels", PList quarters);
                                                   ("datasets",
                                                     PList [ PDict [ ("data",
                                                                       PList [PInt 10; PInt 20]) ] ]) ]) ] ]) ])
              _ _ eq_refl eq_refl)
    as (charts' & Hcharts & Hkept).
  cbn in Hcharts. injection Hcharts as <-.
  eexists. split; [reflexivity|]. split; [reflexivity|].
  inversion Hkept as [|x y l l' Hxy Hrest|x l l' Hrest]; subst;
    [|inversion Hrest].
  destruct Hxy as (Htitle & Hoptions & _).
  destruct (Htitle eq_refl) as (t & Ht & Hv).
  destruct (Hoptions eq_refl) as (title & Htv & Hov).
  cbn in Ht. injection Ht as <-.
  split; [exact Hv|].
  rewrite Hv in Htv. injection Htv as <-. exact Hov.
Defined.

(** ** [chat] *)

Lemma chat_bind_assoc {A B C : Type} (c : chat_step A)
    (f : A -> chat_step B) (g : B -> chat_step C) :
  chat_bind (chat_bind c f) g = chat_bind c (fun a => chat_bind (f a) g).
Proof.
  destruct c as [written [e|a]]; cbn; [reflexivity|].
  destruct (f a) as [written' [e'|b]]; cbn; [reflexivity|].
  destruct (g b) as [written'' r]. now rewrite app_assoc.
Qed.

Lemma chat_body_eq (stores : event -> bool) (result : pyval) :
  chat_body stores result =
  if negb (truth result) then chat_raise Failed_to_generate else
  document <~ checked_document result ;;
  themed <~ call (apply_visualization_rules document) ;;
  chat_save stores themed.
Proof.
  unfold chat_body, checked_document.
  destruct (negb (truth result)); [reflexivity|].
  now rewrite chat_bind_assoc.
Qed.

Lemma chat_bind_nothing {A B : Type} (a : A) (k : A -> chat_step B) :
  chat_bind (([], inr a) : chat_step A) k = k a.
Proof. unfold chat_bind. now destruct (k a). Qed.

Lemma call_ok {A B : Type} (c : result A) (a : A) (k : A -> chat_step B) :
  c = Ok a -> chat_bind (call c) k = k a.
Proof. intros ->. apply chat_bind_nothing. Qed.

(** The document [chat] themes is one [validate_config] accepts: the
    value it was given or the repair of that value; until then nothing is
    written. *)
Lemma checked_document_cases (result : pyval) :
  (exists e,
     checked_document result = ([], inl e) /\
     (exists m, validate_config result = Ok (false, m)) /\
     ((exists x, e = Raised x /\ fix_common_issues result = Raise x) \/
      (exists repaired m,
         e = Invalid_config m /\
         fix_common_issues result = Ok repaired /\
         validate_config repaired = Ok (false, m)))) \/
  (exists document,
     checked_document result = ([], inr document) /\
     validate_config document = Ok (true, Text "") /\
     (document = result \/
      (exists m, validate_config result = Ok (false, m)) /\
      fix_common_issues result = Ok document)).
Proof.
  unfold checked_document.
  destruct (validate_config_cases result) as [Hv | [m Hv]]; rewrite Hv; cbn.
  - right. exists result. auto.
  - destruct (fix_common_issues result) as [document|x] eqn:Hfix; cbn.
    2: { left. exists (Raised x). split; [reflexivity|]. split; [eauto|].
         left. eauto. }
    destruct (validate_config_cases document) as [Hv' | [m' Hv']];
      rewrite Hv'; cbn.
    + right. exists document. split; [reflexivity|]. split; [assumption|].
      right. split; [eauto | reflexivity].
    + left. exists (Invalid_config m'). split; [reflexivity|]. split; [eauto|].
      right. exists document, m'. auto.
Qed.

(** *** Writes that the database may refuse *)

Lemma attempt_app (stores : event -> bool) (a b : list event) :
  attempt stores (a ++ b) =
  let (written, all) := attempt stores a in
  if all
  then let (written', all') := attempt stores b in (written ++ written', all')
  else (written, false).
Proof.
  induction a as [|ev a IH]; cbn.
  - now destruct (attempt stores b).
  - destruct (stores ev); [|reflexivity].
    rewrite IH. destruct (attempt stores a) as [written all].
    destruct all; [|reflexivity].
    now destruct (attempt stores b).
Qed.

Lemma attempt_accepted (stores : event -> bool) (events : list event) :
  forallb stores events = true -> attempt stores events = (events, true).
Proof.
  induction events as [|ev events IH]; cbn; [reflexivity|].
  intros H. apply andb_prop in H. destruct H as [Hev Hrest].
  now rewrite Hev, (IH Hrest).
Qed.

Lemma attempt_all (stores : event -> bool) (events written : list event) :
  attempt stores events = (written, true) ->
  written = events /\ forallb stores events = true.
Proof.
  revert written. induction events as [|ev events IH]; cbn; intros written H.
  - injection H as <-. auto.
  - destruct (stores ev); [|discriminate H].
    destruct (attempt stores events) as [w all]. injection H as <- ->.
    destruct (IH w eq_refl) as [-> ->]. auto.
Qed.


Lemma chat_except_cases (stores : event -> bool) (e : chat_error) :
  chat_except stores e = ([JobFailed e; ErrorMessage e], inr (Response500 e)) \/
  exists written, chat_except stores e = (written, inl Database_error).
Proof.
  unfold chat_except, write.
  destruct (stores (JobFailed e)); cbn; [|eauto].
  destruct (stores (ErrorMessage e)); cbn; eauto.
Qed.

(** The answer of [chat] after a [try] statement that has raised. *)
Lemma chat_raised (stores : event -> bool) (result : pyval)
    (before written : list event) (e0 : chat_error) (r : response) :
  chat_body stores result = (before, inl e0) ->
  chat stores result = (written, inr r) ->
  r = Response500 e0 /\ written = before ++ [JobFailed e0; ErrorMessage e0].
Proof.
  intros Hbody H. unfold chat in H. rewrite Hbody in H.
  destruct (chat_except_cases stores e0) as [Hc | [w Hc]]; rewrite Hc in H.
  - injection H as <- <-. auto.
  - discriminate H.
Qed.

Lemma chat_returned (stores : event -> bool) (result : pyval)
    (before : list event) (r : response) :
  chat_body stores result = (before, inr r) ->
  chat stores result = (before, inr r).
Proof. intros Hbody. unfold chat. now rewrite Hbody. Qed.

(** The rows saved for the charts of a document within the schema, up to the
    first that the database refuses. *)
Lemma save_visualizations_valid (stores : event -> bool)
    (r : list (string * pyval)) (explanation : pyval) (charts : list pyval) :
  dict_lookup "explanation" r = Some explanation ->
  forallb (valid chart_schema) charts = true ->
  exists rows,
    Forall2 (row_of explanation) charts rows /\
    save_visualizations stores (PDict r) charts =
      (let (written, all) := attempt stores (map VisualizationRow rows) in
       (written, if all then inr rows else inl Database_error)).
Proof.
  intros He. induction charts as [|chart rest IH]; cbn [forallb]; intros H.
  - exists []. split; [constructor | reflexivity].
  - apply andb_prop in H. destruct H as [Hchart Hrest].
    destruct (IH Hrest) as (rows & Hall & Hrows).
    pose proof (validate_chart_config_valid _ Hchart) as Hok.
    destruct chart as [| | | | | |c]; try discriminate Hchart.
    destruct (valid_chart_shape _ Hchart)
      as [c0 d title labels datasets Htitle Hdata Hlabels Hdatasets Hshape].
    assert (Htype : exists t, dict_lookup "type" c0 = Some t).
    { apply dict_mem_lookup. cbn in Hchart. split_andb. assumption. }
    destruct Htype as [t Htype].
    exists ({| viz_title := PStr title; viz_chart_type := t;
               viz_chart_config := PDict c0;
               viz_explanation := explanation |} :: rows).
    split.
    { constructor; [|assumption].
      unfold row_of. cbn. rewrite Htitle, Htype. auto. }
    cbn [save_visualizations]. rewrite Hok. cbn.
    rewrite Htitle, Htype, He. cbn. unfold write.
    destruct (stores _); cbn; [|reflexivity].
    rewrite Hrows.
    destruct (attempt stores (map VisualizationRow rows)) as [written all].
    destruct all; cbn; now rewrite ?app_nil_r.
Qed.

Lemma valid_document_explanation (r : list (string * pyval)) :
  valid CHART_CONFIG_SCHEMA (PDict r) = true ->
  exists s, dict_lookup "explanation" r = Some (PStr s) /\ s <> "".
Proof.
  intros H. cbn in H. split_andb.
  match goal with H : dict_mem "explanation" _ = true |- _ => use_required H e end.
  split_andb. destruct e as [| | | |s| |]; try discriminate.
  exists s. split; [assumption|]. destruct s; discriminate.
Qed.

(** Once the document is themed and within the schema, nothing that
    follows raises but a write, and no chart is left out. *)
Lemma chat_save_valid (stores : event -> bool) (r : list (string * pyval)) :
  valid CHART_CONFIG_SCHEMA (PDict r) = true ->
  exists explanation charts rows,
    dict_lookup "explanation" r = Some explanation /\
    dict_lookup "charts" r = Some (PList charts) /\
    Forall2 (row_of explanation) charts rows /\
    chat_save stores (PDict r) =
      (let (written, all) :=
         attempt stores (completed_writes explanation (List.length charts) rows) in
       (written,
        if all then inr (Response200 explanation rows) else inl Database_error)).
Proof.
  intros Hvalid.
  destruct (valid_document_explanation r Hvalid) as (s & He & _).
  destruct (valid_document_charts r Hvalid) as (charts & Hc & Hacc).
  rewrite charts_accepts in Hacc.
  apply andb_prop in Hacc. destruct Hacc as [_ Hacc].
  apply andb_prop in Hacc. destruct Hacc as [_ Hvalids].
  destruct (save_visualizations_valid stores r (PStr s) charts He Hvalids)
    as (rows & Hall & Hrows).
  exists (PStr s), charts, rows.
  split; [assumption|]. split; [assumption|]. split; [assumption|].
  unfold chat_save, completed_writes. cbn [attempt].
  cbn -[attempt save_visualizations]. rewrite He, Hc.
  cbn -[attempt save_visualizations]. unfold write.
  destruct (stores (AiMessage (PStr s) (List.length charts)));
    cbn -[attempt save_visualizations]; [|reflexivity].
  rewrite Hrows, attempt_app.
  destruct (attempt stores (map VisualizationRow rows)) as [written all].
  destruct all; cbn -[attempt]; [|reflexivity].
  cbn. destruct (stores (JobCompleted (PStr s) rows)); cbn;
    now rewrite ?app_nil_r.
Qed.

(** The run of [chat_body] on a document the checks accept, when theming
    returns. *)
Lemma chat_body_themed (stores : event -> bool)
    (result document themed : pyval) :
  truth result = true ->
  checked_document result = ([], inr document) ->
  validate_config document = Ok (true, Text "") ->
  apply_visualization_rules document = Ok themed ->
  exists explanation charts rows,
    validate_config themed = Ok (true, Text "") /\
    py_getitem themed "explanation" = Ok explanation /\
    charts_of themed = Some charts /\
    Forall2 (row_of explanation) charts rows /\
    chat_body stores result =
      (let (written, all) :=
         attempt stores (completed_writes explanation (List.length charts) rows) in
       (written,
        if all then inr (Response200 explanation rows) else inl Database_error)).
Proof.
  intros Htruth Hchecked Hacc Htheme.
  destruct (themed_document _ _ Hacc Htheme)
    as (c & charts & charts' & -> & Hc & -> & Hloop & Hvalid & Hlen).
  destruct (chat_save_valid stores _ Hvalid)
    as (explanation & charts1 & rows & He & Hc1 & Hrows & Hsave).
  exists explanation, charts1, rows.
  split.
  { apply (validate_config_pass _ charts'); try assumption.
    apply dict_lookup_set_same. }
  split; [cbn; now rewrite He|].
  split; [unfold charts_of; cbn; now rewrite Hc1|].
  split; [assumption|].
  rewrite chat_body_eq, Htruth, Hchecked. cbn [negb].
  rewrite chat_bind_nothing, (call_ok _ _ _ Htheme). exact Hsave.
Qed.

Lemma valid_document_truth (config : pyval) :
  valid CHART_CONFIG_SCHEMA config = true -> truth config = true.
Proof.
  intros H. destruct config as [| | | | | |c]; try discriminate H.
  destruct (valid_document_explanation c H) as (s & Hs & _).
  destruct c; [discriminate Hs | reflexivity].
Qed.

(** Theming returns for a valid document all of whose charts have options
    that it tolerates. *)
Lemma apply_visualization_rules_tolerated (config : pyval)
    (charts : list pyval) :
  validate_config config = Ok (true, Text "") ->
  charts_of config = Some charts ->
  forallb plugins_tolerated charts = true ->
  exists result, apply_visualization_rules config = Ok result.
Proof.
  intros Hacc Hcharts Hplugins. apply validate_config_accepts in Hacc.
  destruct Hacc as (c & charts0 & -> & Hc & Hshape & _).
  unfold charts_of in Hcharts. cbn in Hcharts. rewrite Hc in Hcharts.
  injection Hcharts as ->.
  inversion Hshape as [c' charts1 Hc1 _ Hall]; subst.
  rewrite Hc in Hc1. injection Hc1 as <-.
  apply (theme_charts_return charts Hall) in Hplugins.
  destruct Hplugins as [themed Hthemed].
  unfold apply_visualization_rules.
  rewrite (dict_mem_true _ _ _ Hc). cbn. rewrite Hc. cbn.
  rewrite Hthemed. cbn. eauto.
Qed.

(** A [chat] that answers with the visualizations has gone through the
    checks and through theming, and the database has refused no write. *)
Lemma chat_response200 (stores : event -> bool) (result : pyval)
    (written : list event) (explanation : pyval) (rows : list visualization) :
  chat stores result = (written, inr (Response200 explanation rows)) ->
  exists document themed charts,
    validate_config document = Ok (true, Text "") /\
    (document = result \/ fix_common_issues result = Ok document) /\
    apply_visualization_rules document = Ok themed /\
    validate_config themed = Ok (true, Text "") /\
    py_getitem themed "explanation" = Ok explanation /\
    charts_of themed = Some charts /\
    Forall2 (row_of explanation) charts rows /\
    written = completed_writes explanation (List.length charts) rows /\
    forallb stores written = true.
Proof.
  intros H.
  destruct (chat_body stores result) as [before [e0|r]] eqn:Hbody.
  { destruct (chat_raised _ _ _ _ _ _ Hbody H) as [Hr _]. discriminate Hr. }
  rewrite (chat_returned _ _ _ _ Hbody) in H. injection H as -> ->.
  destruct (truth result) eqn:Htruth.
  2: { rewrite chat_body_eq, Htruth in Hbody. discriminate Hbody. }
  destruct (checked_document_cases result)
    as [(e & Hchecked & _) | (document & Hchecked & Hacc & Hfrom)].
  { rewrite chat_body_eq, Htruth, Hchecked in Hbody. discriminate Hbody. }
  destruct (apply_visualization_rules document) as [themed|x] eqn:Htheme.
  2: { rewrite chat_body_eq, Htruth, Hchecked in Hbody. cbn [negb] in Hbody.
       rewrite chat_bind_nothing, Htheme in Hbody. discriminate Hbody. }
  destruct (chat_body_themed stores _ _ _ Htruth Hchecked Hacc Htheme)
    as (explanation' & charts & rows' & Hacc' & He & Hc & Hrows & Hrun).
  rewrite Hrun in Hbody.
  destruct (attempt stores _) as [w all] eqn:Hattempt.
  destruct all; [|discriminate Hbody].
  injection Hbody as -> <- <-.
  destruct (attempt_all _ _ _ Hattempt) as [-> Hstored].
  exists document, themed, charts.
  split; [assumption|]. split; [tauto|]. split; [assumption|].
  split; [assumption|]. split; [assumption|]. split; [assumption|].
  split; [assumption|]. split; [reflexivity | assumption].
Qed.

(** X9: a [chat] that answers with the visualizations has saved one row
    for every chart, in the order of the charts, none left out.  The charts
    are those of the themed document, which [validate_config] accepts and
    which comes from the value [chat] was given or from its repair; the
    writes are the message, the rows and the completed job, and nothing
    else.  This holds whatever rows the database refuses. *)
Theorem chat_completed (stores : event -> bool) (result : pyval)
    (written : list event) (explanation : pyval) (rows : list visualization) :
  chat stores result = (written, inr (Response200 explanation rows)) ->
  exists document themed charts,
    validate_config document = Ok (true, Text "") /\
    (document = result \/ fix_common_issues result = Ok document) /\
    apply_visualization_rules document = Ok themed /\
    validate_config themed = Ok (true, Text "") /\
    py_getitem themed "explanation" = Ok explanation /\
    charts_of themed = Some charts /\
    Forall2 (row_of explanation) charts rows /\
    written = completed_writes explanation (List.length charts) rows.
Proof.
  intros H.
  destruct (chat_response200 _ _ _ _ _ H)
    as (document & themed & charts & H1 & H2 & H3 & H4 & H5 & H6 & H7 & H8 & _).
  exists document, themed, charts. auto 10.
Qed.

(** X9, at the document of scenario D, for a database that refuses NaN. *)
Lemma chat_completed_witness :
  exists written explanation rows,
    chat refuses_nan pie_document
    = (written, inr (Response200 explanation rows)) /\
    exists document themed charts,
      validate_config document = Ok (true, Text "") /\
      (document = pie_document \/ fix_common_issues pie_document = Ok document) /\
      apply_visualization_rules document = Ok themed /\
      validate_config themed = Ok (true, Text "") /\
      py_getitem themed "explanation" = Ok explanation /\
      charts_of themed = Some charts /\
      Forall2 (row_of explanation) charts rows /\
      written = completed_writes explanation (List.length charts) rows.
Proof.
  do 3 eexists. split; [vm_compute; reflexivity|].
  apply (chat_completed refuses_nan pie_document). vm_compute. reflexivity.
Defined.



(** The run of [chat] on a document the checks accept and whose charts
    have options that theming tolerates. *)
Lemma chat_checked (stores : event -> bool) (result document : pyval)
    (charts : list pyval) :
  truth result = true ->
  checked_document result = ([], inr document) ->
  validate_config document = Ok (true, Text "") ->
  charts_of document = Some charts ->
  forallb plugins_tolerated charts = true ->
  exists themed explanation rows,
    apply_visualization_rules document = Ok themed /\
    py_getitem document "explanation" = Ok explanation /\
    Forall2 (fun chart row => theme_chart chart = Ok (viz_chart_config row))
            charts rows /\
    (forallb stores (completed_writes explanation (List.length charts) rows)
     = true ->
     chat stores result =
       (completed_writes explanation (List.length charts) rows,
        inr (Response200 explanation rows))) /\
    (forallb stores (completed_writes explanation (List.length charts) rows)
     = false ->
     exists written r,
       chat stores result = (written, r) /\
       r <> inr (Response200 explanation rows)).
Proof.
  intros Htruth Hchecked Hacc Hcharts Hplugins.
  destruct (apply_visualization_rules_tolerated _ _ Hacc Hcharts Hplugins)
    as [themed Htheme].
  destruct (chat_body_themed stores _ _ _ Htruth Hchecked Hacc Htheme)
    as (explanation & charts1 & rows & _ & He & Hc1 & Hrows & Hbody).
  destruct (themed_document _ _ Hacc Htheme)
    as (c & charts0 & charts' & -> & Hc & -> & Hloop & _ & _).
  unfold charts_of in Hcharts, Hc1. cbn in Hcharts, Hc1.
  rewrite Hc in Hcharts. rewrite dict_lookup_set_same in Hc1.
  injection Hcharts as ->. injection Hc1 as <-.
  rewrite <- (Forall2_length Hloop) in Hbody.
  exists (PDict (dict_set "charts" (PList charts') c)), explanation, rows.
  split; [assumption|]. split.
  { cbn in He |- *. rewrite dict_lookup_set_other in He by discriminate.
    exact He. }
  split.
  { clear - Hloop Hrows. revert rows Hrows.
    induction Hloop as [|chart chart' charts charts' Hchart _ IH];
      intros rows Hrows; inversion Hrows as [|? row ? rows' Hrow Hrest]; subst;
      constructor.
    - destruct Hrow as [Hrow _].
      exact (eq_trans Hchart (f_equal Ok (eq_sym Hrow))).
    - now apply IH. }
  split.
  - intros Hstored. apply chat_returned. rewrite Hbody.
    now rewrite (attempt_accepted _ _ Hstored).
  - intros Hrefused.
    destruct (attempt stores _) as [w all] eqn:Hattempt.
    destruct all.
    { apply attempt_all in Hattempt. destruct Hattempt as [_ Hall].
      rewrite Hall in Hrefused. discriminate Hrefused. }
    unfold chat. rewrite Hbody.
    destruct (chat_except stores Database_error) as [w' r'] eqn:Hexcept.
    exists (w ++ w'), r'. split; [reflexivity|].
    destruct (chat_except_cases stores Database_error) as [Hc1 | [w1 Hc1]];
      rewrite Hc1 in Hexcept; injection Hexcept as <- <-; discriminate.
Qed.

(** X11: a document that [validate_config] accepts and whose charts have
    options that theming tolerates (none, options without plugins, plugins
    that are a mapping, or a list or [str] that holds both names) is
    answered with the visualizations exactly when the database takes the
    writes: [chat] themes the document itself, not its repair, and saves
    one row for each chart, holding the themed chart.  When the database
    refuses one of these writes, the answer is not the visualizations. *)
Theorem chat_valid (stores : event -> bool) (result : pyval)
    (charts : list pyval) :
  validate_config result = Ok (true, Text "") ->
  charts_of result = Some charts ->
  forallb plugins_tolerated charts = true ->
  exists themed explanation rows,
    apply_visualization_rules result = Ok themed /\
    py_getitem result "explanation" = Ok explanation /\
    Forall2 (fun chart row => theme_chart chart = Ok (viz_chart_config row))
            charts rows /\
    (forallb stores (completed_writes explanation (List.length charts) rows)
     = true ->
     chat stores result =
       (completed_writes explanation (List.length charts) rows,
        inr (Response200 explanation rows))) /\
    (forallb stores (completed_writes explanation (List.length charts) rows)
     = false ->
     exists written r,
       chat stores result = (written, r) /\
       r <> inr (Response200 explanation rows)).
Proof.
  intros Hacc Hcharts Hplugins.
  apply (chat_checked stores result result charts); try assumption.
  - apply valid_document_truth. now apply validate_config_valid.
  - unfold checked_document. now rewrite Hacc.
Qed.

(** X11, at the document of scenario D, for a database that refuses NaN. *)
Lemma chat_valid_witness :
  exists explanation rows,
    chat refuses_nan pie_document
    = (completed_writes explanation 1 rows, inr (Response200 explanation rows)).
Proof.
  destruct (chat_valid refuses_nan pie_document [pie_chart]
              eq_refl eq_refl eq_refl)
    as (themed & explanation & rows & _ & _ & Hrows & Hstored & _).
  exists explanation, rows. apply Hstored.
  inversion Hrows as [|chart row charts rows' Hrow Hrest]; subst.
  inversion Hrest; subst.
  destruct row as [title chart_type chart_config text].
  cbn in Hrow |- *. vm_compute in Hrow. injection Hrow as <-. reflexivity.
Defined.

(** X12: a value that [validate_config] rejects and that
    [fix_common_issues] turns into a document it accepts, with charts whose
    options theming tolerates, is answered with the visualizations of the
    repaired document exactly when the database takes the writes: one row
    for each of the charts the repair has kept.  When the database refuses
    one of these writes, the answer is not the visualizations. *)
Theorem chat_repaired (stores : event -> bool) (result repaired : pyval)
    (m : message) (charts : list pyval) :
  validate_config result = Ok (false, m) ->
  fix_common_issues result = Ok repaired ->
  validate_config repaired = Ok (true, Text "") ->
  charts_of repaired = Some charts ->
  forallb plugins_tolerated charts = true ->
  exists themed explanation rows,
    apply_visualization_rules repaired = Ok themed /\
    py_getitem repaired "explanation" = Ok explanation /\
    Forall2 (fun chart row => theme_chart chart = Ok (viz_chart_config row))
            charts rows /\
    (forallb stores (completed_writes explanation (List.length charts) rows)
     = true ->
     chat stores result =
       (completed_writes explanation (List.length charts) rows,
        inr (Response200 explanation rows))) /\
    (forallb stores (completed_writes explanation (List.length charts) rows)
     = false ->
     exists written r,
       chat stores result = (written, r) /\
       r <> inr (Response200 explanation rows)).
Proof.
  intros Hrej Hfix Hacc Hcharts Hplugins.
  apply (chat_checked stores result repaired charts); try assumption.
  - destruct result as [| | | | | |c];
      try (cbn in Hfix; injection Hfix as <-; rewrite Hacc in Hrej;
           discriminate Hrej).
    destruct c; [|reflexivity].
    cbn in Hfix. injection Hfix as <-. vm_compute in Hacc. discriminate Hacc.
  - unfold checked_document. rewrite Hrej. cbn. rewrite Hfix. cbn.
    now rewrite Hacc.
Qed.

(** X12, at the document of scenario B, for a database that refuses NaN. *)
Lemma chat_repaired_witness :
  exists explanation rows,
    chat refuses_nan
      (one_chart_document "Sales by quarter" "bar" "Sales" "Revenue" quarters
         [PInt 10; PInt 20]) =
      (completed_writes explanation 1 rows, inr (Response200 explanation rows)).
Proof.
  edestruct (chat_repaired refuses_nan
               (one_chart_document "Sales by quarter" "bar" "Sales" "Revenue"
                  quarters [PInt 10; PInt 20]))
    as (themed & explanation & rows & _ & _ & Hrows & Hstored & _).
  - vm_compute. reflexivity.
  - vm_compute. reflexivity.
  - vm_compute. reflexivity.
  - vm_compute. reflexivity.
  - vm_compute. reflexivity.
  - exists explanation, rows. apply Hstored.
    inversion Hrows as [|chart row charts rows' Hrow Hrest]; subst.
    inversion Hrest; subst.
    destruct row as [title chart_type chart_config text].
  cbn in Hrow |- *. vm_compute in Hrow. injection Hrow as <-. reflexivity.
Defined.
(** ** The rows that [chat] saves *)

Lemma valid_chart_title_type (chart : pyval) :
  valid chart_schema chart = true ->
  exists title chart_type,
    py_getitem chart "title" = Ok (PStr title) /\ title <> "" /\
    py_getitem chart "type" = Ok (PStr chart_type) /\
    In chart_type (map fst CHART_TYPES).
Proof.
  intros H. destruct chart as [| | | | | |c]; try discriminate H.
  cbn in H. split_andb.
  match goal with H : dict_mem "type" _ = true |- _ => use_required H t end.
  match goal with H : dict_mem "title" _ = true |- _ => use_required H ti end.
  split_andb.
  destruct t as [| | | |t| |]; try discriminate.
  destruct ti as [| | | |title| |]; try discriminate.
  exists title, t. cbn.
  repeat match goal with H : dict_lookup _ c = Some _ |- _ => rewrite H; clear H end.
  split; [reflexivity|]. split.
  { destruct title; [discriminate | discriminate]. }
  split; [reflexivity|].
  match goal with H : (t =? "bar")%string || _ = true |- _ => rename H into Henum end.
  repeat (apply orb_prop in Henum; destruct Henum as [Henum|Henum];
          [apply String.eqb_eq in Henum; subst t; tauto|]).
  discriminate Henum.
Qed.

(** X21: the rows that a completed [chat] has saved can be shown.  There
    are between one and ten of them; each has a title that is a [str] and
    is not empty, a chart type among the choices of
    [Visualization.chart_type], a chart configuration within the schema and
    the explanation of the document, which is a [str] and is not empty. *)
Theorem chat_rows_well_formed (stores : event -> bool) (result : pyval)
    (written : list event) (explanation : pyval) (rows : list visualization) :
  chat stores result = (written, inr (Response200 explanation rows)) ->
  (1 <= List.length rows <= 10)%nat /\
  (exists s, explanation = PStr s /\ s <> "") /\
  Forall (row_well_formed explanation) rows.
Proof.
  intros H.
  destruct (chat_response200 _ _ _ _ _ H)
    as (document & themed & charts & _ & _ & _ & Hacc' & He & Hc & Hrows & _).
  apply validate_config_valid in Hacc'.
  destruct themed as [| | | | | |r]; try discriminate Hacc'.
  destruct (valid_document_explanation r Hacc') as (s & Hs & Hnonempty).
  destruct (valid_document_charts r Hacc') as (charts1 & Hc1 & Haccepts).
  unfold charts_of in Hc. cbn in Hc, He. rewrite Hc1 in Hc. injection Hc as ->.
  rewrite Hs in He. injection He as <-.
  rewrite charts_accepts in Haccepts.
  apply andb_prop in Haccepts. destruct Haccepts as [Hmin Haccepts].
  apply andb_prop in Haccepts. destruct Haccepts as [Hmax Hvalids].
  apply Nat.leb_le in Hmin, Hmax.
  split; [rewrite <- (Forall2_length Hrows); lia|].
  split; [eauto|].
  clear - Hrows Hvalids.
  induction Hrows as [|chart row charts rows Hrow _ IH]; constructor;
    cbn in Hvalids; apply andb_prop in Hvalids;
    destruct Hvalids as [Hvalid Hvalids]; [|now apply IH].
  destruct Hrow as (Hconfig & Htitle & Htype & Hexplanation).
  destruct (valid_chart_title_type chart Hvalid)
    as (title & chart_type & Htitle' & Hnonempty & Htype' & Hin).
  exists title, chart_type.
  rewrite Htitle' in Htitle. rewrite Htype' in Htype.
  injection Htitle as <-. injection Htype as <-.
  rewrite Hconfig. auto 10.
Qed.

(** X21, at the document of scenario D, for a database that refuses NaN. *)
Lemma chat_rows_well_formed_witness :
  exists written explanation rows,
    chat refuses_nan pie_document
    = (written, inr (Response200 explanation rows)) /\
    (1 <= List.length rows <= 10)%nat /\
    (exists s, explanation = PStr s /\ s <> "") /\
    Forall (row_well_formed explanation) rows.
Proof.
  do 3 eexists. split; [vm_compute; reflexivity|].
  eapply (chat_rows_well_formed refuses_nan pie_document).
  vm_compute. reflexivity.
Defined.

(** ** Theming only fills what is absent *)

Lemma ensure_lookup_other (k k' : string) (v : pyval) (d : list (string * pyval)) :
  k <> k' -> dict_lookup k (ensure k' v d) = dict_lookup k d.
Proof.
  intros Hk. unfold ensure. destruct (dict_mem k' d); [reflexivity|].
  now apply dict_lookup_set_other.
Qed.

Lemma ensure_absent (k : string) (v : pyval) (d : list (string * pyval)) :
  dict_mem k d = false -> dict_set k v d = ensure k v d.
Proof. intros H. unfold ensure. now rewrite H. Qed.

Lemma fills_refl (added : list string) (d : list (string * pyval)) :
  fills added d d.
Proof. split; auto. Qed.

Lemma fills_ensure (added : list string) (k : string) (v : pyval)
    (d0 d : list (string * pyval)) :
  In k added -> fills added d0 d -> fills added d0 (ensure k v d).
Proof.
  intros Hin [Hkept Hother]. split.
  - intros k' v' Hk'. now apply ensure_lookup_keeps, Hkept.
  - intros k' Hk'. rewrite ensure_lookup_other; [now apply Hother|].
    intros ->. contradiction.
Qed.

Lemma theme_dataset_filled (chart_type dataset dataset' : pyval) :
  is_dict dataset = true ->
  theme_dataset chart_type dataset = Ok dataset' ->
  dataset_filled dataset dataset'.
Proof.
  intros Hd H. destruct dataset as [| | | | | |x]; try discriminate Hd.
  rewrite theme_dataset_dict in H.
  exists x. destruct (dict_mem "backgroundColor" x) eqn:Hb.
  - injection H as <-. eexists. split; [reflexivity|]. split; [reflexivity|].
    apply fills_ensure; [cbn; tauto|].
    apply fills_ensure; [cbn; tauto|]. apply fills_refl.
  - inv_bind H as b Hbg. injection H as <-.
    rewrite (ensure_absent _ b _ Hb).
    eexists. split; [reflexivity|]. split; [reflexivity|].
    apply fills_ensure; [cbn; tauto|].
    apply fills_ensure; [cbn; tauto|].
    apply fills_ensure; [cbn; tauto|]. apply fills_refl.
Qed.

(** Plugins that are not a mapping and that theming tolerates: theming
    leaves the chart as it is. *)
Lemma theme_options_unchanged (c : list (string * pyval)) (chart' : pyval) :
  plugins_mapping (PDict c) = false ->
  theme_options (PDict c) = Ok chart' ->
  chart' = PDict c /\
  exists o plugins,
    dict_lookup "options" c = Some (PDict o) /\
    dict_lookup "plugins" o = Some plugins /\
    is_dict plugins = false /\
    py_in "title" plugins = Ok true /\
    py_in "legend" plugins = Ok true.
Proof.
  intros Hmap H.
  assert (Htol : plugins_tolerated (PDict c) = true)
    by (apply theme_options_returns; eauto).
  cbn in Hmap, Htol.
  destruct (dict_lookup "options" c) as [options|] eqn:Ho; [|discriminate Hmap].
  destruct options as [| | | | | |o]; try discriminate Htol.
  destruct (dict_lookup "plugins" o) as [plugins|] eqn:Hp; [|discriminate Hmap].
  assert (Hnot : is_dict plugins = false)
    by (destruct plugins; try reflexivity; discriminate Hmap).
  assert (Hin : py_in "title" plugins = Ok true /\
                py_in "legend" plugins = Ok true).
  { destruct plugins; try discriminate Hmap;
      destruct (py_in "title" _) as [[|]|]; try discriminate Htol;
      destruct (py_in "legend" _) as [[|]|]; try discriminate Htol; auto. }
  destruct Hin as [Ht Hl].
  assert (Hthemed : options_themed (PDict c)).
  { exists (PDict o), plugins. cbn. rewrite Ho, Hp. auto. }
  rewrite (theme_options_fixed c Hthemed) in H. injection H as <-.
  split; [reflexivity|]. exists o, plugins. auto.
Qed.

Lemma theme_options_filled (c : list (string * pyval)) (chart' : pyval) :
  theme_options (PDict c) = Ok chart' ->
  exists c' o o',
    chart' = PDict c' /\
    (forall k, k <> "options" -> dict_lookup k c' = dict_lookup k c) /\
    py_get (PDict c) "options" (PDict []) = Ok (PDict o) /\
    dict_lookup "options" c' = Some (PDict o') /\
    options_filled o o'.
Proof.
  intros H. destruct (plugins_mapping (PDict c)) eqn:Hmap.
  - destruct (theme_options_mapping c Hmap)
      as (o & p & text & Ho & Hp & Htext & Heq).
    rewrite Heq in H. injection H as <-.
    eexists. exists o. eexists. split; [reflexivity|]. split.
    { intros k Hk. now apply dict_lookup_set_other. }
    split; [assumption|]. split; [apply dict_lookup_set_same|].
    split.
    + intros k Hk. rewrite dict_lookup_set_other by assumption.
      now apply ensure_lookup_other.
    + assert (Hfill : fills ["title"; "legend"] p
                (ensure "legend" legend_plugin
                   (ensure "title" (title_plugin text) p))).
      { apply fills_ensure; [cbn; tauto|].
        apply fills_ensure; [cbn; tauto|]. apply fills_refl. }
      unfold ensure at 1 in Hp. unfold dict_mem in Hp.
      destruct (dict_lookup "plugins" o) as [plugins|] eqn:Hpl.
      * cbn iota in Hp. rewrite Hpl in Hp. injection Hp as ->.
        eexists. split; [apply dict_lookup_set_same | exact Hfill].
      * cbn iota in Hp. rewrite dict_lookup_set_same in Hp.
        injection Hp as <-.
        eexists. split; [apply dict_lookup_set_same | exact Hfill].
  - destruct (theme_options_unchanged c chart' Hmap H)
      as (-> & o & plugins & Ho & Hp & Hnot & _).
    exists c, o, o. split; [reflexivity|]. split; [reflexivity|].
    split; [cbn; now rewrite Ho|]. split; [assumption|].
    split; [reflexivity|]. rewrite Hp.
    destruct plugins; try reflexivity. discriminate Hnot.
Qed.

Lemma mapM_theme_dataset_filled (chart_type : pyval)
    (datasets datasets' : list pyval) :
  Forall dataset_shape datasets ->
  mapM (theme_dataset chart_type) datasets = Ok datasets' ->
  Forall2 dataset_filled datasets datasets'.
Proof.
  intros Hall H. apply mapM_Forall2 in H.
  eapply Forall2_impl_Forall; [|exact Hall|exact H].
  intros x y Hx Hxy. apply (theme_dataset_filled chart_type); [|exact Hxy].
  now destruct Hx.
Qed.

Lemma theme_chart_filled (chart chart' : pyval) :
  chart_shape chart -> theme_chart chart = Ok chart' -> chart_filled chart chart'.
Proof.
  intros Hshape H.
  destruct Hshape as [c d title labels datasets _ Hdata _ Hdatasets Hall].
  rewrite theme_chart_eq in H.
  inv_bind H as ct Hct. inv_bind H as items Hitems. inv_bind H as themed Hloop.
  unfold chart_items in Hitems. cbn in Hitems. rewrite Hdata in Hitems.
  cbn in Hitems. rewrite Hdatasets in Hitems. cbn in Hitems.
  injection Hitems as <-.
  unfold store_datasets in H. rewrite Hdata, Hdatasets in H.
  destruct (theme_options_filled _ _ H) as (c' & o & o' & -> & Hsame & Ho & Ho' & Hfilled).
  exists c, c', d, (dict_set "datasets" (PList themed) d), datasets, themed, o, o'.
  split; [reflexivity|]. split; [reflexivity|]. split.
  { intros k Hk1 Hk2. rewrite Hsame by assumption.
    now apply dict_lookup_set_other. }
  split; [assumption|]. split.
  { rewrite Hsame by discriminate. apply dict_lookup_set_same. }
  split.
  { intros k Hk. now apply dict_lookup_set_other. }
  split; [assumption|]. split; [apply dict_lookup_set_same|]. split.
  { now apply (mapM_theme_dataset_filled ct). }
  split; [|split; assumption].
  cbn in Ho |- *. now rewrite dict_lookup_set_other in Ho by discriminate.
Qed.

(** C5: theming a valid document only fills what is absent.  The charts
    and the datasets of each chart keep their number and their order.
    Every item a dataset has before theming (so its [backgroundColor],
    [borderColor] and [borderWidth]) is there afterwards with the same
    value, and the only keys a dataset can have gained are these three.
    Every plugin under [options.plugins] a chart has before theming (so its
    [title] and [legend]) is there afterwards with the same value, and the
    only plugins it can have gained are these two; the options other than
    [plugins] are the same; so are the items of [data] other than
    [datasets], the items of the chart other than [data] and [options],
    and the items of the document other than [charts]. *)
Theorem apply_visualization_rules_frame (config result : pyval) :
  validate_config config = Ok (true, Text "") ->
  apply_visualization_rules config = Ok result ->
  (exists charts charts',
      charts_of config = Some charts /\
      charts_of result = Some charts' /\
      Forall2 chart_frame charts charts') /\
  (forall k v, k <> "charts" ->
     py_getitem config k = Ok v -> py_getitem result k = Ok v) /\
  document_filled config result.
Proof.
  intros Hvalid H. apply validate_config_accepts in Hvalid.
  destruct Hvalid as (c & charts & -> & Hcharts & Hshape & _).
  inversion Hshape as [c' charts0 Hcharts0 _ Hall]; subst.
  rewrite Hcharts in Hcharts0. injection Hcharts0 as <-.
  assert (Hof : charts_of (PDict c) = Some charts)
    by (unfold charts_of; cbn; now rewrite Hcharts).
  destruct (apply_visualization_rules_charts _ _ _ H Hof)
    as (c0 & charts' & [= <-] & -> & Hloop).
  split; [|split].
  - exists charts, charts'. split; [assumption|]. split; [apply charts_of_set|].
    eapply Forall2_impl_Forall; [|exact Hall|exact Hloop].
    intros x y. apply theme_chart_frame.
  - intros k v Hk Hv. cbn in Hv |- *. now rewrite dict_lookup_set_other.
  - exists c, (dict_set "charts" (PList charts') c), charts, charts'.
    split; [reflexivity|]. split; [reflexivity|]. split.
    { intros k Hk. now apply dict_lookup_set_other. }
    split; [assumption|]. split; [apply dict_lookup_set_same|].
    eapply Forall2_impl_Forall; [|exact Hall|exact Hloop].
    intros x y. apply theme_chart_filled.
Qed.

(** C5, at a document whose first chart has a background colour, a border
    width, a title plugin, options other than plugins and a note in its
    data, and whose second chart has plugins that are a [str]. *)
Lemma apply_visualization_rules_frame_witness :
  exists result charts charts',
    apply_visualization_rules styled_document = Ok result /\
    charts_of styled_document = Some charts /\
    charts_of result = Some charts' /\
    Forall2 chart_frame charts charts' /\
    py_getitem result "explanation" = Ok (PStr "Sales and trend") /\
    document_filled styled_document result.
Proof.
  eexists.
  destruct (apply_visualization_rules_frame styled_document _ eq_refl eq_refl)
    as ((charts & charts' & H1 & H2 & H3) & H4 & H5).
  exists charts, charts'.
  split; [reflexivity|]. split; [assumption|]. split; [assumption|].
  split; [assumption|]. split; [|assumption].
  apply H4; [discriminate | reflexivity].
Defined.

(** ** After theming nothing is missing *)

Lemma theme_dataset_complete (chart_type dataset dataset' : pyval) :
  is_dict dataset = true ->
  theme_dataset chart_type dataset = Ok dataset' ->
  dataset_complete dataset'.
Proof.
  intros Hd H.
  destruct (theme_dataset_filled _ _ _ Hd H) as (x & x' & _ & -> & _).
  destruct (theme_dataset_themed _ _ _ H) as (Hb & Hc & Hw).
  cbn in Hb, Hc, Hw. injection Hb as Hb. injection Hc as Hc. injection Hw as Hw.
  unfold dict_mem in Hb, Hc, Hw. unfold dataset_complete. cbn.
  destruct (dict_lookup "backgroundColor" x') as [b|]; [|discriminate Hb].
  destruct (dict_lookup "borderColor" x') as [bc|]; [|discriminate Hc].
  destruct (dict_lookup "borderWidth" x') as [w|]; [|discriminate Hw].
  exists b, bc, w. auto.
Qed.

Lemma ensure_lookup_some (k : string) (v : pyval) (d : list (string * pyval)) :
  exists x, dict_lookup k (ensure k v d) = Some x.
Proof.
  unfold ensure. destruct (dict_mem k d) eqn:H.
  - unfold dict_mem in H. destruct (dict_lookup k d); [eauto | discriminate H].
  - rewrite dict_lookup_set_same. eauto.
Qed.

Lemma theme_options_complete (c : list (string * pyval)) (chart' : pyval) :
  theme_options (PDict c) = Ok chart' -> options_complete (PDict c) chart'.
Proof.
  intros H. split; intros Hmap.
  - destruct (theme_options_mapping c Hmap)
      as (o & p & text & _ & _ & _ & Heq).
    rewrite Heq in H. injection H as <-.
    unfold plugin_of. cbn. rewrite dict_lookup_set_same. cbn.
    rewrite dict_lookup_set_same. cbn.
    destruct (ensure_lookup_some "title" (title_plugin text) p) as [t Ht].
    destruct (ensure_lookup_some "legend" legend_plugin
                (ensure "title" (title_plugin text) p)) as [l Hl].
    exists t, l. rewrite Hl.
    rewrite (ensure_lookup_keeps _ _ _ _ _ Ht). auto.
  - destruct (theme_options_unchanged c chart' Hmap H)
      as (-> & o & plugins & Ho & Hp & _ & Ht & Hl).
    split; [reflexivity|].
    exists (PDict o), plugins. cbn. rewrite Ho, Hp. auto.
Qed.

Lemma theme_chart_complete (chart chart' : pyval) :
  chart_shape chart -> theme_chart chart = Ok chart' ->
  chart_complete chart chart'.
Proof.
  intros Hshape H. split.
  - rewrite theme_chart_eq in H.
    inv_bind H as ct Hct. inv_bind H as items Hitems. inv_bind H as themed Hloop.
    destruct chart as [| | | | | |c]; try discriminate Hct.
    destruct (store_datasets_is_dict c themed) as (c1 & Hc1 & Hkeep).
    rewrite Hc1 in H.
    destruct (theme_options_complete c1 chart' H) as [Hyes Hno].
    assert (Hsame : plugins_mapping (PDict c1) = plugins_mapping (PDict c))
      by (cbn; now rewrite (Hkeep "options") by discriminate).
    split; intros Hmap; rewrite <- Hsame in Hmap.
    + now apply Hyes.
    + destruct (Hno Hmap) as [Hoptions (options & plugins & Ho & Hrest)].
      cbn in Hoptions, Ho. rewrite (Hkeep "options") in Hoptions, Ho
        by discriminate.
      split; [exact Hoptions|]. exists options, plugins. auto.
  - destruct (chart_shape_datasets _ Hshape) as [datasets Hds].
    destruct (theme_chart_datasets _ _ _ H Hds)
      as (ct & datasets' & _ & Hds' & Hall).
    exists datasets'. split; [assumption|].
    destruct Hshape as [c d title labels datasets0 _ Hdata _ Hdatasets Hshapes].
    unfold datasets_of in Hds. cbn in Hds. rewrite Hdata in Hds. cbn in Hds.
    rewrite Hdatasets in Hds. injection Hds as <-.
    clear - Hall Hshapes.
    induction Hall as [|x y l l' Hxy _ IH]; constructor;
      inversion Hshapes as [|? ? Hx Hrest]; subst; [|now apply IH].
    apply (theme_dataset_complete ct x); [now destruct Hx | assumption].
Qed.

(** X13: after theming nothing is missing.  In the theming of a document
    that [validate_config] accepts, every dataset has a background colour,
    a border colour and a border width; every chart whose
    [options.plugins] were absent or a dict has a title and a legend under
    [options.plugins].  A chart whose [options.plugins] were a list or a
    [str] has no plugin added: its options are what they were, and [in]
    finds ['title'] and ['legend'] in the plugins, as an element of the
    list or as a part of the text. *)
Theorem apply_visualization_rules_complete (config result : pyval) :
  validate_config config = Ok (true, Text "") ->
  apply_visualization_rules config = Ok result ->
  exists charts charts',
    charts_of config = Some charts /\
    charts_of result = Some charts' /\
    Forall2 chart_complete charts charts'.
Proof.
  intros Hacc H.
  destruct (themed_document _ _ Hacc H)
    as (c & charts & charts' & -> & Hc & -> & Hloop & _ & _).
  exists charts, charts'. split.
  { unfold charts_of. cbn. now rewrite Hc. }
  split.
  { unfold charts_of. cbn. now rewrite dict_lookup_set_same. }
  apply validate_config_valid in Hacc.
  pose proof (valid_document_shape _ Hacc) as Hshape.
  inversion Hshape as [c0 charts0 Hc0 _ Hall]; subst.
  rewrite Hc in Hc0. injection Hc0 as <-.
  eapply Forall2_impl_Forall; [|exact Hall|exact Hloop].
  intros x y. apply theme_chart_complete.
Qed.

(** X13, at a document with a chart whose plugins are a dict and a chart
    whose plugins are the text ['subtitle, legend']. *)
Lemma apply_visualization_rules_complete_witness :
  exists result charts',
    apply_visualization_rules styled_document = Ok result /\
    charts_of result = Some charts' /\
    Forall2 chart_complete [styled_chart; named_plugins_chart] charts'.
Proof.
  eexists.
  destruct (apply_visualization_rules_complete styled_document _
              eq_refl eq_refl)
    as (charts & charts' & Hcharts & Hcharts' & Hall).
  exists charts'. split; [reflexivity|]. split; [assumption|].
  vm_compute in Hcharts. injection Hcharts as <-. exact Hall.
Defined.

(** ** [validate_config] does not raise *)


(** The body of the [try] statement returns on every value the schema
    accepts, and raises [ValidationError] on the others, whatever their
    type: the loop that follows the schema validation raises nothing. *)
Lemma validate_config_body_outcome (config : pyval) :
  if valid CHART_CONFIG_SCHEMA config
  then exists r, validate_config_body config = Ok r
  else validate_config_body config = Raise ValidationError.
Proof.
  unfold validate_config_body, validate.
  destruct (valid CHART_CONFIG_SCHEMA config) eqn:Hvalid; [|reflexivity].
  destruct (valid_document_shape _ Hvalid) as [c charts Hc _ Hall].
  cbn. rewrite Hc. cbn.
  destruct (validate_charts_outcome charts Hall)
    as [Hloop | (chart & labels & datasets & dataset & xs & title &
                 _ & _ & _ & _ & _ & _ & _ & Hloop)];
    rewrite Hloop; cbn; eauto.
Qed.

(** A [str(e)] or a [logger.error] that raises on a [ValidationError]
    makes [validate_config] raise on every value the schema rejects. *)
Lemma validate_config_handled_raises (str_ : exn -> result message)
    (log : string -> message -> result unit) (config : pyval) (x : exn) :
  valid CHART_CONFIG_SCHEMA config = false ->
  (str_ ValidationError = Raise x \/
   exists m, str_ ValidationError = Ok m /\
             log "Validation error: " m = Raise x) ->
  validate_config_handled str_ log config = Raise x.
Proof.
  intros Hvalid H. unfold validate_config_handled.
  pose proof (validate_config_body_outcome config) as Hbody.
  rewrite Hvalid in Hbody. rewrite Hbody.
  destruct H as [-> | (m & -> & Hlog)]; [reflexivity|].
  cbn. now rewrite Hlog.
Qed.


